(** * Browser client of the multimodal moderation demo

    A shallow embedding of the three client scripts
    [frontend/js/api.js] (with [config.js]), [frontend/js/ui.js] and
    [frontend/js/app.js], and the properties of the submit flow, the API
    client and the view controller.

    Modelling conventions.
    - JavaScript numbers are IEEE 754 binary64 values, taken from
      [SpecFloat]; [a >= b] is [SFleb b a] and [a > b] is [SFltb b a], so a
      comparison with NaN is false as in the language.
    - JSON payloads are values of [JsVal]; property access, truthiness and
      the string and number coercions follow ECMAScript.  Three built-ins
      whose algorithms are outside the program (number formatting and
      number parsing) are fields of the class [Builtins].
    - Strings are byte strings holding UTF-8.
    - The page is a list of nodes in document order; its markup is not
      part of the scripts, so every statement is about an arbitrary page.
      A node reference is an index in that list; no operation of the
      program adds, removes or renames a node, so the reference the
      controller caches in [this.elements] and a fresh [getElementById]
      denote the same node.  A lookup that finds nothing yields null, and
      a property read on null throws as in the language.
    - Methods are computations in a state and exception monad over the
      page, the controller fields and the trace of browser calls
      ([alert], [fetch], timers).  [console] output is not modelled, nor
      are the registration of event handlers and the file preview.
    - An [await] on the network is answered by the environment: the
      outcome of [fetch] and of [response.json()] is an input of the model.
      [startModeration] is one computation, in which no handler runs while
      the request is pending; [after_reply] is the part of it that follows
      the reply, and a statement that has to hold whatever a handler did
      in between is made about [after_reply] in an arbitrary state.  The
      captions that the interval timer of [updateLoadingProgress] rotates
      while a request is pending are not tracked.
    - The selector parser and the text of the messages of the errors that
      the engine raises are outside the program: a selector text that is
      not a plain attribute selector is answered by the class
      [Selectors], and the message of a [TypeError] of the engine stands
      for whatever text the engine gives it. *)

From Stdlib Require Import ZArith NArith String Ascii List Bool Lia Floats.
From stdpp Require Import base list strings option pretty.

Open Scope string_scope.
Open Scope list_scope.

(** ** Numbers *)

Definition number : Type := spec_float.

Definition NaN : number := S754_nan.
Definition num_zero : number := S754_zero false.
Definition num_one : number := Eval vm_compute in Prim2SF 1%float.
Definition num_100 : number := Eval vm_compute in Prim2SF 100%float.

(** The literals [0.4], [0.6], [0.7] and [0.8], each the nearest binary64
    value as the language reads them. *)
Definition num_0_4 : number := Eval vm_compute in Prim2SF 0.4%float.
Definition num_0_6 : number := Eval vm_compute in Prim2SF 0.6%float.
Definition num_0_7 : number := Eval vm_compute in Prim2SF 0.7%float.
Definition num_0_8 : number := Eval vm_compute in Prim2SF 0.8%float.

(** [a >= b], [a > b], [a <= b], [a < b] and [a * b] on numbers. *)
Definition num_ge (a b : number) : bool := SFleb b a.
Definition num_gt (a b : number) : bool := SFltb b a.
Definition num_le (a b : number) : bool := SFleb a b.
Definition num_lt (a b : number) : bool := SFltb a b.
Definition num_mul (a b : number) : number := SFmul prec emax a b.

(** The number with the value of a natural number (array lengths). *)
Definition num_of_nat (n : nat) : number :=
  binary_normalize prec emax (Z.of_nat n) 0 false.

(** ** Values *)

Inductive JsVal : Type :=
| VUndefined
| VNull
| VBool (b : bool)
| VNum (n : number)
| VStr (s : string)
| VArr (items : list JsVal)
| VObj (props : list (string * JsVal)).

(** Error objects: only [name] and [message] are read by the program. *)
Record JsError : Type := mkError { err_name : string; err_message : string }.

(** [new Error(msg)] *)
Definition Error (msg : string) : JsError := mkError "Error" msg.

(** The error of a property read or a call on [null] or [undefined], or of
    a call of something that is not a function.  The name is fixed by the
    language; the text of the message is chosen by the engine, and the
    text here stands for it. *)
Definition TypeError (what : string) : JsError :=
  mkError "TypeError" ("Cannot read properties of null or undefined: " +:+ what).

(** A computation step either yields a value or throws. *)
Inductive Completion (A : Type) : Type :=
| Normal (a : A)
| Throw (e : JsError).
Arguments Normal {A} a.
Arguments Throw {A} e.

(** Built-ins of the language whose algorithms are not part of the program. *)
Class Builtins : Type := {
  (** [Number::toString(x)], radix 10 *)
  Number_toString : number -> string;
  (** [StringToNumber(s)] *)
  String_toNumber : string -> number;
  (** [Number.prototype.toFixed(digits)] *)
  Number_toFixed : number -> nat -> string
}.

(** Number of UTF-16 code units of a UTF-8 string: one per character, two
    for a character outside the basic plane (lead byte 0xF0 and above). *)
Fixpoint utf16_length (s : string) : nat :=
  match s with
  | EmptyString => 0
  | String c s' =>
      let b := nat_of_ascii c in
      (if (b <? 128)%nat then 1
       else if (b <? 192)%nat then 0
       else if (b <? 240)%nat then 1 else 2) + utf16_length s'
  end.

Fixpoint assoc {A} (k : string) (props : list (string * A)) : option A :=
  match props with
  | [] => None
  | (k', v) :: rest => if String.eqb k k' then Some v else assoc k rest
  end.

(** [v.k] for the data properties the program reads.  An object is given
    by its own properties. *)
Definition getProp (v : JsVal) (k : string) : Completion JsVal :=
  match v with
  | VUndefined | VNull => Throw (TypeError k)
  | VBool _ | VNum _ => Normal VUndefined
  | VStr s =>
      if String.eqb k "length" then Normal (VNum (num_of_nat (utf16_length s)))
      else Normal VUndefined
  | VArr items =>
      if String.eqb k "length" then Normal (VNum (num_of_nat (length items)))
      else Normal VUndefined
  | VObj props => Normal (default VUndefined (assoc k props))
  end.

(** [v?.k] *)
Definition getPropOpt (v : JsVal) (k : string) : Completion JsVal :=
  match v with
  | VUndefined | VNull => Normal VUndefined
  | _ => getProp v k
  end.

(** [ToBoolean] *)
Definition truthy (v : JsVal) : bool :=
  match v with
  | VUndefined | VNull => false
  | VBool b => b
  | VNum n =>
      match n with
      | S754_zero _ | S754_nan => false
      | _ => true
      end
  | VStr s => negb (String.eqb s "")
  | VArr _ | VObj _ => true
  end.

(** [a || b] *)
Definition js_or (a b : JsVal) : JsVal := if truthy a then a else b.

(** [v !== undefined] *)
Definition is_defined (v : JsVal) : bool :=
  match v with VUndefined => false | _ => true end.

Section Coercions.

Context `{Builtins}.

(** [ToString]: arrays join their elements with a comma, [null] and
    [undefined] elements giving the empty string. *)
Fixpoint ToString (v : JsVal) : string :=
  match v with
  | VUndefined => "undefined"
  | VNull => "null"
  | VBool true => "true"
  | VBool false => "false"
  | VNum n => Number_toString n
  | VStr s => s
  | VArr items =>
      (fix join (l : list JsVal) : string :=
         match l with
         | [] => ""
         | x :: l' =>
             let sx := match x with
                       | VUndefined | VNull => ""
                       | _ => ToString x
                       end in
             match l' with
             | [] => sx
             | _ :: _ => sx +:+ "," +:+ join l'
             end
         end) items
  | VObj _ => "[object Object]"
  end.

(** [ToNumber] *)
Definition ToNumber (v : JsVal) : number :=
  match v with
  | VUndefined => NaN
  | VNull => num_zero
  | VBool true => num_one
  | VBool false => num_zero
  | VNum n => n
  | VStr s => String_toNumber s
  | VArr _ | VObj _ => String_toNumber (ToString v)
  end.

(** [v >= t] and [v > t] against a number literal [t]. *)
Definition js_ge (v : JsVal) (t : number) : bool := num_ge (ToNumber v) t.
Definition js_gt (v : JsVal) (t : number) : bool := num_gt (ToNumber v) t.

End Coercions.

(** ** [config.js] *)

Record RiskLevel : Type := mkRiskLevel {
  threshold : number;
  class : string;
  text : string
}.

Module CONFIG.

Module API.

Definition BASE_URL : string := "".

Module ENDPOINTS.

Definition MODERATE : string := "/api/moderate".
Definition HEALTH : string := "/api/health".

End ENDPOINTS.

(** milliseconds *)
Definition TIMEOUT : N := 120000.

End API.

Module UI.

Definition LOADING_STEPS : list (string * list string) :=
  [ ("text", ["加载分词器..."; "提取文本特征..."; "语义分析..."; "生成跨模态表征..."]);
    ("image", ["加载图像..."; "OCR文本提取..."; "CLIP视觉编码..."; "跨模态对齐..."]);
    ("audio", ["加载音频..."; "Whisper转录..."; "文本语义分析..."; "时序特征提取..."]);
    ("video", ["加载视频..."; "提取音频轨道..."; "关键帧采样..."; "多模态融合..."]) ].

Module RISK_LEVELS.

Definition SAFE : RiskLevel :=
  mkRiskLevel num_zero "risk-safe" "✅ 内容正常".
Definition WARNING : RiskLevel :=
  mkRiskLevel num_0_6 "risk-warning" "⚠️ 中度风险".
Definition DANGER : RiskLevel :=
  mkRiskLevel num_0_8 "risk-danger" "🚨 高风险违规".

End RISK_LEVELS.

End UI.

Module VIDEO.

(** bytes *)
Definition MAX_SIZE : N := 50 * 1024 * 1024.
Definition FRAME_COUNT : N := 3.

End VIDEO.

End CONFIG.

(** ** The page, the controller fields and the trace *)

Record File : Type := mkFile { file_name : string; file_size : N }.

(** A node of the page with the properties the scripts read or write.
    [value] is meaningful on the text control and [files] on file inputs. *)
Record Node : Type := mkNode {
  node_id : option string;
  dataMode : option string;
  classList : list string;
  textContent : string;
  innerHTML : string;
  disabled : bool;
  display : string;
  value : string;
  files : list File
}.

Definition with_classList (f : list string -> list string) (n : Node) : Node :=
  mkNode (node_id n) (dataMode n) (f (classList n)) (textContent n)
         (innerHTML n) (disabled n) (display n) (value n) (files n).
Definition with_textContent (s : string) (n : Node) : Node :=
  mkNode (node_id n) (dataMode n) (classList n) s
         (innerHTML n) (disabled n) (display n) (value n) (files n).
Definition with_innerHTML (s : string) (n : Node) : Node :=
  mkNode (node_id n) (dataMode n) (classList n) (textContent n)
         s (disabled n) (display n) (value n) (files n).
Definition with_disabled (b : bool) (n : Node) : Node :=
  mkNode (node_id n) (dataMode n) (classList n) (textContent n)
         (innerHTML n) b (display n) (value n) (files n).
Definition with_display (s : string) (n : Node) : Node :=
  mkNode (node_id n) (dataMode n) (classList n) (textContent n)
         (innerHTML n) (disabled n) s (value n) (files n).

(** A field of a multipart form. *)
Inductive FormValue : Type :=
| FVString (s : string)
| FVFile (f : File).

Definition FormData : Type := list (string * FormValue).

Record Request : Type := mkRequest {
  url : string;
  method : string;
  body : option FormData;
  (** whether an abort signal is attached *)
  signal : bool
}.

(** What the server sent: the status line and the outcome of
    [response.json()]. *)
Record Response : Type := mkResponse {
  status : N;
  json : Completion JsVal
}.

(** [response.ok]: the status is in the range 200-299. *)
Definition ok (r : Response) : bool :=
  ((200 <=? status r) && (status r <=? 299))%N.

(** [await fetch(...)] either rejects or resolves with a response. *)
Inductive FetchOutcome : Type :=
| FetchRejected (e : JsError)
| FetchResolved (r : Response).

Definition Network : Type := Request -> FetchOutcome.

Inductive Event : Type :=
| EvAlert (msg : string)
| EvFetch (req : Request)
| EvSetTimeout (ms : N)
| EvClearTimeout
| EvSetInterval (ms : N).

(** Fields of the [UIController] instance; [modeTabs] and [panels] are the
    static node lists taken by the constructor. *)
Record UIState : Type := mkUI {
  currentMode : string;
  isProcessing : bool;
  modeTabs : list nat;
  panels : list nat
}.

Record World : Type := mkWorld {
  page : list Node;
  ui : UIState;
  trace : list Event
}.

Definition with_page (f : list Node -> list Node) (w : World) : World :=
  mkWorld (f (page w)) (ui w) (trace w).
Definition with_ui (f : UIState -> UIState) (w : World) : World :=
  mkWorld (page w) (f (ui w)) (trace w).
Definition with_trace (f : list Event -> list Event) (w : World) : World :=
  mkWorld (page w) (ui w) (f (trace w)).

(** ** The monad of methods *)

Definition M (A : Type) : Type := World -> Completion A * World.

Definition ret {A} (a : A) : M A := fun w => (Normal a, w).
Definition throw {A} (e : JsError) : M A := fun w => (Throw e, w).
Definition bind {A B} (m : M A) (k : A -> M B) : M B :=
  fun w =>
    match m w with
    | (Normal a, w') => k a w'
    | (Throw e, w') => (Throw e, w')
    end.

Declare Scope js_scope.
Delimit Scope js_scope with js.
Notation "'let*' x := m 'in' k" := (bind m (fun x => k))
  (at level 10, x name, m at level 100, k at level 200) : js_scope.
Notation "m ;;; k" := (bind m (fun _ => k))
  (at level 100, k at level 200, right associativity) : js_scope.
Open Scope js_scope.

(** [try { body } catch (e) { handler e }] *)
Definition try_catch {A} (body : M A) (handler : JsError -> M A) : M A :=
  fun w =>
    match body w with
    | (Normal a, w') => (Normal a, w')
    | (Throw e, w') => handler e w'
    end.

(** [try { body } finally { fin }]: a throw of [fin] replaces the
    completion of [body]. *)
Definition try_finally {A} (body : M A) (fin : M unit) : M A :=
  fun w =>
    match body w with
    | (c, w') =>
        match fin w' with
        | (Normal _, w'') => (c, w'')
        | (Throw e, w'') => (Throw e, w'')
        end
    end.

(** A completion computed without touching the state. *)
Definition lift {A} (c : Completion A) : M A := fun w => (c, w).

Definition log (e : Event) : M unit :=
  fun w => (Normal tt, with_trace (fun t => t ++ [e]) w).

Definition get_ui {A} (f : UIState -> A) : M A := fun w => (Normal (f (ui w)), w).
Definition set_currentMode (m : string) : M unit :=
  fun w => (Normal tt,
            with_ui (fun u => mkUI m (isProcessing u) (modeTabs u) (panels u)) w).
Definition set_isProcessing (b : bool) : M unit :=
  fun w => (Normal tt,
            with_ui (fun u => mkUI (currentMode u) b (modeTabs u) (panels u)) w).

(** *** Document queries *)

(** Index of the first node satisfying [p]. *)
Fixpoint find_node (p : Node -> bool) (nodes : list Node) : option nat :=
  match nodes with
  | [] => None
  | n :: rest => if p n then Some 0 else S <$> find_node p rest
  end.

Definition has_id (id : string) (n : Node) : bool :=
  match node_id n with Some i => String.eqb i id | None => false end.
Definition has_dataMode (m : string) (n : Node) : bool :=
  match dataMode n with Some i => String.eqb i m | None => false end.
Definition has_class (c : string) (n : Node) : bool :=
  existsb (String.eqb c) (classList n).

(** [document.getElementById(id)]: the first node with that id, or null. *)
Definition getElementById (id : string) : M (option nat) :=
  fun w => (Normal (find_node (has_id id) (page w)), w).

(** The selector parser of the browser is outside the program.  What
    [document.querySelector] makes of a selector text that the model does
    not read itself is a field of [Selectors]: a SyntaxError, null, or a
    node (an index beyond the page standing for a node that is not
    modelled). *)
Class Selectors : Type := {
  querySelector_other : string -> list Node -> Completion (option nat)
}.

(** The characters that a double-quoted CSS string takes as they are:
    all but the quote, which ends the string, the backslash, which starts
    an escape, the line breaks (LF, FF, CR), which make the string
    invalid, and NUL, which is replaced before parsing. *)
Definition css_plain (a : ascii) : bool :=
  negb (existsb (N.eqb (N_of_ascii a)) [0; 10; 12; 13; 34; 92]%N).
Fixpoint selector_safe (m : string) : bool :=
  match m with
  | EmptyString => true
  | String a m' => css_plain a && selector_safe m'
  end.

(** [document.querySelector(`[data-mode="${m}"]`)]: the mode is pasted
    into the selector text.  When every character of [m] is plain the text
    is an attribute selector with the value [m], which the first node
    with that [data-mode] matches; any other text is left to the parser. *)
Definition querySelector_dataMode `{sel : Selectors} (m : string) : M (option nat) :=
  fun w =>
    if selector_safe m
    then (Normal (find_node (has_dataMode m) (page w)), w)
    else (querySelector_other
            ("[data-mode=" +:+ String (ascii_of_nat 34) m
                           +:+ String (ascii_of_nat 34) "]")
            (page w), w).

(** Indices of the nodes with class [c], in document order
    ([document.querySelectorAll('.c')]). *)
Definition querySelectorAll_class (c : string) (nodes : list Node) : list nat :=
  fst <$> filter (fun p => has_class c p.2 = true) (imap pair nodes).

(** Reading and writing a property of the node behind a reference. *)
Definition node_get {A} (r : nat) (f : Node -> A) (d : A) : M A :=
  fun w => (Normal (default d (f <$> page w !! r)), w).
Definition node_set (r : nat) (f : Node -> Node) : M unit :=
  fun w => (Normal tt, with_page (alter f r) w).

(** Dereferencing a possibly null reference. *)
Definition deref (what : string) (r : option nat) : M nat :=
  match r with
  | Some i => ret i
  | None => throw (TypeError what)
  end.

(** [if (r) { k r }] *)
Definition when_present (r : option nat) (k : nat -> M unit) : M unit :=
  match r with
  | Some i => k i
  | None => ret tt
  end.

Definition classList_add (c : string) (r : nat) : M unit :=
  node_set r (with_classList
                (fun l => if existsb (String.eqb c) l then l else l ++ [c])).
Definition classList_remove (c : string) (r : nat) : M unit :=
  node_set r (with_classList (filter (fun x => String.eqb c x = false))).

(** The tokens of a class attribute, split at ASCII white space. *)
Definition is_html_space (c : ascii) : bool :=
  match nat_of_ascii c with
  | 9 | 10 | 12 | 13 | 32 => true
  | _ => false
  end.
Fixpoint class_tokens_aux (cur : string) (s : string) : list string :=
  match s with
  | EmptyString => if String.eqb cur "" then [] else [cur]
  | String c s' =>
      if is_html_space c
      then (if String.eqb cur "" then [] else [cur]) ++ class_tokens_aux "" s'
      else class_tokens_aux (cur +:+ String c EmptyString) s'
  end.
Definition class_tokens (s : string) : list string := class_tokens_aux "" s.

(** [el.className = s] *)
Definition set_className (s : string) (r : nat) : M unit :=
  node_set r (with_classList (fun _ => class_tokens s)).
Definition set_textContent (s : string) (r : nat) : M unit :=
  node_set r (with_textContent s).
(** [el.innerHTML = s]: the markup is kept as text; the elements that the
    browser builds from it are not nodes of the page of the model. *)
Definition set_innerHTML (s : string) (r : nat) : M unit :=
  node_set r (with_innerHTML s).
Definition set_disabled (b : bool) (r : nat) : M unit :=
  node_set r (with_disabled b).
Definition set_display (s : string) (r : nat) : M unit :=
  node_set r (with_display s).

(** [list.forEach(f)] *)
Fixpoint forEach {A} (l : list A) (f : A -> M unit) : M unit :=
  match l with
  | [] => ret tt
  | x :: l' => f x ;;; forEach l' f
  end.

(** [alert(msg)] *)
Definition alert (msg : string) : M unit := log (EvAlert msg).

(** ** Strings of the language *)

(** [String.prototype.trim] removes white space and line terminators at
    both ends.  On UTF-8 these are the one-byte characters U+0009 to U+000D
    and U+0020, the two-byte U+00A0, and the three-byte U+1680, U+2000 to
    U+200A, U+2028, U+2029, U+202F, U+205F, U+3000 and U+FEFF. *)
Definition is_ws1 (a : ascii) : bool :=
  let a := N_of_ascii a in
  ((9 <=? a) && (a <=? 13) || (a =? 32))%N.
Definition is_ws2 (a b : ascii) : bool :=
  ((N_of_ascii a =? 194) && (N_of_ascii b =? 160))%N.
Definition is_ws3 (a b c : ascii) : bool :=
  let a := N_of_ascii a in
  let b := N_of_ascii b in
  let c := N_of_ascii c in
  ((a =? 225) && (b =? 154) && (c =? 128)
   || (a =? 226) && (b =? 128)
      && ((128 <=? c) && (c <=? 138) || (c =? 168) || (c =? 169) || (c =? 175))
   || (a =? 226) && (b =? 129) && (c =? 159)
   || (a =? 227) && (b =? 128) && (c =? 128)
   || (a =? 239) && (b =? 187) && (c =? 191))%N.

(** Leading white space removed; with [backwards] the string is read from
    its end, so the bytes of a character arrive in reverse. *)
Fixpoint strip_ws (backwards : bool) (s : string) : string :=
  match s with
  | String a s1 =>
      if is_ws1 a then strip_ws backwards s1
      else
        match s1 with
        | String b s2 =>
            if (if backwards then is_ws2 b a else is_ws2 a b)
            then strip_ws backwards s2
            else
              match s2 with
              | String c s3 =>
                  if (if backwards then is_ws3 c b a else is_ws3 a b c)
                  then strip_ws backwards s3
                  else s
              | EmptyString => s
              end
        | EmptyString => s
        end
  | EmptyString => s
  end.

Definition trim (s : string) : string :=
  String.rev (strip_ws true (String.rev (strip_ws false s))).

(** A double quote, an element with one attribute, and a [div] with a
    class.  The white space between the tags of the templates is left out. *)
Definition dq : string := String (ascii_of_nat 34) EmptyString.
Definition elem (name attr val inner : string) : string :=
  "<" +:+ name +:+ " " +:+ attr +:+ "=" +:+ dq +:+ val +:+ dq +:+ ">" +:+ inner
  +:+ "</" +:+ name +:+ ">".
Definition div (cls inner : string) : string := elem "div" "class" cls inner.

(** [(size / 1024 / 1024).toFixed(1)] for a byte count below 2^53: both
    divisions are exact, and [toFixed] rounds the tenths half up. *)
Definition megabytes_toFixed1 (size : N) : string :=
  let tenths := ((10 * size + 524288) / 1048576)%N in
  pretty (tenths / 10)%N +:+ "." +:+ pretty (tenths mod 10)%N.

(** ** [api.js] *)

(** The second argument of [moderate]: a string, a file, or [undefined]. *)
Inductive Content : Type :=
| CText (s : string)
| CFile (f : File)
| CUndefined.

(** [FormData.append] stores a file as it is and anything else as a string. *)
Definition form_value (c : Content) : FormValue :=
  match c with
  | CText s => FVString s
  | CFile f => FVFile f
  | CUndefined => FVString "undefined"
  end.

(** [await fetch(url, options)] *)
Definition fetch (net : Network) (req : Request) : M Response :=
  log (EvFetch req) ;;;
  match net req with
  | FetchRejected e => throw e
  | FetchResolved r => ret r
  end.

Module APIService.
Section APIService.

Context `{Builtins}.
Variable net : Network.

(** The form that [moderate] builds. *)
Definition formData (contentType : string) (content : Content) : FormData :=
  let formData := [("content_type", FVString contentType)] in
  if String.eqb contentType "text"
  then formData ++ [("text", form_value content)]
  else formData ++ [("file", form_value content)].

Definition moderate (contentType : string) (content : Content) : M JsVal :=
  let formData := formData contentType content in
  log (EvSetTimeout CONFIG.API.TIMEOUT) ;;;
  try_catch
    (let* response :=
       fetch net (mkRequest CONFIG.API.ENDPOINTS.MODERATE "POST"
                            (Some formData) true) in
     log EvClearTimeout ;;;
     if negb (ok response)
     then throw (Error ("HTTP错误: " +:+ pretty (status response)))
     else
       let* data := lift (json response) in
       let* success := lift (getProp data "success") in
       if truthy success
       then
         let* result := lift (getProp data "result") in
         ret (VObj [("success", VBool true); ("data", result)])
       else
         let* error := lift (getProp data "error") in
         throw (Error (ToString (js_or error (VStr "审核失败")))))
    (fun error =>
       if String.eqb (err_name error) "AbortError"
       then throw (Error "请求超时，请检查网络或文件大小")
       else throw error).

Definition healthCheck : M JsVal :=
  try_catch
    (let* response :=
       fetch net (mkRequest CONFIG.API.ENDPOINTS.HEALTH "GET" None false) in
     lift (json response))
    (fun e =>
       ret (VObj [("status", VStr "unhealthy"); ("error", VStr (err_message e))])).

End APIService.

End APIService.

(** ** [ui.js] *)

Module Consistency.

Record Info : Type := mkInfo { class : string; icon : string; title : string }.

End Consistency.

(** The properties that every object literal inherits from
    [Object.prototype]: [LOADING_STEPS[mode]] finds them as well. *)
Definition Object_prototype_keys : list string :=
  [ "constructor"; "hasOwnProperty"; "isPrototypeOf"; "propertyIsEnumerable";
    "toLocaleString"; "toString"; "valueOf"; "__proto__";
    "__defineGetter__"; "__defineSetter__"; "__lookupGetter__";
    "__lookupSetter__" ].

Module UIController.
Section UIController.

Context `{Builtins} `{sel : Selectors}.

(** The constructor: mode 'text', not processing, and the tabs and panels
    of the page. *)
Definition new (nodes : list Node) : UIState :=
  mkUI "text" false
       (querySelectorAll_class "mode-tab" nodes)
       (querySelectorAll_class "panel" nodes).

(** [this.elements[id]] *)
Definition element (id : string) : M (option nat) := getElementById id.

Definition resetResults : M unit :=
  let* resultContainer := element "result-container" in
  let* placeholder := element "placeholder" in
  when_present resultContainer (classList_remove "show") ;;;
  when_present placeholder (set_display "block").

Definition switchMode (mode : string) : M unit :=
  set_currentMode mode ;;;
  (let* tabs := get_ui modeTabs in forEach tabs (classList_remove "active")) ;;;
  (let* ps := get_ui panels in forEach ps (classList_remove "active")) ;;;
  (let* tab := querySelector_dataMode mode in
   let* t := deref "classList" tab in
   classList_add "active" t) ;;;
  (let* panel := getElementById (mode +:+ "-panel") in
   let* p := deref "classList" panel in
   classList_add "active" p) ;;;
  resetResults.

(** The synchronous part: the first caption is shown and the two timers
    are started. *)
Definition updateLoadingProgress (mode : string) : M unit :=
  let* loadingDetail := getElementById "loading-detail" in
  match loadingDetail with
  | None => ret tt
  | Some loadingDetail =>
      match assoc mode CONFIG.UI.LOADING_STEPS with
      | Some steps =>
          set_textContent (default "" (head steps)) loadingDetail ;;;
          log (EvSetInterval 800) ;;;
          log (EvSetTimeout 8000)
      | None =>
          if existsb (String.eqb mode) Object_prototype_keys
          then
            (* [steps] is an inherited function or object, [steps[0]] is
               undefined, and [textContent = undefined] clears the text *)
            set_textContent "" loadingDetail ;;;
            log (EvSetInterval 800) ;;;
            log (EvSetTimeout 8000)
          else throw (TypeError "0")
      end
  end.

Definition setProcessingState (isProcessing : bool) : M unit :=
  set_isProcessing isProcessing ;;;
  let* btn := element "moderate-btn" in
  let* btnText := element "btn-text" in
  let* loading := element "loading" in
  let* placeholder := element "placeholder" in
  let* resultContainer := element "result-container" in
  (let* b := deref "disabled" btn in set_disabled isProcessing b) ;;;
  if isProcessing
  then
    (let* l := deref "classList" loading in classList_add "show" l) ;;;
    when_present placeholder (set_display "none") ;;;
    when_present resultContainer (classList_remove "show") ;;;
    when_present btnText (set_textContent "分析中...")
  else
    (let* l := deref "classList" loading in classList_remove "show" l) ;;;
    when_present btnText (set_textContent "🔍 启动跨模态智能审核").

(** The risk level that [displayResults] derives from the result. *)
Definition riskLevelOf (result : JsVal) : Completion RiskLevel :=
  match getProp result "violation" with
  | Throw e => Throw e
  | Normal violation =>
      if truthy violation
      then
        match getProp result "confidence" with
        | Throw e => Throw e
        | Normal confidence =>
            if js_ge confidence (threshold CONFIG.UI.RISK_LEVELS.DANGER)
            then Normal CONFIG.UI.RISK_LEVELS.DANGER
            else if js_ge confidence (threshold CONFIG.UI.RISK_LEVELS.WARNING)
            then Normal CONFIG.UI.RISK_LEVELS.WARNING
            else Normal CONFIG.UI.RISK_LEVELS.WARNING
        end
      else Normal CONFIG.UI.RISK_LEVELS.SAFE
  end.

Definition getConsistencyInfo (score : JsVal) : Consistency.Info :=
  if js_gt score num_0_7
  then Consistency.mkInfo "consistency-high" "✅" "高一致性"
  else if js_gt score num_0_4
  then Consistency.mkInfo "consistency-medium" "⚠️" "中等一致性"
  else Consistency.mkInfo "consistency-low" "🚨" "低一致性".

(** [(v * 100).toFixed(1)] followed by a percent sign. *)
Definition percent1 (v : JsVal) : string :=
  Number_toFixed (num_mul (ToNumber v) num_100) 1 +:+ "%".

Definition detail_item (label val : string) : string :=
  div "detail-item" (div "detail-label" label +:+ div "detail-value" val).

(** The body of the [forEach] over the frames of a video. *)
Definition renderFrame (frame : JsVal) : M string :=
  let* result := lift (getProp frame "result") in
  let* isViolation := lift (getProp result "violation") in
  let badgeClass := if truthy isViolation then "badge-danger" else "badge-safe" in
  let badgeText := if truthy isViolation then "违规" else "正常" in
  let* timestamp := lift (getProp frame "timestamp") in
  let* type := lift (getProp result "type") in
  let* confidence := lift (getProp result "confidence") in
  ret (div "timeline-item"
         (div "timestamp" ("⏱️ " +:+ ToString timestamp +:+ "秒")
          +:+ div "detail-value"
                (ToString type
                 +:+ elem "span" "class" ("badge " +:+ badgeClass)
                       (badgeText +:+ " " +:+ ToString confidence)))).

Fixpoint renderFrames (frames : list JsVal) : M string :=
  match frames with
  | [] => ret ""
  | frame :: rest =>
      let* row := renderFrame frame in
      let* rows := renderFrames rest in
      ret (row +:+ rows)
  end.

Definition renderResultHTML (data : JsVal) (mode : string) : M string :=
  let* modality := lift (getProp data "modality") in
  let* confidence := lift (getProp data "confidence") in
  let* type := lift (getProp data "type") in
  let html :=
    div "result-section"
      (div "section-title" "📋 基础信息"
       +:+ div "detail-grid"
             (detail_item "检测模式" (ToString (js_or modality (VStr "-")))
              +:+ detail_item "置信度" (percent1 confidence)
              +:+ detail_item "违规类型" (ToString (js_or type (VStr "-"))))) in
  let* html :=
    if String.eqb mode "image" || String.eqb mode "video"
    then
      let* features := lift (getProp data "features") in
      let* score := lift (getPropOpt features "alignment_score") in
      if is_defined score
      then
        let consistency := getConsistencyInfo score in
        ret (html +:+
             div "result-section"
               (div "section-title" "🔄 跨模态一致性分析"
                +:+ div ("consistency-indicator " +:+ Consistency.class consistency)
                      ("<span>" +:+ Consistency.icon consistency +:+ "</span>"
                       +:+ "<div>"
                       +:+ elem "div" "style" "font-weight: 600; margin-bottom: 4px;"
                             (Consistency.title consistency)
                       +:+ div "detail-label" ("对齐分数: " +:+ percent1 score)
                       +:+ "</div>")))
      else ret html
    else ret html in
  if String.eqb mode "video"
  then
    let* frames := lift (getProp data "frames") in
    let* len := lift (getPropOpt frames "length") in
    if js_gt len num_zero
    then
      match frames with
      | VArr items =>
          let* rows := renderFrames items in
          ret (html +:+
               div "result-section"
                 (div "section-title" "🎬 视频关键帧分析"
                  +:+ div "timeline" rows))
      | _ => throw (TypeError "forEach")
      end
    else ret html
  else ret html.

Definition displayResults (result : JsVal) (mode : string) : M unit :=
  let* riskBadge := element "risk-badge" in
  let* resultDetails := element "result-details" in
  let* resultContainer := element "result-container" in
  match riskBadge, resultDetails, resultContainer with
  | Some riskBadge, Some resultDetails, Some resultContainer =>
      let* riskLevel := lift (riskLevelOf result) in
      set_className ("risk-badge " +:+ class riskLevel) riskBadge ;;;
      set_textContent (text riskLevel) riskBadge ;;;
      let* html := renderResultHTML result mode in
      set_innerHTML html resultDetails ;;;
      classList_add "show" resultContainer
  | _, _, _ => ret tt
  end.

Definition showError (message : string) : M unit :=
  let* riskBadge := element "risk-badge" in
  let* resultDetails := element "result-details" in
  let* resultContainer := element "result-container" in
  when_present riskBadge
    (fun riskBadge =>
       set_className "risk-badge risk-danger" riskBadge ;;;
       set_textContent "❌ 处理失败" riskBadge) ;;;
  when_present resultDetails
    (set_innerHTML (div "result-section" (div "error-message" message))) ;;;
  when_present resultContainer (classList_add "show").

End UIController.

End UIController.

(** ** [app.js] *)

Module ModerationApp.
Section ModerationApp.

Context `{Builtins}.
Variable net : Network.

(** The truth value of what [validateInput] returns. *)
Definition validateInput (mode : string) : M bool :=
  if String.eqb mode "text"
  then
    let* textInput := getElementById "text-input" in
    match textInput with
    | None => ret false
    | Some textInput =>
        let* v := node_get textInput value "" in
        ret (0 <? String.length (trim v))%nat
    end
  else
    let* fileInput := getElementById (mode +:+ "-file") in
    match fileInput with
    | None => ret false
    | Some fileInput =>
        let* fs := node_get fileInput files [] in
        ret (0 <? length fs)%nat
    end.

Definition prepareContent (mode : string) : M Content :=
  if String.eqb mode "text"
  then
    let* textInput := getElementById "text-input" in
    let* t := deref "value" textInput in
    let* v := node_get t value "" in
    ret (CText v)
  else
    let* fileInput := getElementById (mode +:+ "-file") in
    let* f := deref "files" fileInput in
    let* fs := node_get f files [] in
    let file := head fs in
    if String.eqb mode "video"
    then
      match file with
      | None => throw (TypeError "size")
      | Some file =>
          if (CONFIG.VIDEO.MAX_SIZE <? file_size file)%N
          then throw (Error ("视频文件过大（" +:+ megabytes_toFixed1 (file_size file)
                             +:+ "MB），请限制在50MB以内"))
          else ret (CFile file)
      end
    else ret (match file with Some file => CFile file | None => CUndefined end).

(** The flow of a submission as one computation: the two [await]s are
    answered in place, so no handler runs between the request and its
    reply. *)
Definition startModeration : M unit :=
  let* mode := get_ui currentMode in
  let* valid := validateInput mode in
  if negb valid
  then alert "⚠️ 请先输入内容或上传文件！"
  else
    UIController.setProcessingState true ;;;
    UIController.updateLoadingProgress mode ;;;
    try_finally
      (try_catch
         (let* content := prepareContent mode in
          let* result := APIService.moderate net mode content in
          let* success := lift (getProp result "success") in
          if truthy success
          then
            let* data := lift (getProp result "data") in
            UIController.displayResults data mode
          else ret tt)
         (fun error => UIController.showError (err_message error)))
      (UIController.setProcessingState false).

Definition checkBackendHealth : M unit :=
  try_catch
    (let* health := APIService.healthCheck net in
     let* _ := lift (getProp health "status") in
     ret tt)
    (fun _ => ret tt).

End ModerationApp.

End ModerationApp.

(** ** Observations of a state *)

(** What the scripts read of a node and never write. *)
Definition inputs_of (n : Node) : option string * option string * string * list File :=
  (node_id n, dataMode n, value n, files n).
Definition frame (w : World) : list (option string * option string * string * list File) :=
  inputs_of <$> page w.

(** The node with a given id, and a property of it. *)
Definition element_of (id : string) (w : World) : option nat :=
  find_node (has_id id) (page w).
Definition property {A} (f : Node -> A) (r : nat) (w : World) : option A :=
  f <$> page w !! r.

(** The value of the text control and the files chosen for a mode; empty
    when the control is not on the page. *)
Definition text_value (w : World) : string :=
  match element_of "text-input" w with
  | Some i => default "" (property value i w)
  | None => ""
  end.
Definition chosen_files (mode : string) (w : World) : list File :=
  match element_of (mode +:+ "-file") w with
  | Some i => default [] (property files i w)
  | None => []
  end.

Definition present {A} (o : option A) : bool :=
  match o with Some _ => true | None => false end.

(** The page has the button and the loading indicator, which
    [setProcessingState] dereferences, and captions for the mode when it has
    a caption line. *)
Definition page_ready (mode : string) (w : World) : bool :=
  present (element_of "moderate-btn" w)
  && present (element_of "loading" w)
  && (negb (present (element_of "loading-detail" w))
      || present (assoc mode CONFIG.UI.LOADING_STEPS)).

(** The page has a tab and a panel for the mode. *)
Definition has_mode (mode : string) (w : World) : bool :=
  present (find_node (has_dataMode mode) (page w))
  && present (element_of (mode +:+ "-panel") w).

Definition is_fetch (e : Event) : bool :=
  match e with EvFetch _ => true | _ => false end.

(** [w'] differs from [w] by view updates and by events satisfying [allowed]. *)
Definition evolved (allowed : Event -> bool) (w w' : World) : Prop :=
  frame w' = frame w /\
  exists evs, trace w' = trace w ++ evs /\ forallb allowed evs = true.
Definition evolves {A} (allowed : Event -> bool) (m : M A) : Prop :=
  forall w, evolved allowed w (m w).2.

(** [m] leaves the state as it is. *)
Definition pure {A} (m : M A) : Prop := forall w, (m w).2 = w.

Definition quiet (e : Event) : bool := negb (is_fetch e).
Definition any_event (e : Event) : bool := true.

(** ** Sample data *)

(** An arbitrary instance of the built-ins, to run the model. *)
Definition sample_builtins : Builtins :=
  Build_Builtins (fun _ => "0") (fun _ => NaN) (fun _ _ => "0.0").

Definition sample_node (id dm : option string) (cls : list string) : Node :=
  mkNode id dm cls "" "" false "" "" [].

(** A page with a text, an image and a video tab, showing a result; the
    text control holds [text], no image is chosen and [videos] are the
    chosen videos. *)
Definition sample_page (text : string) (videos : list File) : list Node :=
  [ sample_node None (Some "text") ["mode-tab"; "active"];
    sample_node None (Some "image") ["mode-tab"];
    sample_node None (Some "video") ["mode-tab"];
    sample_node (Some "text-panel") None ["panel"; "active"];
    sample_node (Some "image-panel") None ["panel"];
    sample_node (Some "video-panel") None ["panel"];
    mkNode (Some "text-input") None [] "" "" false "" text [];
    mkNode (Some "image-file") None [] "" "" false "" "" [];
    mkNode (Some "video-file") None [] "" "" false "" "" videos;
    sample_node (Some "moderate-btn") None [];
    sample_node (Some "btn-text") None [];
    sample_node (Some "loading") None [];
    sample_node (Some "loading-detail") None [];
    sample_node (Some "placeholder") None [];
    sample_node (Some "result-container") None ["show"];
    sample_node (Some "risk-badge") None ["risk-badge"];
    sample_node (Some "result-details") None [] ].

Definition sample_world (mode text : string) (videos : list File) : World :=
  mkWorld (sample_page text videos)
          (mkUI mode false
                (querySelectorAll_class "mode-tab" (sample_page text videos))
                (querySelectorAll_class "panel" (sample_page text videos)))
          [].

(** A selector parser that refuses every text it is asked about. *)
Definition sample_selectors : Selectors :=
  Build_Selectors (fun _ _ => Throw (mkError "SyntaxError" "not a valid selector")).

(** A video of 60 MB. *)
Definition big_video : File := mkFile "clip.mp4" 62914560.

(** A page without the loading indicator, and one without a video tab. *)
Definition page_without_loading : list Node :=
  filter (fun n => has_id "loading" n = false) (sample_page "hello" []).
Definition page_without_video_tab : list Node :=
  filter (fun n => has_dataMode "video" n = false) (sample_page "hello" []).

Definition sample_result (violation : bool) (confidence : number) : JsVal :=
  VObj [("modality", VStr "text"); ("violation", VBool violation);
        ("confidence", VNum confidence)].

(** A server that accepts, one that refuses with a given [error], one
    that answers 500, and a network on which every request is aborted. *)
Definition net_accepts : Network :=
  fun _ => FetchResolved
             (mkResponse 200 (Normal (VObj [("success", VBool true);
                                            ("result", sample_result true num_0_7)]))).
Definition net_refuses (error : JsVal) : Network :=
  fun _ => FetchResolved
             (mkResponse 200 (Normal (VObj [("success", VBool false);
                                            ("error", error)]))).
Definition net_500 : Network :=
  fun _ => FetchResolved
             (mkResponse 500 (Throw (mkError "SyntaxError" "Unexpected token"))).
Definition net_aborts : Network :=
  fun _ => FetchRejected (mkError "AbortError" "The operation was aborted.").

(** A network that is down, a server whose body does not parse, a server
    that reports success without a result, and a video of exactly 50 MB. *)
Definition net_down : Network :=
  fun _ => FetchRejected (mkError "TypeError" "Failed to fetch").
Definition net_garbled : Network :=
  fun _ => FetchResolved
             (mkResponse 200 (Throw (mkError "SyntaxError" "Unexpected token"))).
Definition net_without_result : Network :=
  fun _ => FetchResolved (mkResponse 200 (Normal (VObj [("success", VBool true)]))).
Definition video_50MB : File := mkFile "clip.mp4" 52428800.

(** ** The rest of the scripts *)

(** The handler that [bindModeSwitch] puts on every tab: the mode is read
    from the [data-mode] attribute of the click target, [undefined] when
    the target has none. *)
Definition tabClicked `{sel : Selectors} (target : nat) : M unit :=
  let* targetMode :=
    node_get target (fun n => default "undefined" (dataMode n)) "undefined" in
  UIController.switchMode targetMode.

(** The [try] block of [startModeration] with its [catch] clause. *)
Definition request_step `{Builtins} (net : Network) (mode : string) : M unit :=
  try_catch
    (let* content := ModerationApp.prepareContent mode in
     let* result := APIService.moderate net mode content in
     let* success := lift (getProp result "success") in
     if truthy success
     then
       let* data := lift (getProp result "data") in
       UIController.displayResults data mode
     else ret tt)
    (fun error => UIController.showError (err_message error)).

(** The flow from the reply of [moderate] on: the rest of the [try]
    block with the [catch] clause, then the [finally] clause. *)
Definition after_reply `{Builtins} (mode : string) (reply : Completion JsVal) : M unit :=
  try_finally
    (match reply with
     | Normal result =>
         try_catch
           (let* success := lift (getProp result "success") in
            if truthy success
            then
              let* data := lift (getProp result "data") in
              UIController.displayResults data mode
            else ret tt)
           (fun error => UIController.showError (err_message error))
     | Throw e => UIController.showError (err_message e)
     end)
    (UIController.setProcessingState false).

(** The string with the given bytes, and the white space characters of
    the language in UTF-8. *)
Definition bytes (l : list nat) : string :=
  fold_right (fun b s => String (ascii_of_nat b) s) EmptyString l.
Definition white_space : list string :=
  bytes <$> [ [9]; [10]; [11]; [12]; [13]; [32]; [194; 160]; [225; 154; 128];
              [226; 128; 128]; [226; 128; 129]; [226; 128; 130]; [226; 128; 131];
              [226; 128; 132]; [226; 128; 133]; [226; 128; 134]; [226; 128; 135];
              [226; 128; 136]; [226; 128; 137]; [226; 128; 138]; [226; 128; 168];
              [226; 128; 169]; [226; 128; 175]; [226; 129; 159]; [227; 128; 128];
              [239; 187; 191] ].

(** An ASCII character that is not white space. *)
Definition visible_ascii (a : ascii) : bool :=
  (N_of_ascii a <? 128)%N && negb (is_ws1 a).

(** [m] leaves the property [g] of every node as it is. *)
Definition keeps {X A} (g : Node -> X) (m : M A) : Prop :=
  forall w i, property g i (m w).2 = property g i w.

(** [m] leaves the fields of the controller as they are. *)
Definition ui_fixed {A} (m : M A) : Prop := forall w, ui (m w).2 = ui w.

(** [m] neither reads nor writes the state. *)
Definition stateless {A} (m : M A) : Prop := exists c, forall w, m w = (c, w).

(** * Properties *)

(** ** The order of numbers *)

Lemma SFcompare_antisym (a b : spec_float) :
  SFcompare b a = option_map CompOpp (SFcompare a b).
Proof.
  destruct a as [sa|sa| |sa ma ea], b as [sb|sb| |sb mb eb];
    try destruct sa; try destruct sb; simpl; try reflexivity.
  all: change (Pos.compare_cont Eq mb ma) with (Pos.compare mb ma);
    change (Pos.compare_cont Eq ma mb) with (Pos.compare ma mb);
    rewrite (Z.compare_antisym ea eb), (Pos.compare_antisym ma mb);
    destruct (ea ?= eb)%Z; simpl; try reflexivity;
    try (rewrite CompOpp_involutive; reflexivity).
Qed.

Ltac order_cases a b c :=
  destruct a as [?|?| |? ?ma ?ea], b as [?|?| |? ?mb ?eb], c as [?|?| |? ?mc ?ec];
  repeat match goal with s : bool |- _ => destruct s end;
  simpl; try congruence;
  repeat match goal with
         | |- context [Pos.compare_cont Eq ?p ?q] =>
             change (Pos.compare_cont Eq p q) with (Pos.compare p q)
         end;
  repeat match goal with
         | |- context [Z.compare ?x ?y] => destruct (Z.compare_spec x y)
         | |- context [Pos.compare ?x ?y] => destruct (Pos.compare_spec x y)
         end;
  simpl; try congruence; try lia.

Lemma SFcompare_Lt_trans (a b c : spec_float) :
  SFcompare a b = Some Lt -> SFcompare b c = Some Lt -> SFcompare a c = Some Lt.
Proof. order_cases a b c. Qed.

Lemma SFcompare_Eq_Lt_trans (a b c : spec_float) :
  SFcompare a b = Some Eq -> SFcompare b c = Some Lt -> SFcompare a c = Some Lt.
Proof. order_cases a b c. Qed.

Lemma num_lt_not_ge (a b : number) : num_lt a b = true -> num_ge a b = false.
Proof.
  unfold num_lt, num_ge, SFltb, SFleb. rewrite (SFcompare_antisym a b).
  destruct (SFcompare a b) as [[]|]; simpl; congruence.
Qed.

Lemma num_le_not_gt (a b : number) : num_le a b = true -> num_gt a b = false.
Proof.
  unfold num_le, num_gt, SFltb, SFleb. rewrite (SFcompare_antisym a b).
  destruct (SFcompare a b) as [[]|]; simpl; congruence.
Qed.

Lemma num_lt_trans (a b c : number) :
  num_lt a b = true -> num_lt b c = true -> num_lt a c = true.
Proof.
  unfold num_lt, SFltb. intros Hab Hbc.
  destruct (SFcompare a b) as [[]|] eqn:E1; try discriminate.
  destruct (SFcompare b c) as [[]|] eqn:E2; try discriminate.
  now rewrite (SFcompare_Lt_trans a b c E1 E2).
Qed.

Lemma num_le_lt_trans (a b c : number) :
  num_le a b = true -> num_lt b c = true -> num_lt a c = true.
Proof.
  unfold num_le, num_lt, SFleb, SFltb. intros Hab Hbc.
  destruct (SFcompare b c) as [[]|] eqn:E2; try discriminate.
  destruct (SFcompare a b) as [[]|] eqn:E1; try discriminate.
  - now rewrite (SFcompare_Eq_Lt_trans a b c E1 E2).
  - now rewrite (SFcompare_Lt_trans a b c E1 E2).
Qed.

(** ** Risk level and consistency tier *)

(** The level that the [if] block of [displayResults] assigns to
    [riskLevel], by the four cases of the block. *)
Lemma riskLevelOf_cases `{Builtins} (result violation confidence : JsVal) :
  getProp result "violation" = Normal violation ->
  getProp result "confidence" = Normal confidence ->
  let c := ToNumber confidence in
  (truthy violation = true -> num_ge c num_0_8 = true ->
   UIController.riskLevelOf result = Normal CONFIG.UI.RISK_LEVELS.DANGER)
  /\ (truthy violation = true -> num_ge c num_0_6 = true -> num_lt c num_0_8 = true ->
      UIController.riskLevelOf result = Normal CONFIG.UI.RISK_LEVELS.WARNING)
  /\ (truthy violation = true -> num_lt c num_0_6 = true ->
      UIController.riskLevelOf result = Normal CONFIG.UI.RISK_LEVELS.WARNING)
  /\ (truthy violation = false ->
      UIController.riskLevelOf result = Normal CONFIG.UI.RISK_LEVELS.SAFE).
Proof.
  intros Hv Hc c. unfold UIController.riskLevelOf. rewrite Hv, Hc.
  unfold js_ge. fold c. cbn [threshold CONFIG.UI.RISK_LEVELS.DANGER
                              CONFIG.UI.RISK_LEVELS.WARNING].
  repeat split.
  - intros -> ->. reflexivity.
  - intros -> _ Hlt. rewrite (num_lt_not_ge _ _ Hlt).
    now destruct (num_ge c num_0_6).
  - intros -> Hlt.
    assert (Hlt8 : num_lt c num_0_8 = true)
      by (apply (num_lt_trans c num_0_6 num_0_8 Hlt); reflexivity).
    rewrite (num_lt_not_ge _ _ Hlt8). now destruct (num_ge c num_0_6).
  - intros ->. reflexivity.
Qed.

(** C9. The tier is high above 0.7, medium above 0.4 and up to 0.7, and
    low up to 0.4. *)
Theorem C9_consistency_tiers `{Builtins} (score : JsVal) :
  let s := ToNumber score in
  (num_gt s num_0_7 = true ->
   UIController.getConsistencyInfo score
   = Consistency.mkInfo "consistency-high" "✅" "高一致性")
  /\ (num_gt s num_0_4 = true -> num_le s num_0_7 = true ->
      UIController.getConsistencyInfo score
      = Consistency.mkInfo "consistency-medium" "⚠️" "中等一致性")
  /\ (num_le s num_0_4 = true ->
      UIController.getConsistencyInfo score
      = Consistency.mkInfo "consistency-low" "🚨" "低一致性").
Proof.
  intros s. unfold UIController.getConsistencyInfo, js_gt. fold s.
  repeat split.
  - intros ->. reflexivity.
  - intros -> Hle. now rewrite (num_le_not_gt _ _ Hle).
  - intros Hle. rewrite (num_le_not_gt _ _ Hle).
    assert (Hlt : num_lt s num_0_7 = true)
      by (apply (num_le_lt_trans s num_0_4 num_0_7 Hle); reflexivity).
    assert (Hge : num_ge s num_0_7 = false) by now apply num_lt_not_ge.
    unfold num_gt. unfold num_ge in Hge.
    unfold SFltb. unfold SFleb in Hge.
    destruct (SFcompare num_0_7 s) as [[]|]; try discriminate; reflexivity.
Qed.

(** ** The API client *)

(** [moderate] step by step: the timer, the request, and what the [catch]
    clause makes of each way the [try] block can end. *)
Lemma moderate_unfold `{Builtins} (net : Network) (contentType : string)
      (content : Content) (w : World) :
  let req := mkRequest "/api/moderate" "POST"
                       (Some (APIService.formData contentType content)) true in
  let w1 := with_trace (fun t => t ++ [EvSetTimeout 120000; EvFetch req]) w in
  let w2 := with_trace (fun t => t ++ [EvSetTimeout 120000; EvFetch req; EvClearTimeout]) w in
  let rethrow (e : JsError) : Completion JsVal :=
    if String.eqb (err_name e) "AbortError"
    then Throw (Error "请求超时，请检查网络或文件大小")
    else Throw e in
  APIService.moderate net contentType content w
  = match net req with
    | FetchRejected e => (rethrow e, w1)
    | FetchResolved response =>
        if negb (ok response)
        then (Throw (Error ("HTTP错误: " +:+ pretty (status response))), w2)
        else
          match json response with
          | Throw e => (rethrow e, w2)
          | Normal data =>
              match getProp data "success" with
              | Throw e => (rethrow e, w2)
              | Normal success =>
                  if truthy success
                  then
                    match getProp data "result" with
                    | Throw e => (rethrow e, w2)
                    | Normal result =>
                        (Normal (VObj [("success", VBool true); ("data", result)]), w2)
                    end
                  else
                    match getProp data "error" with
                    | Throw e => (rethrow e, w2)
                    | Normal error =>
                        (Throw (Error (ToString (js_or error (VStr "审核失败")))), w2)
                    end
              end
          end
    end.
Proof.
  intros req w1 w2 rethrow. subst rethrow w1 w2 req.
  unfold APIService.moderate, try_catch, bind, fetch, log, lift, throw, ret,
    with_trace.
  change CONFIG.API.TIMEOUT with 120000%N.
  change CONFIG.API.ENDPOINTS.MODERATE with "/api/moderate".
  cbn.
  destruct (net _) as [e|response]; cbn.
  - destruct (String.eqb _ _); rewrite <- ?app_assoc; reflexivity.
  - destruct (ok response); cbn;
      [|rewrite <- ?app_assoc; reflexivity].
    destruct (json response) as [data|e]; cbn;
      [|destruct (String.eqb _ _); rewrite <- ?app_assoc; reflexivity].
    destruct (getProp data "success") as [success|e]; cbn;
      [|destruct (String.eqb _ _); rewrite <- ?app_assoc; reflexivity].
    destruct (truthy success); cbn.
    + destruct (getProp data "result"); cbn;
        [|destruct (String.eqb _ _)]; rewrite <- ?app_assoc; reflexivity.
    + destruct (getProp data "error"); cbn;
        [|destruct (String.eqb _ _)]; rewrite <- ?app_assoc; reflexivity.
Qed.

Ltac case_matches :=
  repeat match goal with
         | |- context [match ?x with _ => _ end] => destruct x eqn:?
         end.

(** C8. The form sent to POST /api/moderate holds [content_type] and one
    content field: [text] when the content type is 'text', [file] for any
    other type; a string is stored as a string and a file as a file.  No
    other request is made. *)
Theorem C8_form_fields `{Builtins} (net : Network) (contentType : string)
        (content : Content) (w : World) :
  let sent (fields : FormData) :=
    exists rest,
      trace (APIService.moderate net contentType content w).2
      = trace w ++ EvSetTimeout CONFIG.API.TIMEOUT
                :: EvFetch (mkRequest "/api/moderate" "POST" (Some fields) true)
                :: rest
      /\ forallb quiet rest = true in
  (contentType = "text" ->
   sent [("content_type", FVString contentType); ("text", form_value content)])
  /\ (contentType <> "text" ->
      sent [("content_type", FVString contentType); ("file", form_value content)])
  /\ (forall s, form_value (CText s) = FVString s)
  /\ (forall f, form_value (CFile f) = FVFile f).
Proof.
  intros sent.
  assert (Hsent : sent (APIService.formData contentType content)).
  { subst sent. cbv beta. rewrite moderate_unfold. cbv zeta.
    case_matches; cbn [snd with_trace trace];
      (exists [] + exists [EvClearTimeout]); split; reflexivity. }
  repeat split.
  - intros ->. exact Hsent.
  - intros Hne. unfold APIService.formData in Hsent.
    destruct (String.eqb_spec contentType "text") as [->|_]; [now destruct Hne|].
    exact Hsent.
Qed.

(** C3. When the request is aborted, [moderate] rejects with the
    translated message and not with the abort error. *)
Theorem C3_timeout_message `{Builtins} (net : Network) (contentType : string)
        (content : Content) (w : World) (e : JsError) :
  net (mkRequest "/api/moderate" "POST"
                 (Some (APIService.formData contentType content)) true)
  = FetchRejected e ->
  err_name e = "AbortError" ->
  (APIService.moderate net contentType content w).1
  = Throw (Error "请求超时，请检查网络或文件大小")
  /\ (APIService.moderate net contentType content w).1 <> Throw e
  /\ In (EvSetTimeout CONFIG.API.TIMEOUT)
        (trace (APIService.moderate net contentType content w).2).
Proof.
  intros Hnet Hname. rewrite moderate_unfold. cbv zeta. rewrite Hnet, Hname.
  cbn. repeat split.
  - intros [= <-]. discriminate Hname.
  - apply in_or_app. right. now left.
Qed.

(** C5, as the code has it.  A status outside 200-299 rejects with a
    message ending in the status.  A body whose [success] is falsy rejects
    with the [error] of the body when that is a non-empty string, and with
    the default message when [error] is absent or falsy.  A body whose
    [success] is truthy resolves with [{ success: true, data: result }]. *)
Theorem C5_moderate_outcomes `{Builtins} (net : Network) (contentType : string)
        (content : Content) (w : World) (response : Response) :
  net (mkRequest "/api/moderate" "POST"
                 (Some (APIService.formData contentType content)) true)
  = FetchResolved response ->
  let outcome := (APIService.moderate net contentType content w).1 in
  (ok response = false ->
   outcome = Throw (Error ("HTTP错误: " +:+ pretty (status response))))
  /\ (forall data success,
        ok response = true -> json response = Normal data ->
        getProp data "success" = Normal success -> truthy success = false ->
        (forall msg, getProp data "error" = Normal (VStr msg) -> msg <> "" ->
                     outcome = Throw (Error msg))
        /\ (forall error, getProp data "error" = Normal error ->
                          truthy error = false ->
                          outcome = Throw (Error "审核失败")))
  /\ (forall data success result,
        ok response = true -> json response = Normal data ->
        getProp data "success" = Normal success -> truthy success = true ->
        getProp data "result" = Normal result ->
        outcome = Normal (VObj [("success", VBool true); ("data", result)])).
Proof.
  intros Hnet outcome. subst outcome. rewrite moderate_unfold. cbv zeta.
  rewrite Hnet. split; [|split].
  - intros ->. reflexivity.
  - intros data success Hok Hjson Hsuccess Hfalse. rewrite Hok, Hjson, Hsuccess, Hfalse.
    cbn [negb]. split.
    + intros msg -> Hmsg. unfold js_or. cbn.
      destruct (String.eqb_spec msg ""); [contradiction|]. reflexivity.
    + intros error -> Hfalsy. unfold js_or. rewrite Hfalsy. reflexivity.
  - intros data success result -> -> -> -> ->. reflexivity.
Qed.

(** C7. [healthCheck] always resolves: with the unhealthy status object
    when the request fails, with the parsed body when the request succeeds. *)
Theorem C7_healthCheck_total (net : Network) (w : World) :
  let req := mkRequest "/api/health" "GET" None false in
  let outcome := (APIService.healthCheck net w).1 in
  (exists v, outcome = Normal v)
  /\ (forall e, net req = FetchRejected e ->
                outcome = Normal (VObj [("status", VStr "unhealthy");
                                        ("error", VStr (err_message e))]))
  /\ (forall r body, net req = FetchResolved r -> json r = Normal body ->
                     outcome = Normal body).
Proof.
  intros req outcome. subst outcome.
  unfold APIService.healthCheck, try_catch, bind, fetch, log, lift, throw, ret.
  change CONFIG.API.ENDPOINTS.HEALTH with "/api/health". fold req. cbn.
  repeat split.
  - destruct (net req) as [e|r]; cbn; [eauto|].
    destruct (json r); cbn; eauto.
  - intros e ->. reflexivity.
  - intros r body -> Hbody. cbn. rewrite Hbody. reflexivity.
Qed.

(** ** Looking up nodes *)

Lemma find_node_Some (p : Node -> bool) (l : list Node) (i : nat) :
  find_node p l = Some i -> exists n, l !! i = Some n /\ p n = true.
Proof.
  revert i. induction l as [|x l IH]; intros i; cbn; [discriminate|].
  destruct (p x) eqn:Hp.
  - intros [= <-]. eauto.
  - destruct (find_node p l) as [j|]; cbn; [|discriminate].
    intros [= <-]. destruct (IH j eq_refl) as (n & Hn & Hpn). eauto.
Qed.

(** A lookup only depends on what [p] reads. *)
Lemma find_node_ext (p : Node -> bool) (l l' : list Node) :
  (forall n n', inputs_of n = inputs_of n' -> p n = p n') ->
  inputs_of <$> l = inputs_of <$> l' ->
  find_node p l = find_node p l'.
Proof.
  intros Hp. revert l'. induction l as [|x l IH]; intros [|x' l'];
    rewrite ?fmap_nil, ?fmap_cons; try discriminate; [reflexivity|].
  intros Heq. cbn [find_node].
  assert (Hx : inputs_of x = inputs_of x') by congruence.
  assert (Hl : inputs_of <$> l = inputs_of <$> l') by congruence.
  rewrite (Hp x x' Hx), (IH l' Hl). reflexivity.
Qed.

Lemma has_id_inputs (id : string) (n n' : Node) :
  inputs_of n = inputs_of n' -> has_id id n = has_id id n'.
Proof. unfold inputs_of, has_id. now intros [= -> _ _ _]. Qed.

Lemma has_dataMode_inputs (m : string) (n n' : Node) :
  inputs_of n = inputs_of n' -> has_dataMode m n = has_dataMode m n'.
Proof. unfold inputs_of, has_dataMode. now intros [= _ -> _ _]. Qed.

Lemma frame_alter (f : Node -> Node) (r : nat) (l : list Node) :
  (forall n, inputs_of (f n) = inputs_of n) ->
  inputs_of <$> alter f r l = inputs_of <$> l.
Proof.
  intros Hf. revert r. induction l as [|x l IH]; intros [|r];
    try reflexivity.
  - change (alter f 0 (x :: l)) with (f x :: l). now rewrite !fmap_cons, Hf.
  - change (alter f (S r) (x :: l)) with (x :: alter f r l).
    now rewrite !fmap_cons, IH.
Qed.

Lemma element_of_frame (id : string) (w w' : World) :
  frame w' = frame w -> element_of id w' = element_of id w.
Proof. intros Hf. apply find_node_ext; [apply has_id_inputs | exact Hf]. Qed.

Lemma inputs_at_frame (w w' : World) (i : nat) :
  frame w' = frame w -> property inputs_of i w' = property inputs_of i w.
Proof.
  unfold property, frame. intros Hf. now rewrite <- !list_lookup_fmap, Hf.
Qed.

Lemma value_at_frame (w w' : World) (i : nat) :
  frame w' = frame w -> property value i w' = property value i w.
Proof.
  intros Hf. pose proof (inputs_at_frame w w' i Hf) as Hi. unfold property in *.
  destruct (page w' !! i), (page w !! i); cbn in *; try congruence.
  unfold inputs_of in Hi. congruence.
Qed.

Lemma files_at_frame (w w' : World) (i : nat) :
  frame w' = frame w -> property files i w' = property files i w.
Proof.
  intros Hf. pose proof (inputs_at_frame w w' i Hf) as Hi. unfold property in *.
  destruct (page w' !! i), (page w !! i); cbn in *; try congruence.
  unfold inputs_of in Hi. congruence.
Qed.

Lemma chosen_files_frame (mode : string) (w w' : World) :
  frame w' = frame w -> chosen_files mode w' = chosen_files mode w.
Proof.
  intros Hf. unfold chosen_files. rewrite (element_of_frame _ w w' Hf).
  destruct (element_of _ w); [|reflexivity]. now rewrite (files_at_frame w w' _ Hf).
Qed.

Lemma page_ready_frame (mode : string) (w w' : World) :
  frame w' = frame w -> page_ready mode w' = page_ready mode w.
Proof.
  intros Hf. unfold page_ready. now rewrite !(element_of_frame _ w w' Hf).
Qed.

(** ** What a method may change *)

Lemma evolved_refl (allowed : Event -> bool) (w : World) : evolved allowed w w.
Proof. split; [reflexivity|]. exists []. now rewrite app_nil_r. Qed.

Lemma evolved_trans (allowed : Event -> bool) (w1 w2 w3 : World) :
  evolved allowed w1 w2 -> evolved allowed w2 w3 -> evolved allowed w1 w3.
Proof.
  intros [Hf1 (e1 & Ht1 & Ha1)] [Hf2 (e2 & Ht2 & Ha2)]. split; [congruence|].
  exists (e1 ++ e2). rewrite Ht2, Ht1, <- app_assoc, forallb_app, Ha1, Ha2. tauto.
Qed.

Lemma evolved_mono (P Q : Event -> bool) (w w' : World) :
  (forall e, P e = true -> Q e = true) -> evolved P w w' -> evolved Q w w'.
Proof.
  intros HPQ [Hf (evs & Ht & Ha)]. split; [exact Hf|]. exists evs. split; [exact Ht|].
  rewrite forallb_forall in *. auto.
Qed.

Lemma evolved_quiet_fetch (w w' : World) (req : Request) :
  evolved quiet w w' -> In (EvFetch req) (trace w') -> In (EvFetch req) (trace w).
Proof.
  intros [_ (evs & -> & Ha)] Hin. apply in_app_or in Hin as [Hin|Hin]; [exact Hin|].
  rewrite forallb_forall in Ha. specialize (Ha _ Hin). discriminate.
Qed.

Section Evolves.

Context (allowed : Event -> bool).

Lemma evolves_ret {A} (a : A) : evolves allowed (ret a).
Proof. intros w. apply evolved_refl. Qed.

Lemma evolves_throw {A} (e : JsError) : evolves allowed (@throw A e).
Proof. intros w. apply evolved_refl. Qed.

Lemma evolves_lift {A} (c : Completion A) : evolves allowed (lift c).
Proof. intros w. apply evolved_refl. Qed.

Lemma evolves_bind {A B} (m : M A) (k : A -> M B) :
  evolves allowed m -> (forall a, evolves allowed (k a)) ->
  evolves allowed (bind m k).
Proof.
  intros Hm Hk w. unfold bind. specialize (Hm w).
  destruct (m w) as [[a|e] w1]; [|exact Hm].
  eapply evolved_trans; [exact Hm | apply Hk].
Qed.

Lemma evolves_try_catch {A} (body : M A) (handler : JsError -> M A) :
  evolves allowed body -> (forall e, evolves allowed (handler e)) ->
  evolves allowed (try_catch body handler).
Proof.
  intros Hm Hk w. unfold try_catch. specialize (Hm w).
  destruct (body w) as [[a|e] w1]; [exact Hm|].
  eapply evolved_trans; [exact Hm | apply Hk].
Qed.

Lemma evolves_try_finally {A} (body : M A) (fin : M unit) :
  evolves allowed body -> evolves allowed fin ->
  evolves allowed (try_finally body fin).
Proof.
  intros Hm Hk w. unfold try_finally. specialize (Hm w).
  destruct (body w) as [c w1]. specialize (Hk w1).
  destruct (fin w1) as [[[]|e] w2]; eapply evolved_trans; eauto.
Qed.

Lemma evolves_read {A} (f : World -> A) :
  evolves allowed (fun w => (Normal (f w), w)).
Proof. intros w. apply evolved_refl. Qed.

Lemma evolves_node_set (r : nat) (f : Node -> Node) :
  (forall n, inputs_of (f n) = inputs_of n) -> evolves allowed (node_set r f).
Proof.
  intros Hf w. split.
  - apply frame_alter, Hf.
  - exists []. cbn. now rewrite app_nil_r.
Qed.

Lemma evolves_set_ui (f : UIState -> UIState) :
  evolves allowed (fun w => (Normal tt, with_ui f w)).
Proof. intros w. split; [reflexivity|]. exists []. cbn. now rewrite app_nil_r. Qed.

Lemma evolves_log (e : Event) : allowed e = true -> evolves allowed (log e).
Proof.
  intros He w. split; [reflexivity|]. exists [e]. cbn. now rewrite He.
Qed.

Lemma evolves_deref (what : string) (r : option nat) : evolves allowed (deref what r).
Proof. destruct r; [apply evolves_ret | apply evolves_throw]. Qed.

Lemma evolves_when_present (r : option nat) (k : nat -> M unit) :
  (forall i, evolves allowed (k i)) -> evolves allowed (when_present r k).
Proof. intros Hk. destruct r; [apply Hk | apply evolves_ret]. Qed.

Lemma evolves_forEach {A} (l : list A) (f : A -> M unit) :
  (forall x, evolves allowed (f x)) -> evolves allowed (forEach l f).
Proof.
  intros Hf. induction l as [|x l IH]; cbn; [apply evolves_ret|].
  apply evolves_bind; auto.
Qed.

End Evolves.

Ltac evolves_step :=
  first
    [ apply evolves_ret | apply evolves_throw | apply evolves_lift
    | apply evolves_bind; [|intros ?]
    | apply evolves_try_catch; [|intros ?]
    | apply evolves_try_finally
    | apply evolves_deref
    | apply evolves_when_present; intros ?
    | apply evolves_forEach; intros ?
    | apply evolves_node_set; intros ?; reflexivity
    | apply evolves_set_ui
    | apply evolves_read
    | apply evolves_log; reflexivity
    | match goal with
      | |- evolves _ (match ?x with _ => _ end) => destruct x
      end ].

Ltac evolves_tac :=
  unfold UIController.element, getElementById, querySelector_dataMode, get_ui,
    node_get, set_currentMode, set_isProcessing, classList_add, classList_remove,
    set_className, set_textContent, set_innerHTML, set_disabled, set_display,
    alert;
  repeat evolves_step.

Section MethodsEvolve.

Context `{Builtins}.

Lemma evolves_resetResults : evolves quiet UIController.resetResults.
Proof. unfold UIController.resetResults. evolves_tac. Qed.

Lemma evolves_setProcessingState (b : bool) :
  evolves quiet (UIController.setProcessingState b).
Proof. unfold UIController.setProcessingState. evolves_tac. Qed.

Lemma evolves_updateLoadingProgress (mode : string) :
  evolves quiet (UIController.updateLoadingProgress mode).
Proof. unfold UIController.updateLoadingProgress. evolves_tac. Qed.

Lemma evolves_showError (message : string) :
  evolves quiet (UIController.showError message).
Proof. unfold UIController.showError. evolves_tac. Qed.

Lemma evolves_renderFrames (frames : list JsVal) :
  evolves quiet (UIController.renderFrames frames).
Proof.
  induction frames as [|frame rest IH]; cbn [UIController.renderFrames].
  - evolves_tac.
  - unfold UIController.renderFrame. evolves_tac. exact IH.
Qed.

Lemma evolves_renderResultHTML (data : JsVal) (mode : string) :
  evolves quiet (UIController.renderResultHTML data mode).
Proof.
  unfold UIController.renderResultHTML. evolves_tac;
    try apply evolves_renderFrames.
Qed.

Lemma evolves_displayResults (result : JsVal) (mode : string) :
  evolves quiet (UIController.displayResults result mode).
Proof.
  unfold UIController.displayResults. evolves_tac.
  all: first [apply evolves_renderResultHTML | apply evolves_renderFrames].
Qed.

Lemma evolves_validateInput (mode : string) :
  evolves quiet (ModerationApp.validateInput mode).
Proof. unfold ModerationApp.validateInput. evolves_tac. Qed.

Lemma evolves_prepareContent (mode : string) :
  evolves quiet (ModerationApp.prepareContent mode).
Proof. unfold ModerationApp.prepareContent. evolves_tac. Qed.

Lemma evolves_moderate (net : Network) (contentType : string) (content : Content) :
  evolves any_event (APIService.moderate net contentType content).
Proof. unfold APIService.moderate, fetch. evolves_tac. Qed.

(** The [try] block of [startModeration] with its [catch] clause. *)
Lemma evolves_request (net : Network) (mode : string) :
  evolves any_event
    (try_catch
       (let* content := ModerationApp.prepareContent mode in
        let* result := APIService.moderate net mode content in
        let* success := lift (getProp result "success") in
        if truthy success
        then
          let* data := lift (getProp result "data") in
          UIController.displayResults data mode
        else ret tt)
       (fun error => UIController.showError (err_message error))).
Proof.
  apply evolves_try_catch.
  - apply evolves_bind.
    + intros w. eapply evolved_mono; [|apply evolves_prepareContent]. reflexivity.
    + intros content. apply evolves_bind; [apply evolves_moderate|].
      intros result. apply evolves_bind; [apply evolves_lift|].
      intros success. destruct (truthy success); [|apply evolves_ret].
      apply evolves_bind; [apply evolves_lift|]. intros data w.
      eapply evolved_mono; [|apply evolves_displayResults]. reflexivity.
  - intros e w. eapply evolved_mono; [|apply evolves_showError]. reflexivity.
Qed.

End MethodsEvolve.

(** ** Reading a page after updates *)

Lemma find_node_alter (p : Node -> bool) (f : Node -> Node) (r : nat) (l : list Node) :
  (forall n, inputs_of (f n) = inputs_of n) ->
  (forall n n', inputs_of n = inputs_of n' -> p n = p n') ->
  find_node p (alter f r l) = find_node p l.
Proof. intros Hf Hp. apply find_node_ext; [exact Hp | now apply frame_alter]. Qed.

Lemma find_id_alter (id : string) (f : Node -> Node) (r : nat) (l : list Node) :
  (forall n, inputs_of (f n) = inputs_of n) ->
  find_node (has_id id) (alter f r l) = find_node (has_id id) l.
Proof. intros Hf. apply find_node_alter; [exact Hf | apply has_id_inputs]. Qed.

(** An update that leaves [g] alone is not seen through [g]. *)
Lemma lookup_alter_keep {X} (g : Node -> X) (f : Node -> Node) (r j : nat)
      (l : list Node) :
  (forall n, g (f n) = g n) -> g <$> alter f r l !! j = g <$> l !! j.
Proof.
  intros Hg. destruct (decide (r = j)) as [->|Hne].
  - rewrite list_lookup_alter_eq. destruct (l !! j); cbn; [now rewrite Hg | reflexivity].
  - now rewrite list_lookup_alter_ne.
Qed.

(** An update that sets [g] to [x] is seen at the updated node. *)
Lemma lookup_alter_set {X} (g : Node -> X) (f : Node -> Node) (x : X) (r : nat)
      (l : list Node) :
  (forall n, g (f n) = x) -> is_Some (l !! r) -> g <$> alter f r l !! r = Some x.
Proof.
  intros Hg [n Hn]. rewrite list_lookup_alter_eq, Hn. cbn. now rewrite Hg.
Qed.

Lemma find_node_is_Some (p : Node -> bool) (l : list Node) (i : nat) :
  find_node p l = Some i -> is_Some (l !! i).
Proof. intros Hi. destruct (find_node_Some p l i Hi) as (n & Hn & _). eauto. Qed.

Lemma find_id_distinct (a b : string) (l : list Node) (i j : nat) :
  find_node (has_id a) l = Some i -> find_node (has_id b) l = Some j ->
  a <> b -> i <> j.
Proof.
  intros Hi Hj Hab ->.
  destruct (find_node_Some _ _ _ Hi) as (n & Hn & Ha).
  destruct (find_node_Some _ _ _ Hj) as (n' & Hn' & Hb).
  assert (n' = n) as -> by congruence.
  unfold has_id in Ha, Hb. destruct (node_id n) as [x|]; [|discriminate].
  apply String.eqb_eq in Ha, Hb. congruence.
Qed.

Lemma has_class_added (c : string) (n : Node) :
  has_class c (with_classList
                 (fun l => if existsb (String.eqb c) l then l else l ++ [c]) n)
  = true.
Proof.
  unfold has_class, with_classList. cbn.
  destruct (existsb (String.eqb c) (classList n)) eqn:E; [exact E|].
  rewrite existsb_app. cbn. rewrite String.eqb_refl. now rewrite orb_true_r.
Qed.

Lemma has_class_removed (c : string) (n : Node) :
  has_class c (with_classList (filter (fun x => String.eqb c x = false)) n) = false.
Proof.
  unfold has_class, with_classList. cbn.
  induction (classList n) as [|x l IH]; [reflexivity|].
  rewrite filter_cons. destruct (decide (String.eqb c x = false)) as [E|E].
  - cbn. now rewrite E, IH.
  - exact IH.
Qed.

(** ** The view methods on a page that has the elements *)

Ltac run :=
  unfold UIController.element, getElementById, querySelector_dataMode, get_ui,
    node_get, set_currentMode, set_isProcessing, classList_add, classList_remove,
    set_className, set_textContent, set_innerHTML, set_disabled, set_display,
    alert, node_set, deref, when_present, bind, ret, throw, lift, log, property,
    element_of, with_page, with_ui, with_trace in *;
  cbn [page ui trace fst snd isProcessing currentMode modeTabs panels] in *.

Ltac keep :=
  repeat first
    [ rewrite find_id_alter by (intros ?; reflexivity)
    | rewrite lookup_alter_keep by (intros ?; reflexivity) ].

Section ViewMethods.

Context `{Builtins}.

Lemma setProcessingState_spec (b : bool) (w : World) (btn loading : nat) :
  element_of "moderate-btn" w = Some btn ->
  element_of "loading" w = Some loading ->
  exists w',
    UIController.setProcessingState b w = (Normal tt, w')
    /\ isProcessing (ui w') = b
    /\ property disabled btn w' = Some b
    /\ property (has_class "show") loading w' = Some b
    /\ (forall i, property innerHTML i w' = property innerHTML i w).
Proof.
  intros Hbtn Hloading.
  pose proof (find_node_is_Some _ _ _ Hbtn) as Sbtn.
  pose proof (find_node_is_Some _ _ _ Hloading) as Sloading.
  unfold UIController.setProcessingState. run. rewrite Hbtn, Hloading.
  destruct b;
    destruct (find_node (has_id "btn-text") (page w));
    destruct (find_node (has_id "placeholder") (page w));
    destruct (find_node (has_id "result-container") (page w)) as [rc|] eqn:Hrc;
    cbn [page ui trace fst snd isProcessing];
    eexists; (split; [reflexivity|]); cbn [page ui trace fst snd isProcessing];
    (split; [reflexivity|]).
  all: repeat split; try intros i; keep.
  all: try reflexivity.
  all: try (apply lookup_alter_set; [intros ?; reflexivity | keep; assumption]).
  all: try (rewrite list_lookup_alter_ne
             by (eapply (find_id_distinct "result-container" "loading");
                 [exact Hrc | exact Hloading | discriminate]));
    keep.
  all: apply lookup_alter_set;
    [intros ?; first [apply has_class_added | apply has_class_removed]
    | keep; rewrite list_lookup_alter; case_decide; subst;
      rewrite ?fmap_is_Some; assumption].
Qed.

Lemma showError_spec (message : string) (w : World) :
  exists w',
    UIController.showError message w = (Normal tt, w')
    /\ (forall rd, element_of "result-details" w = Some rd ->
                   property innerHTML rd w'
                   = Some (div "result-section" (div "error-message" message)))
    /\ (forall rc, element_of "result-container" w = Some rc ->
                   property (has_class "show") rc w' = Some true).
Proof.
  unfold UIController.showError. run.
  destruct (find_node (has_id "risk-badge") (page w));
    destruct (find_node (has_id "result-details") (page w)) as [rd|] eqn:Hrd;
    destruct (find_node (has_id "result-container") (page w)) as [rc|] eqn:Hrc;
    cbn [page ui trace fst snd];
    eexists; (split; [reflexivity|]); cbn [page ui trace fst snd];
    (split; [intros ? [= <-] | intros ? [= <-]]); keep.
  all: apply lookup_alter_set;
    [intros ?; first [reflexivity | apply has_class_added]
    | repeat (rewrite list_lookup_alter; case_decide; subst;
              rewrite ?fmap_is_Some);
      eapply find_node_is_Some; eassumption].
Qed.

Lemma resetResults_spec (w : World) :
  exists w',
    UIController.resetResults w = (Normal tt, w')
    /\ ui w' = ui w
    /\ (forall rc, element_of "result-container" w = Some rc ->
                   property (has_class "show") rc w' = Some false)
    /\ (forall p, element_of "placeholder" w = Some p ->
                  property display p w' = Some "block").
Proof.
  unfold UIController.resetResults. run.
  destruct (find_node (has_id "result-container") (page w)) as [rc|] eqn:Hrc;
    destruct (find_node (has_id "placeholder") (page w)) as [p|] eqn:Hp;
    cbn [page ui trace fst snd];
    eexists; (split; [reflexivity|]); cbn [page ui trace fst snd];
    (split; [reflexivity|]);
    (split; [intros ? [= <-] | intros ? [= <-]]); keep.
  all: apply lookup_alter_set;
    [intros ?; first [reflexivity | apply has_class_removed]
    | repeat (rewrite list_lookup_alter; case_decide; subst;
              rewrite ?fmap_is_Some);
      eapply find_node_is_Some; eassumption].
Qed.

Lemma updateLoadingProgress_normal (mode : string) (w : World) :
  negb (present (element_of "loading-detail" w))
  || present (assoc mode CONFIG.UI.LOADING_STEPS) = true ->
  (UIController.updateLoadingProgress mode w).1 = Normal tt.
Proof.
  unfold UIController.updateLoadingProgress. run.
  destruct (find_node (has_id "loading-detail") (page w)); [|reflexivity].
  destruct (assoc mode CONFIG.UI.LOADING_STEPS); [reflexivity|discriminate].
Qed.

Lemma forEach_classList_remove (c : string) (l : list nat) (w : World) :
  exists w',
    forEach l (classList_remove c) w = (Normal tt, w')
    /\ frame w' = frame w /\ ui w' = ui w.
Proof.
  revert w. induction l as [|r l IH]; intros w; cbn [forEach].
  - eexists. repeat split.
  - unfold bind at 1. unfold classList_remove at 1, node_set at 1.
    destruct (IH (with_page
                    (alter (with_classList
                              (filter (fun x => String.eqb c x = false))) r) w))
      as (w' & -> & Hf & Hu).
    exists w'. repeat split.
    + rewrite Hf. unfold frame, with_page. cbn [page].
      apply frame_alter. intros ?; reflexivity.
    + rewrite Hu. reflexivity.
Qed.

Lemma validateInput_spec (mode : string) (w : World) :
  ModerationApp.validateInput mode w
  = (Normal (if String.eqb mode "text"
             then (0 <? String.length (trim (text_value w)))%nat
             else (0 <? length (chosen_files mode w))%nat), w).
Proof.
  unfold ModerationApp.validateInput, text_value, chosen_files.
  destruct (String.eqb mode "text"); run.
  - destruct (find_node (has_id "text-input") (page w)); reflexivity.
  - destruct (find_node (has_id (mode +:+ "-file")) (page w)); reflexivity.
Qed.

Lemma prepareContent_oversized (w : World) (file : File) (rest : list File) :
  chosen_files "video" w = file :: rest ->
  (CONFIG.VIDEO.MAX_SIZE < file_size file)%N ->
  ModerationApp.prepareContent "video" w
  = (Throw (Error ("视频文件过大（" +:+ megabytes_toFixed1 (file_size file)
                   +:+ "MB），请限制在50MB以内")), w).
Proof.
  intros Hfiles Hsize. apply N.ltb_lt in Hsize.
  unfold ModerationApp.prepareContent, chosen_files in *.
  change ("video" +:+ "-file") with "video-file" in *.
  change (String.eqb "video" "text") with false.
  change (String.eqb "video" "video") with true. run.
  destruct (find_node (has_id "video-file") (page w)); [|discriminate].
  cbn. rewrite Hfiles. cbn. rewrite Hsize. reflexivity.
Qed.

(** The request step of [startModeration] always completes: what the
    [try] block throws is shown by the [catch] clause. *)
Lemma request_normal (net : Network) (mode : string) (w : World) :
  (try_catch
     (let* content := ModerationApp.prepareContent mode in
      let* result := APIService.moderate net mode content in
      let* success := lift (getProp result "success") in
      if truthy success
      then
        let* data := lift (getProp result "data") in
        UIController.displayResults data mode
      else ret tt)
     (fun error => UIController.showError (err_message error)) w).1
  = Normal tt.
Proof.
  unfold try_catch.
  match goal with |- context [match ?m w with _ => _ end] => destruct (m w) as [[[]|e] w1] end.
  - reflexivity.
  - destruct (showError_spec (err_message e) w1) as (w2 & -> & _). reflexivity.
Qed.

End ViewMethods.

(** ** The badge of a result *)

Lemma pure_ret {A} (a : A) : pure (ret a).
Proof. intros w. reflexivity. Qed.

Lemma pure_throw {A} (e : JsError) : pure (@throw A e).
Proof. intros w. reflexivity. Qed.

Lemma pure_lift {A} (c : Completion A) : pure (lift c).
Proof. intros w. reflexivity. Qed.

Lemma pure_bind {A B} (m : M A) (k : A -> M B) :
  pure m -> (forall a, pure (k a)) -> pure (bind m k).
Proof.
  intros Hm Hk w. unfold bind. specialize (Hm w).
  destruct (m w) as [[a|e] w1]; cbn [snd] in Hm; subst w1; [apply Hk | reflexivity].
Qed.

Ltac pure_tac :=
  repeat first
    [ apply pure_ret | apply pure_throw | apply pure_lift
    | apply pure_bind; [|intros ?]
    | match goal with
      | |- pure (match ?x with _ => _ end) => destruct x
      end ].

Section Badge.

Context `{Builtins}.

Lemma pure_renderFrames (frames : list JsVal) : pure (UIController.renderFrames frames).
Proof.
  induction frames as [|frame rest IH]; cbn [UIController.renderFrames].
  - pure_tac.
  - unfold UIController.renderFrame. pure_tac. exact IH.
Qed.

Lemma pure_renderResultHTML (data : JsVal) (mode : string) :
  pure (UIController.renderResultHTML data mode).
Proof.
  unfold UIController.renderResultHTML. pure_tac. all: apply pure_renderFrames.
Qed.

(** On a page with the three result elements, [displayResults] gives the
    badge the class and the text of the level derived by [riskLevelOf]. *)
Lemma displayResults_badge (result : JsVal) (mode : string) (w : World)
      (rb rd rc : nat) (level : RiskLevel) :
  element_of "risk-badge" w = Some rb ->
  element_of "result-details" w = Some rd ->
  element_of "result-container" w = Some rc ->
  UIController.riskLevelOf result = Normal level ->
  let w' := (UIController.displayResults result mode w).2 in
  property classList rb w' = Some (class_tokens ("risk-badge " +:+ class level))
  /\ property textContent rb w' = Some (text level).
Proof.
  intros Hrb Hrd Hrc Hlevel w'. subst w'.
  pose proof (find_node_is_Some _ _ _ Hrb) as Srb.
  assert (Hne : rc <> rb)
    by (eapply (find_id_distinct "result-container" "risk-badge");
        [exact Hrc | exact Hrb | discriminate]).
  unfold UIController.displayResults. run. rewrite Hrb, Hrd, Hrc, Hlevel.
  cbn [page ui trace fst snd].
  match goal with
  | |- context [UIController.renderResultHTML result mode ?w2] =>
      pose proof (pure_renderResultHTML result mode w2) as Hpure;
      destruct (UIController.renderResultHTML result mode w2) as [[html|e] w3]
  end; cbn [snd] in Hpure; subst w3; cbn [page ui trace fst snd].
  - rewrite !(list_lookup_alter_ne _ _ rc rb) by exact Hne.
    split; keep; apply lookup_alter_set; try (intros ?; reflexivity);
      rewrite ?list_lookup_alter_eq, ?fmap_is_Some; exact Srb.
  - split; keep; apply lookup_alter_set; try (intros ?; reflexivity);
      rewrite ?list_lookup_alter_eq, ?fmap_is_Some; exact Srb.
Qed.

End Badge.

(** C1. [displayResults], on a page with the three result elements, shows
    on the badge the level it derives from the result: with a truthy
    [violation], DANGER when the confidence is at least 0.8, WARNING when
    it is in [0.6, 0.8), and still WARNING when it is below 0.6; with a
    falsy [violation], SAFE whatever the confidence.  The badge carries
    the class and the text of that level also when the rendering of the
    details fails afterwards. *)
Theorem C1_risk_classification `{Builtins} (result violation confidence : JsVal)
        (mode : string) (w : World) (rb rd rc : nat) :
  element_of "risk-badge" w = Some rb ->
  element_of "result-details" w = Some rd ->
  element_of "result-container" w = Some rc ->
  getProp result "violation" = Normal violation ->
  getProp result "confidence" = Normal confidence ->
  let c := ToNumber confidence in
  let w' := (UIController.displayResults result mode w).2 in
  let derives (level : RiskLevel) :=
    UIController.riskLevelOf result = Normal level
    /\ property classList rb w' = Some (class_tokens ("risk-badge " +:+ class level))
    /\ property textContent rb w' = Some (text level) in
  (truthy violation = true -> num_ge c num_0_8 = true ->
   derives CONFIG.UI.RISK_LEVELS.DANGER)
  /\ (truthy violation = true -> num_ge c num_0_6 = true -> num_lt c num_0_8 = true ->
      derives CONFIG.UI.RISK_LEVELS.WARNING)
  /\ (truthy violation = true -> num_lt c num_0_6 = true ->
      derives CONFIG.UI.RISK_LEVELS.WARNING)
  /\ (truthy violation = false ->
      derives CONFIG.UI.RISK_LEVELS.SAFE).
Proof.
  intros Hrb Hrd Hrc Hv Hc c w' derives.
  assert (Hshown : forall level, UIController.riskLevelOf result = Normal level ->
                                 derives level).
  { intros level Hlevel. split; [exact Hlevel|].
    exact (displayResults_badge result mode w rb rd rc level Hrb Hrd Hrc Hlevel). }
  destruct (riskLevelOf_cases result violation confidence Hv Hc)
    as (Hdanger & Hwarning & Hlow & Hsafe).
  split; [|split; [|split]].
  - intros Ht Hge. apply Hshown, Hdanger; assumption.
  - intros Ht Hge Hlt. apply Hshown, Hwarning; assumption.
  - intros Ht Hlt. apply Hshown, Hlow; assumption.
  - intros Hf. apply Hshown, Hsafe; assumption.
Qed.

(** ** The submit flow *)

(** C4. With an empty text (after trimming) in text mode, or no chosen
    file in a file mode, [startModeration] only raises the alert: nothing
    else of the state changes, so no request is sent and the loading state
    is not entered. *)
Theorem C4_empty_input_blocked `{Builtins} (net : Network) (w : World) :
  let mode := currentMode (ui w) in
  (mode = "text" /\ trim (text_value w) = "")
  \/ (mode <> "text" /\ chosen_files mode w = []) ->
  ModerationApp.startModeration net w
  = (Normal tt, with_trace (fun t => t ++ [EvAlert "⚠️ 请先输入内容或上传文件！"]) w).
Proof.
  intros mode Hempty. unfold ModerationApp.startModeration.
  unfold bind at 1. unfold get_ui at 1. fold mode.
  unfold bind at 1. rewrite validateInput_spec.
  assert (Hvalid : (if String.eqb mode "text"
                    then (0 <? String.length (trim (text_value w)))%nat
                    else (0 <? length (chosen_files mode w))%nat) = false).
  { destruct Hempty as [[-> ->]|[Hmode ->]]; [reflexivity|].
    destruct (String.eqb_spec mode "text"); [contradiction|reflexivity]. }
  rewrite Hvalid. reflexivity.
Qed.

(** When validation passes, the flow is the two view calls followed by the
    request step under [finally]. *)
Lemma startModeration_valid `{Builtins} (net : Network) (w : World) :
  (ModerationApp.validateInput (currentMode (ui w)) w).1 = Normal true ->
  ModerationApp.startModeration net w
  = (UIController.setProcessingState true ;;;
     UIController.updateLoadingProgress (currentMode (ui w)) ;;;
     try_finally
       (try_catch
          (let* content := ModerationApp.prepareContent (currentMode (ui w)) in
           let* result := APIService.moderate net (currentMode (ui w)) content in
           let* success := lift (getProp result "success") in
           if truthy success
           then
             let* data := lift (getProp result "data") in
             UIController.displayResults data (currentMode (ui w))
           else ret tt)
          (fun error => UIController.showError (err_message error)))
       (UIController.setProcessingState false)) w.
Proof.
  intros Hvalid. unfold ModerationApp.startModeration.
  unfold bind at 1. unfold get_ui at 1.
  unfold bind at 1. rewrite validateInput_spec in Hvalid |- *.
  cbn [fst] in Hvalid. injection Hvalid as ->. reflexivity.
Qed.

(** C2. In video mode with a chosen file above 50 MB, [prepareContent]
    throws, the flow makes no request, and on a page with the button and
    the loading indicator the message is shown in the result panel. *)
Theorem C2_oversized_video `{Builtins} (net : Network) (w : World)
        (file : File) (rest : list File) :
  currentMode (ui w) = "video" ->
  chosen_files "video" w = file :: rest ->
  (50 * 1024 * 1024 < file_size file)%N ->
  let message := "视频文件过大（" +:+ megabytes_toFixed1 (file_size file)
                 +:+ "MB），请限制在50MB以内" in
  let w' := (ModerationApp.startModeration net w).2 in
  ModerationApp.prepareContent "video" w = (Throw (Error message), w)
  /\ (forall req, In (EvFetch req) (trace w') -> In (EvFetch req) (trace w))
  /\ (page_ready "video" w = true ->
      forall rd, element_of "result-details" w' = Some rd ->
                 property innerHTML rd w'
                 = Some (div "result-section" (div "error-message" message))).
Proof.
  intros Hmode Hfiles Hsize message w'.
  split; [exact (prepareContent_oversized w file rest Hfiles Hsize)|].
  assert (Hvalid : (ModerationApp.validateInput (currentMode (ui w)) w).1 = Normal true).
  { rewrite validateInput_spec, Hmode. cbn. now rewrite Hfiles. }
  assert (Hrun : w' = (ModerationApp.startModeration net w).2) by reflexivity.
  clearbody w'. rewrite (startModeration_valid net w Hvalid), Hmode in Hrun.
  unfold bind at 1 in Hrun.
  pose proof (evolves_setProcessingState true w) as E1.
  destruct (UIController.setProcessingState true w) as [[[]|e1] w1] eqn:R1;
    cbn [snd] in E1.
  2:{ cbn [snd] in Hrun. subst w'. split.
      - intros req. now apply evolved_quiet_fetch.
      - intros Hready. exfalso. unfold page_ready in Hready.
        destruct (element_of "moderate-btn" w) as [btn|] eqn:Hbtn; [|discriminate].
        destruct (element_of "loading" w) as [loading|] eqn:Hloading; [|discriminate].
        destruct (setProcessingState_spec true w btn loading Hbtn Hloading)
          as (w0 & Hw0 & _). congruence. }
  unfold bind at 1 in Hrun.
  pose proof (evolves_updateLoadingProgress "video" w1) as E2.
  pose proof (updateLoadingProgress_normal "video" w1) as N2.
  destruct (UIController.updateLoadingProgress "video" w1) as [[[]|e2] w2] eqn:R2;
    cbn [fst snd] in E2, N2.
  2:{ cbn [snd] in Hrun. subst w'. split.
      - intros req Hin. eapply evolved_quiet_fetch; [|exact Hin].
        eapply evolved_trans; eassumption.
      - intros Hready. exfalso. unfold page_ready in Hready.
        destruct (negb _ || _) eqn:Hsteps in N2; [now specialize (N2 eq_refl)|].
        cbn in Hsteps. rewrite orb_true_r in Hsteps. discriminate. }
  assert (E12 : evolved quiet w w2) by (eapply evolved_trans; eassumption).
  assert (Hfiles2 : chosen_files "video" w2 = file :: rest)
    by (rewrite (chosen_files_frame "video" w w2 (proj1 E12)); exact Hfiles).
  unfold try_finally, try_catch in Hrun. unfold bind at 1 in Hrun.
  rewrite (prepareContent_oversized w2 file rest Hfiles2 Hsize) in Hrun.
  cbn [err_message Error] in Hrun. fold message in Hrun.
  destruct (showError_spec message w2) as (w3 & R3 & Hshown & _).
  pose proof (evolves_showError message w2) as E3. rewrite R3 in E3, Hrun.
  cbn [snd] in E3.
  pose proof (evolves_setProcessingState false w3) as E4.
  assert (E13 : evolved quiet w w3) by (eapply evolved_trans; eassumption).
  assert (Hw' : w' = (UIController.setProcessingState false w3).2)
    by (rewrite Hrun; destruct (UIController.setProcessingState false w3) as [[[]|e4] w4];
        reflexivity).
  clear Hrun. subst w'. split.
  - intros req Hin. eapply evolved_quiet_fetch; [|exact Hin].
    eapply evolved_trans; eassumption.
  - intros Hready. unfold page_ready in Hready.
    destruct (element_of "moderate-btn" w) as [btn|] eqn:Hbtn; [|discriminate].
    destruct (element_of "loading" w) as [loading|] eqn:Hloading; [|discriminate].
    rewrite <- (element_of_frame "moderate-btn" w w3 (proj1 E13)) in Hbtn.
    rewrite <- (element_of_frame "loading" w w3 (proj1 E13)) in Hloading.
    destruct (setProcessingState_spec false w3 btn loading Hbtn Hloading)
      as (w4 & R4 & _ & _ & _ & Hhtml).
    rewrite R4 in E4 |- *. cbn [snd] in E4 |- *.
    intros rd Hrd. rewrite Hhtml. apply Hshown.
    rewrite <- (element_of_frame _ w2 w3 (proj1 E3)).
    rewrite <- (element_of_frame _ w3 w4 (proj1 E4)). exact Hrd.
Qed.

(** C6. When validation passes, on a page with the button and the loading
    indicator, the flow completes with [isProcessing] false, the button
    enabled and the loading indicator hidden, whatever the network answers
    and whatever the [try] block throws. *)
Theorem C6_state_restored `{Builtins} (net : Network) (w : World) :
  let mode := currentMode (ui w) in
  (ModerationApp.validateInput mode w).1 = Normal true ->
  page_ready mode w = true ->
  let out := ModerationApp.startModeration net w in
  out.1 = Normal tt
  /\ isProcessing (ui out.2) = false
  /\ (exists btn, element_of "moderate-btn" out.2 = Some btn
                  /\ property disabled btn out.2 = Some false)
  /\ (exists loading, element_of "loading" out.2 = Some loading
                      /\ property (has_class "show") loading out.2 = Some false).
Proof.
  intros mode Hvalid Hready out.
  assert (Hrun : out = ModerationApp.startModeration net w) by reflexivity.
  clearbody out. rewrite (startModeration_valid net w Hvalid) in Hrun. fold mode in Hrun.
  unfold page_ready in Hready.
  destruct (element_of "moderate-btn" w) as [btn|] eqn:Hbtn; [|discriminate].
  destruct (element_of "loading" w) as [loading|] eqn:Hloading; [|discriminate].
  cbn [present andb] in Hready.
  (* setProcessingState(true) *)
  unfold bind at 1 in Hrun.
  pose proof (evolves_setProcessingState true w) as E1.
  destruct (setProcessingState_spec true w btn loading Hbtn Hloading) as (w1 & R1 & _).
  rewrite R1 in Hrun, E1. cbn [snd] in E1.
  (* updateLoadingProgress(mode) *)
  unfold bind at 1 in Hrun.
  pose proof (evolves_updateLoadingProgress mode w1) as E2.
  pose proof (updateLoadingProgress_normal mode w1) as N2.
  rewrite (element_of_frame "loading-detail" w w1 (proj1 E1)) in N2.
  specialize (N2 Hready).
  destruct (UIController.updateLoadingProgress mode w1) as [c2 w2] eqn:R2.
  cbn [fst snd] in E2, N2. subst c2.
  (* try / catch *)
  unfold try_finally in Hrun.
  pose proof (evolves_request net mode w2) as E3.
  pose proof (request_normal net mode w2) as N3.
  match type of Hrun with
  | context [match ?m w2 with _ => _ end] => destruct (m w2) as [c3 w3] eqn:R3
  end.
  cbn [fst snd] in E3, N3. subst c3.
  (* finally *)
  assert (F3 : frame w3 = frame w)
    by (rewrite (proj1 E3), (proj1 E2), (proj1 E1); reflexivity).
  rewrite <- (element_of_frame "moderate-btn" w w3 F3) in Hbtn.
  rewrite <- (element_of_frame "loading" w w3 F3) in Hloading.
  pose proof (evolves_setProcessingState false w3) as E4.
  destruct (setProcessingState_spec false w3 btn loading Hbtn Hloading)
    as (w4 & R4 & Hflag & Hdisabled & Hshow & _).
  rewrite R4 in Hrun, E4. cbn [snd] in E4. subst out. cbn [fst snd].
  repeat split.
  - exact Hflag.
  - exists btn. split; [|exact Hdisabled].
    now rewrite (element_of_frame "moderate-btn" w3 w4 (proj1 E4)).
  - exists loading. split; [|exact Hshow].
    now rewrite (element_of_frame "loading" w3 w4 (proj1 E4)).
Qed.

(** ** Switching mode *)

(** A mode made of plain characters selects the first node that carries
    it. *)
Lemma querySelector_dataMode_safe `{sel : Selectors} (mode : string) (w : World) :
  selector_safe mode = true ->
  querySelector_dataMode mode w = (Normal (find_node (has_dataMode mode) (page w)), w).
Proof. intros Hsafe. unfold querySelector_dataMode. now rewrite Hsafe. Qed.

Lemma ui_fixed_bind {A B} (m : M A) (k : A -> M B) :
  ui_fixed m -> (forall a, ui_fixed (k a)) -> ui_fixed (bind m k).
Proof.
  intros Hm Hk w. unfold bind. specialize (Hm w).
  destruct (m w) as [[a|e] w1]; cbn [snd] in *; [|exact Hm].
  now rewrite Hk.
Qed.

Lemma ui_fixed_forEach {A} (f : A -> M unit) (l : list A) :
  (forall x, ui_fixed (f x)) -> ui_fixed (forEach l f).
Proof.
  intros Hf. induction l as [|x l IH]; [intros w; reflexivity|].
  cbn [forEach]. apply ui_fixed_bind; [apply Hf | intros _; exact IH].
Qed.

Lemma ui_fixed_node_set (r : nat) (f : Node -> Node) : ui_fixed (node_set r f).
Proof. intros w. reflexivity. Qed.

Lemma ui_fixed_resetResults : ui_fixed UIController.resetResults.
Proof.
  intros w. unfold UIController.resetResults. run.
  destruct (find_node (has_id "result-container") (page w));
    destruct (find_node (has_id "placeholder") (page w)); reflexivity.
Qed.

(** Every call of [switchMode] records the mode, also one that throws. *)
Lemma switchMode_currentMode `{sel : Selectors} (mode : string) (w : World) :
  currentMode (ui (UIController.switchMode mode w).2) = mode.
Proof.
  unfold UIController.switchMode. unfold bind at 1. unfold set_currentMode at 1.
  set (w0 := with_ui _ w).
  match goal with
  | |- currentMode (ui (?rest w0).2) = _ =>
      assert (Hfixed : ui_fixed rest); [|now rewrite (Hfixed w0)]
  end.
  repeat first
    [ apply ui_fixed_bind; [|intros ?]
    | apply ui_fixed_forEach; intros ?
    | apply ui_fixed_node_set
    | apply ui_fixed_resetResults ].
  all: intros w1; unfold querySelector_dataMode, deref, when_present;
    repeat match goal with
           | |- context [match ?x with _ => _ end] => destruct x
           end;
    reflexivity.
Qed.

(** C10. Every call of [switchMode] records the mode.  On a page with a
    tab and a panel for the mode, the mode being made of characters that
    the selector takes as they are, the call completes and leaves the
    result container hidden and the placeholder displayed. *)
Theorem C10_switchMode_clears_results `{sel : Selectors} (mode : string) (w : World) :
  let out := UIController.switchMode mode w in
  currentMode (ui out.2) = mode
  /\ (selector_safe mode = true ->
      has_mode mode w = true ->
      out.1 = Normal tt
      /\ (forall rc, element_of "result-container" out.2 = Some rc ->
                     property (has_class "show") rc out.2 = Some false)
      /\ (forall p, element_of "placeholder" out.2 = Some p ->
                    property display p out.2 = Some "block")).
Proof.
  intros out. split; [apply switchMode_currentMode|]. intros Hsafe Hmode.
  assert (Hrun : out = UIController.switchMode mode w) by reflexivity.
  clearbody out. unfold UIController.switchMode in Hrun.
  unfold has_mode in Hmode.
  destruct (find_node (has_dataMode mode) (page w)) as [tab|] eqn:Htab; [|discriminate].
  destruct (element_of (mode +:+ "-panel") w) as [panel|] eqn:Hpanel; [|discriminate].
  clear Hmode.
  (* this.currentMode = mode *)
  unfold bind at 1 in Hrun. unfold set_currentMode at 1 in Hrun.
  set (w0 := with_ui _ w) in Hrun.
  assert (U0 : currentMode (ui w0) = mode) by reflexivity.
  assert (F0 : frame w0 = frame w) by reflexivity.
  (* the two loops *)
  unfold bind at 1 in Hrun. unfold bind at 1 in Hrun. unfold get_ui at 1 in Hrun.
  destruct (forEach_classList_remove "active" (modeTabs (ui w0)) w0)
    as (w1 & R1 & F1 & U1).
  rewrite R1 in Hrun.
  unfold bind at 1 in Hrun. unfold bind at 1 in Hrun. unfold get_ui at 1 in Hrun.
  destruct (forEach_classList_remove "active" (panels (ui w1)) w1)
    as (w2 & R2 & F2 & U2).
  rewrite R2 in Hrun.
  assert (F02 : frame w2 = frame w) by congruence.
  (* the tab and the panel of the mode *)
  unfold bind at 1 in Hrun. unfold bind at 1 in Hrun.
  rewrite (querySelector_dataMode_safe mode w2 Hsafe) in Hrun.
  rewrite (find_node_ext (has_dataMode mode) (page w2) (page w)
             (has_dataMode_inputs mode) F02), Htab in Hrun.
  unfold bind at 1 in Hrun. unfold deref at 1, ret at 1 in Hrun.
  unfold classList_add at 1, node_set at 1 in Hrun.
  set (w3 := with_page _ w2) in Hrun.
  assert (F3 : frame w3 = frame w).
  { rewrite <- F02. unfold frame, w3, with_page. cbn [page].
    apply frame_alter. intros ?; reflexivity. }
  assert (U3 : ui w3 = ui w0) by (unfold w3, with_page; cbn [ui]; congruence).
  unfold bind at 1 in Hrun. unfold bind at 1 in Hrun.
  unfold getElementById at 1 in Hrun.
  fold (element_of (mode +:+ "-panel") w3) in Hrun.
  rewrite (element_of_frame _ w w3 F3), Hpanel in Hrun.
  unfold bind at 1 in Hrun. unfold deref at 1, ret at 1 in Hrun.
  unfold classList_add at 1, node_set at 1 in Hrun.
  set (w4 := with_page _ w3) in Hrun.
  assert (F4 : frame w4 = frame w).
  { rewrite <- F3. unfold frame, w4, with_page. cbn [page].
    apply frame_alter. intros ?; reflexivity. }
  assert (U4 : ui w4 = ui w0) by (unfold w4, with_page; cbn [ui]; congruence).
  (* resetResults *)
  destruct (resetResults_spec w4) as (w5 & R5 & U5 & Hhidden & Hplaceholder).
  pose proof (evolves_resetResults w4) as E5.
  rewrite R5 in Hrun, E5. cbn [snd] in E5. subst out. cbn [fst snd].
  split; [reflexivity|]. split.
  - intros rc Hrc. apply Hhidden.
    now rewrite <- (element_of_frame "result-container" w4 w5 (proj1 E5)).
  - intros p Hp. apply Hplaceholder.
    now rewrite <- (element_of_frame "placeholder" w4 w5 (proj1 E5)).
Qed.

(** ** Worked examples *)

(** C1 at the two thresholds, between them, below them, and without a
    violation: the class and the text of the badge after [displayResults]. *)
Lemma C1_risk_classification_witness :
  let badge (violation : bool) (confidence : number) :=
    let w' := (UIController.displayResults (H := sample_builtins)
                 (sample_result violation confidence) "text"
                 (sample_world "text" "hello" [])).2 in
    (property classList 15 w', property textContent 15 w') in
  badge true num_0_8 = (Some ["risk-badge"; "risk-danger"], Some "🚨 高风险违规")
  /\ badge true num_0_6 = (Some ["risk-badge"; "risk-warning"], Some "⚠️ 中度风险")
  /\ badge true num_0_7 = (Some ["risk-badge"; "risk-warning"], Some "⚠️ 中度风险")
  /\ badge true num_0_4 = (Some ["risk-badge"; "risk-warning"], Some "⚠️ 中度风险")
  /\ badge false num_0_8 = (Some ["risk-badge"; "risk-safe"], Some "✅ 内容正常").
Proof.
  pose (at_ := fun (v : bool) (c : number) =>
                 C1_risk_classification (H := sample_builtins)
                   (sample_result v c) (VBool v) (VNum c) "text"
                   (sample_world "text" "hello" []) 15 16 14
                   eq_refl eq_refl eq_refl eq_refl eq_refl).
  pose (pair_ := fun (A B : Type) (a a' : A) (b b' : B)
                     (H : a = a' /\ b = b') =>
                   f_equal2 pair (proj1 H) (proj2 H)).
  intros badge. split; [|split; [|split; [|split]]]; apply pair_.
  - exact (proj2 (proj1 (at_ true num_0_8) eq_refl eq_refl)).
  - exact (proj2 (proj1 (proj2 (at_ true num_0_6)) eq_refl eq_refl eq_refl)).
  - exact (proj2 (proj1 (proj2 (at_ true num_0_7)) eq_refl eq_refl eq_refl)).
  - exact (proj2 (proj1 (proj2 (proj2 (at_ true num_0_4))) eq_refl eq_refl)).
  - exact (proj2 (proj2 (proj2 (proj2 (at_ false num_0_8))) eq_refl)).
Defined.

(** C9 at 0.8, at 0.7 and at 0.4. *)
Lemma C9_consistency_tiers_witness :
  UIController.getConsistencyInfo (H := sample_builtins) (VNum num_0_8)
  = Consistency.mkInfo "consistency-high" "✅" "高一致性"
  /\ UIController.getConsistencyInfo (H := sample_builtins) (VNum num_0_7)
     = Consistency.mkInfo "consistency-medium" "⚠️" "中等一致性"
  /\ UIController.getConsistencyInfo (H := sample_builtins) (VNum num_0_4)
     = Consistency.mkInfo "consistency-low" "🚨" "低一致性".
Proof.
  pose (at_ := fun (s : number) =>
                 C9_consistency_tiers (H := sample_builtins) (VNum s)).
  split; [|split].
  - exact (proj1 (at_ num_0_8) eq_refl).
  - exact (proj1 (proj2 (at_ num_0_7)) eq_refl eq_refl).
  - exact (proj2 (proj2 (at_ num_0_4)) eq_refl).
Defined.

(** C8 for a text and for a video. *)
Lemma C8_form_fields_witness :
  (exists rest,
      trace (APIService.moderate (H := sample_builtins) net_accepts "text"
               (CText "hello") (sample_world "text" "hello" [])).2
      = EvSetTimeout 120000
          :: EvFetch (mkRequest "/api/moderate" "POST"
                        (Some [("content_type", FVString "text");
                               ("text", FVString "hello")]) true)
          :: rest
      /\ forallb quiet rest = true)
  /\ (exists rest,
         trace (APIService.moderate (H := sample_builtins) net_accepts "video"
                  (CFile big_video) (sample_world "video" "" [big_video])).2
         = EvSetTimeout 120000
             :: EvFetch (mkRequest "/api/moderate" "POST"
                           (Some [("content_type", FVString "video");
                                  ("file", FVFile big_video)]) true)
             :: rest
         /\ forallb quiet rest = true).
Proof.
  split.
  - exact (proj1 (C8_form_fields (H := sample_builtins) net_accepts "text"
                    (CText "hello") (sample_world "text" "hello" [])) eq_refl).
  - refine (proj1 (proj2 (C8_form_fields (H := sample_builtins) net_accepts "video"
                            (CFile big_video) (sample_world "video" "" [big_video])))
              _).
    discriminate.
Defined.

(** C3 on a network that aborts every request. *)
Lemma C3_timeout_message_witness :
  (APIService.moderate (H := sample_builtins) net_aborts "text" (CText "hello")
     (sample_world "text" "hello" [])).1
  = Throw (Error "请求超时，请检查网络或文件大小").
Proof.
  exact (proj1 (C3_timeout_message (H := sample_builtins) net_aborts "text"
                  (CText "hello") (sample_world "text" "hello" [])
                  (mkError "AbortError" "The operation was aborted.")
                  eq_refl eq_refl)).
Defined.

(** C5 as stated fails: an accepted request resolves with an object that
    wraps the result, not with the result, and an empty [error] string is
    replaced by the default message. *)
Lemma C5_counterexample :
  (APIService.moderate (H := sample_builtins) net_accepts "text" (CText "hello")
     (sample_world "text" "hello" [])).1
  <> Normal (sample_result true num_0_7)
  /\ (APIService.moderate (H := sample_builtins) (net_refuses (VStr "")) "text"
        (CText "hello") (sample_world "text" "hello" [])).1
     <> Throw (Error "").
Proof. split; intros Heq; vm_compute in Heq; discriminate Heq. Qed.

(** C5 on a server that answers 500, one that refuses with a message, one
    that refuses without a message, and one that accepts. *)
Lemma C5_moderate_outcomes_witness :
  let run net :=
    (APIService.moderate (H := sample_builtins) net "text" (CText "hello")
       (sample_world "text" "hello" [])).1 in
  run net_500 = Throw (Error "HTTP错误: 500")
  /\ run (net_refuses (VStr "内容违规")) = Throw (Error "内容违规")
  /\ run (net_refuses VUndefined) = Throw (Error "审核失败")
  /\ run net_accepts
     = Normal (VObj [("success", VBool true); ("data", sample_result true num_0_7)]).
Proof.
  pose (at_ := fun (net : Network) (r : Response)
                   (Hnet : net (mkRequest "/api/moderate" "POST"
                                  (Some (APIService.formData "text" (CText "hello")))
                                  true) = FetchResolved r) =>
                 C5_moderate_outcomes (H := sample_builtins) net "text"
                   (CText "hello") (sample_world "text" "hello" []) r Hnet).
  intros run. split; [|split; [|split]].
  - exact (proj1 (at_ net_500 _ eq_refl) eq_refl).
  - refine (proj1 (proj1 (proj2 (at_ (net_refuses (VStr "内容违规")) _ eq_refl))
                     _ (VBool false) eq_refl eq_refl eq_refl eq_refl)
              "内容违规" eq_refl _).
    discriminate.
  - exact (proj2 (proj1 (proj2 (at_ (net_refuses VUndefined) _ eq_refl))
                    _ (VBool false) eq_refl eq_refl eq_refl eq_refl)
             VUndefined eq_refl eq_refl).
  - exact (proj2 (proj2 (at_ net_accepts _ eq_refl))
             _ (VBool true) (sample_result true num_0_7)
             eq_refl eq_refl eq_refl eq_refl eq_refl).
Defined.

(** C7 when the request fails and when it succeeds. *)
Lemma C7_healthCheck_total_witness :
  (APIService.healthCheck net_aborts (sample_world "text" "" [])).1
  = Normal (VObj [("status", VStr "unhealthy");
                  ("error", VStr "The operation was aborted.")])
  /\ (APIService.healthCheck net_accepts (sample_world "text" "" [])).1
     = Normal (VObj [("success", VBool true);
                     ("result", sample_result true num_0_7)]).
Proof.
  split.
  - exact (proj1 (proj2 (C7_healthCheck_total net_aborts
                           (sample_world "text" "" [])))
             (mkError "AbortError" "The operation was aborted.") eq_refl).
  - exact (proj2 (proj2 (C7_healthCheck_total net_accepts
                           (sample_world "text" "" [])))
             _ _ eq_refl eq_refl).
Defined.

(** C4 for a text of white space only and for an image mode without a
    chosen file. *)
Lemma C4_empty_input_blocked_witness :
  ModerationApp.startModeration (H := sample_builtins) net_accepts
    (sample_world "text" "  　 " [])
  = (Normal tt,
     with_trace (fun t => t ++ [EvAlert "⚠️ 请先输入内容或上传文件！"])
                (sample_world "text" "  　 " []))
  /\ ModerationApp.startModeration (H := sample_builtins) net_accepts
       (sample_world "image" "hello" [])
     = (Normal tt,
        with_trace (fun t => t ++ [EvAlert "⚠️ 请先输入内容或上传文件！"])
                   (sample_world "image" "hello" [])).
Proof.
  split.
  - apply (C4_empty_input_blocked (H := sample_builtins) net_accepts
             (sample_world "text" "  　 " [])).
    left. split; reflexivity.
  - apply (C4_empty_input_blocked (H := sample_builtins) net_accepts
             (sample_world "image" "hello" [])).
    right. split; [discriminate | reflexivity].
Defined.

(** C2 for a video of 60 MB. *)
Lemma C2_oversized_video_witness :
  let w := sample_world "video" "" [big_video] in
  let w' := (ModerationApp.startModeration (H := sample_builtins) net_accepts w).2 in
  ModerationApp.prepareContent "video" w
  = (Throw (Error "视频文件过大（60.0MB），请限制在50MB以内"), w)
  /\ (forall req, In (EvFetch req) (trace w') -> False)
  /\ property innerHTML 16 w'
     = Some (div "result-section"
               (div "error-message" "视频文件过大（60.0MB），请限制在50MB以内")).
Proof.
  intros w w'.
  pose proof (C2_oversized_video (H := sample_builtins) net_accepts w big_video []
                eq_refl eq_refl eq_refl) as (Hthrows & Hquiet & Hshown).
  split; [exact Hthrows|]. split.
  - intros req Hin. exact (Hquiet req Hin).
  - apply (Hshown eq_refl 16). vm_compute. reflexivity.
Defined.

(** C6 when the server accepts, when the request is aborted, and when the
    chosen video is too large. *)
Lemma C6_state_restored_witness :
  let restored (out : Completion unit * World) :=
    out.1 = Normal tt
    /\ isProcessing (ui out.2) = false
    /\ (exists btn, element_of "moderate-btn" out.2 = Some btn
                    /\ property disabled btn out.2 = Some false)
    /\ (exists loading, element_of "loading" out.2 = Some loading
                        /\ property (has_class "show") loading out.2 = Some false) in
  restored (ModerationApp.startModeration (H := sample_builtins) net_accepts
              (sample_world "text" "hello" []))
  /\ restored (ModerationApp.startModeration (H := sample_builtins) net_aborts
                 (sample_world "text" "hello" []))
  /\ restored (ModerationApp.startModeration (H := sample_builtins) net_accepts
                 (sample_world "video" "" [big_video])).
Proof.
  intros restored. split; [|split].
  - exact (C6_state_restored (H := sample_builtins) net_accepts
             (sample_world "text" "hello" []) eq_refl eq_refl).
  - exact (C6_state_restored (H := sample_builtins) net_aborts
             (sample_world "text" "hello" []) eq_refl eq_refl).
  - exact (C6_state_restored (H := sample_builtins) net_accepts
             (sample_world "video" "" [big_video]) eq_refl eq_refl).
Defined.

(** C10 when switching from the text tab to the video tab while a result
    is shown. *)
Lemma C10_switchMode_clears_results_witness :
  let out := UIController.switchMode (sel := sample_selectors) "video"
               (sample_world "text" "hello" []) in
  out.1 = Normal tt
  /\ currentMode (ui out.2) = "video"
  /\ (forall rc, element_of "result-container" out.2 = Some rc ->
                 property (has_class "show") rc out.2 = Some false)
  /\ (forall p, element_of "placeholder" out.2 = Some p ->
                property display p out.2 = Some "block").
Proof.
  intros out.
  pose proof (C10_switchMode_clears_results (sel := sample_selectors) "video"
                (sample_world "text" "hello" [])) as [Hmode Hcleared].
  destruct (Hcleared eq_refl eq_refl) as (Hdone & Hhidden & Hplaceholder).
  split; [exact Hdone|]. split; [exact Hmode|].
  split; [exact Hhidden | exact Hplaceholder].
Defined.

(** The call that the click handler of a tab makes when the click target
    carries no [data-mode] (the mode is then [undefined]): no tab is found,
    the call throws before [resetResults], and the result stays visible
    with the placeholder not restored. *)
Lemma C10_counterexample :
  let w := sample_world "text" "hello" [] in
  let out := UIController.switchMode (sel := sample_selectors) "undefined" w in
  property (has_class "show") 14 w = Some true
  /\ (exists e, out.1 = Throw e /\ err_name e = "TypeError")
  /\ element_of "result-container" out.2 = Some 14
  /\ property (has_class "show") 14 out.2 = Some true
  /\ element_of "placeholder" out.2 = Some 13
  /\ property display 13 out.2 <> Some "block".
Proof.
  cbv zeta. split; [|split; [|split; [|split; [|split]]]].
  - vm_compute. reflexivity.
  - eexists. split; vm_compute; reflexivity.
  - vm_compute. reflexivity.
  - vm_compute. reflexivity.
  - vm_compute. reflexivity.
  - intros Heq. vm_compute in Heq. discriminate Heq.
Qed.

(** ** Pages that lack an element *)

(** Without the loading indicator [setProcessingState(true)] throws before
    the [try] block is entered: the flow ends with the flag set and the
    button disabled. *)
Example startModeration_without_loading :
  let w := mkWorld page_without_loading (UIController.new page_without_loading) [] in
  let out := ModerationApp.startModeration (H := sample_builtins) net_accepts w in
  out.1 = Throw (TypeError "classList")
  /\ isProcessing (ui out.2) = true
  /\ (forall btn, element_of "moderate-btn" out.2 = Some btn ->
                  property disabled btn out.2 = Some true).
Proof.
  cbv zeta. split; [|split]; [vm_compute; reflexivity ..|].
  intros btn Hbtn. vm_compute in Hbtn. injection Hbtn as <-. vm_compute. reflexivity.
Qed.

(** Without a tab for the mode [switchMode] records the mode and throws
    before [resetResults]: the result stays visible. *)
Example switchMode_without_tab :
  let w := mkWorld page_without_video_tab (UIController.new page_without_video_tab) [] in
  let out := UIController.switchMode (sel := sample_selectors) "video" w in
  out.1 = Throw (TypeError "classList")
  /\ currentMode (ui out.2) = "video"
  /\ (forall rc, element_of "result-container" out.2 = Some rc ->
                 property (has_class "show") rc out.2 = Some true).
Proof.
  cbv zeta. split; [|split]; [vm_compute; reflexivity ..|].
  intros rc Hrc. vm_compute in Hrc. injection Hrc as <-. vm_compute. reflexivity.
Qed.

(** * Further properties of the scripts *)

(** ** The API client, whatever the network *)

(** X1. [moderate] resolves only after a response in the 200 range whose
    body parses and has a truthy [success]; the value then carries
    [success: true] and the [result] of the body. *)
Theorem moderate_resolves_only_on_success `{Builtins} (net : Network)
        (contentType : string) (content : Content) (w : World) (v : JsVal) :
  (APIService.moderate net contentType content w).1 = Normal v ->
  exists response data success result,
    net (mkRequest "/api/moderate" "POST"
                   (Some (APIService.formData contentType content)) true)
    = FetchResolved response
    /\ ok response = true
    /\ json response = Normal data
    /\ getProp data "success" = Normal success /\ truthy success = true
    /\ getProp data "result" = Normal result
    /\ v = VObj [("success", VBool true); ("data", result)]
    /\ getProp v "success" = Normal (VBool true)
    /\ getProp v "data" = Normal result.
Proof.
  rewrite moderate_unfold. cbv zeta.
  destruct (net _) as [e|response]; cbn [fst].
  { destruct (String.eqb _ _); discriminate. }
  destruct (ok response) eqn:Hok; cbn [negb]; [|discriminate].
  destruct (json response) as [data|e] eqn:Hjson; cbn [fst];
    [|destruct (String.eqb _ _); discriminate].
  destruct (getProp data "success") as [success|e] eqn:Hs; cbn [fst];
    [|destruct (String.eqb _ _); discriminate].
  destruct (truthy success) eqn:Ht.
  - destruct (getProp data "result") as [result|e] eqn:Hr; cbn [fst];
      [|destruct (String.eqb _ _); discriminate].
    intros [= <-]. exists response, data, success, result.
    repeat (split; [reflexivity || assumption|]). reflexivity.
  - destruct (getProp data "error") as [error|e]; cbn [fst];
      [|destruct (String.eqb _ _)]; discriminate.
Qed.

(** X2. [moderate] never rejects with an error named AbortError. *)
Theorem moderate_never_rejects_with_abort `{Builtins} (net : Network)
        (contentType : string) (content : Content) (w : World) (e : JsError) :
  (APIService.moderate net contentType content w).1 = Throw e ->
  err_name e <> "AbortError".
Proof.
  rewrite moderate_unfold. cbv zeta.
  assert (Hre : forall e0 : JsError,
             (if String.eqb (err_name e0) "AbortError"
              then Throw (A := JsVal) (Error "请求超时，请检查网络或文件大小")
              else Throw e0) = Throw e -> err_name e <> "AbortError").
  { intros e0. destruct (String.eqb_spec (err_name e0) "AbortError") as [_|Hne];
      intros [= <-]; [discriminate | exact Hne]. }
  destruct (net _) as [e0|response]; cbn [fst]; [apply Hre|].
  destruct (ok response); cbn [negb fst]; [|intros [= <-]; discriminate].
  destruct (json response) as [data|e0]; cbn [fst]; [|apply Hre].
  destruct (getProp data "success") as [success|e0]; cbn [fst]; [|apply Hre].
  destruct (truthy success).
  - destruct (getProp data "result") as [result|e0]; cbn [fst];
      [discriminate | apply Hre].
  - destruct (getProp data "error") as [error|e0]; cbn [fst];
      [intros [= <-]; discriminate | apply Hre].
Qed.

(** X3. [moderate] changes neither the page nor the controller.  It arms
    the timer, makes one request, and clears the timer exactly when the
    fetch resolves: after a rejected fetch the timer is left pending. *)
Theorem moderate_trace `{Builtins} (net : Network) (contentType : string)
        (content : Content) (w : World) :
  let req := mkRequest "/api/moderate" "POST"
                       (Some (APIService.formData contentType content)) true in
  let w' := (APIService.moderate net contentType content w).2 in
  page w' = page w /\ ui w' = ui w
  /\ trace w'
     = trace w ++ [EvSetTimeout CONFIG.API.TIMEOUT; EvFetch req]
               ++ match net req with
                  | FetchResolved _ => [EvClearTimeout]
                  | FetchRejected _ => []
                  end.
Proof.
  intros req w'. subst w'. rewrite moderate_unfold. cbv zeta. fold req.
  destruct (net req) as [e|response]; cbn [snd].
  - rewrite app_nil_r. repeat split.
  - assert (Hw : forall c : Completion JsVal,
               (c, with_trace
                     (fun t => t ++ [EvSetTimeout 120000; EvFetch req; EvClearTimeout]) w).2
               = with_trace
                   (fun t => t ++ [EvSetTimeout 120000; EvFetch req; EvClearTimeout]) w)
      by reflexivity.
    case_matches; cbn [snd with_trace page ui trace]; repeat split.
Qed.

(** X4. A failure that is not an abort reaches the caller as it is: the
    error of a rejected fetch, and the error of a body that does not
    parse. *)
Theorem moderate_passes_errors_through `{Builtins} (net : Network)
        (contentType : string) (content : Content) (w : World) (e : JsError) :
  let req := mkRequest "/api/moderate" "POST"
                       (Some (APIService.formData contentType content)) true in
  err_name e <> "AbortError" ->
  (net req = FetchRejected e ->
   (APIService.moderate net contentType content w).1 = Throw e)
  /\ (forall response, net req = FetchResolved response -> ok response = true ->
                       json response = Throw e ->
                       (APIService.moderate net contentType content w).1 = Throw e).
Proof.
  intros req Hname. apply String.eqb_neq in Hname.
  rewrite moderate_unfold. cbv zeta. fold req. split.
  - intros ->. cbn [fst]. now rewrite Hname.
  - intros response -> -> ->. cbn [negb fst]. now rewrite Hname.
Qed.

(** X5. [checkBackendHealth] always completes: it makes the one GET
    request and changes nothing else, also when the request fails, when
    the body does not parse, and when the body is [null]. *)
Theorem checkBackendHealth_total (net : Network) (w : World) :
  ModerationApp.checkBackendHealth net w
  = (Normal tt,
     with_trace (fun t => t ++ [EvFetch (mkRequest "/api/health" "GET" None false)]) w).
Proof.
  unfold ModerationApp.checkBackendHealth, APIService.healthCheck, try_catch, bind,
    fetch, log, lift, throw, ret.
  change CONFIG.API.ENDPOINTS.HEALTH with "/api/health". cbn.
  destruct (net _) as [e|r]; cbn; [reflexivity|].
  destruct (json r) as [body|e]; cbn; [|reflexivity].
  destruct (getProp body "status"); reflexivity.
Qed.

(** ** Validation of a text *)

Lemma append_nil_l (s : string) : "" +:+ s = s.
Proof. reflexivity. Qed.

Lemma append_cons (c : ascii) (s1 s2 : string) :
  String c s1 +:+ s2 = String c (s1 +:+ s2).
Proof. reflexivity. Qed.

Lemma append_assoc (s1 s2 s3 : string) : (s1 +:+ s2) +:+ s3 = s1 +:+ (s2 +:+ s3).
Proof.
  induction s1 as [|c s1 IH]; [reflexivity|]. now rewrite !append_cons, IH.
Qed.

Lemma length_append (s1 s2 : string) :
  String.length (s1 +:+ s2) = String.length s1 + String.length s2.
Proof.
  induction s1 as [|c s1 IH]; [reflexivity|]. rewrite append_cons. cbn. now rewrite IH.
Qed.

Lemma strip_ws_white_space (c rest : string) :
  In c white_space -> strip_ws false (c +:+ rest) = strip_ws false rest.
Proof.
  intros Hc. unfold white_space in Hc. cbn in Hc.
  repeat (destruct Hc as [<-|Hc]; [reflexivity|]). destruct Hc.
Qed.

Lemma trim_white_space (cs : list string) :
  Forall (fun c => In c white_space) cs ->
  trim (fold_right String.app "" cs) = "".
Proof.
  intros Hcs. unfold trim.
  assert (Hstrip : strip_ws false (fold_right String.app "" cs) = "").
  { induction Hcs as [|c cs Hc _ IH]; [reflexivity|].
    cbn [fold_right]. now rewrite strip_ws_white_space. }
  rewrite Hstrip. reflexivity.
Qed.

(** X6. A text made only of white space characters of the language, in
    any number and order, does not pass validation. *)
Theorem validateInput_rejects_white_space (w : World) (cs : list string) :
  Forall (fun c => In c white_space) cs ->
  text_value w = fold_right String.app "" cs ->
  ModerationApp.validateInput "text" w = (Normal false, w).
Proof.
  intros Hcs Hvalue. rewrite validateInput_spec, Hvalue, trim_white_space by exact Hcs.
  reflexivity.
Qed.

Lemma visible_not_ws2 (a b : ascii) :
  visible_ascii a = true -> is_ws2 a b = false /\ is_ws2 b a = false.
Proof.
  unfold visible_ascii, is_ws2. intros Ha. apply andb_true_iff in Ha as [Ha _].
  apply N.ltb_lt in Ha.
  assert (E : forall k, (128 <= k)%N -> (N_of_ascii a =? k)%N = false)
    by (intros k Hk; apply N.eqb_neq; lia).
  rewrite !E by lia. now rewrite andb_false_r.
Qed.

Lemma visible_not_ws3 (a b c : ascii) :
  visible_ascii a = true ->
  is_ws3 a b c = false /\ is_ws3 b a c = false /\ is_ws3 b c a = false.
Proof.
  unfold visible_ascii, is_ws3. intros Ha. apply andb_true_iff in Ha as [Ha _].
  apply N.ltb_lt in Ha.
  assert (E : forall k, (128 <= k)%N -> (N_of_ascii a =? k)%N = false)
    by (intros k Hk; apply N.eqb_neq; lia).
  assert (L : (128 <=? N_of_ascii a)%N = false) by (apply N.leb_gt; lia).
  cbv zeta. rewrite !E by lia. rewrite ?L.
  repeat rewrite ?andb_false_r, ?andb_false_l, ?orb_false_r, ?orb_false_l.
  repeat split; reflexivity.
Qed.

(** Stripping stops in front of a visible character. *)
Lemma strip_ws_visible (backwards : bool) (n : nat) (p : string) (a : ascii) (q : string) :
  String.length p <= n -> visible_ascii a = true ->
  exists p', strip_ws backwards (p +:+ String a q) = p' +:+ String a q.
Proof.
  revert p. induction n as [|n IH]; intros p Hlen Ha.
  - destruct p; [|cbn in Hlen; lia]. exists "".
    assert (H1 : is_ws1 a = false)
      by (unfold visible_ascii in Ha; apply andb_true_iff in Ha as [_ Ha];
          now apply negb_true_iff in Ha).
    rewrite ?append_cons, ?append_nil_l; cbn [strip_ws]. rewrite H1. destruct q as [|b q]; [reflexivity|].
    destruct (visible_not_ws2 a b Ha) as [E1 E2]. rewrite E1, E2.
    destruct backwards; destruct q as [|c q]; try reflexivity;
      destruct (visible_not_ws3 a b c Ha) as (F1 & F2 & F3);
      destruct (visible_not_ws3 a c b Ha) as (G1 & G2 & G3);
      rewrite ?F1, ?G3; reflexivity.
  - destruct p as [|x p]; [apply (IH ""); [cbn; lia | exact Ha]|].
    cbn in Hlen. rewrite ?append_cons, ?append_nil_l; cbn [strip_ws].
    destruct (is_ws1 x); [apply IH; [lia | exact Ha]|].
    destruct p as [|y p].
    + exists (String x ""). rewrite ?append_cons, ?append_nil_l.
      destruct (visible_not_ws2 a x Ha) as [E1 E2]. rewrite E1, E2.
      destruct backwards; destruct q as [|c q]; try reflexivity;
        destruct (visible_not_ws3 a x c Ha) as (F1 & F2 & F3);
        destruct (visible_not_ws3 a c x Ha) as (G1 & G2 & G3);
        rewrite ?F2, ?G2; reflexivity.
    + cbn in Hlen. rewrite ?append_cons, ?append_nil_l.
      destruct (if backwards then is_ws2 y x else is_ws2 x y);
        [apply IH; [lia | exact Ha]|].
      destruct p as [|z p].
      * exists (String x (String y "")). rewrite ?append_cons, ?append_nil_l.
        destruct (visible_not_ws3 a x y Ha) as (F1 & F2 & F3).
        destruct (visible_not_ws3 a y x Ha) as (G1 & G2 & G3).
        destruct backwards; rewrite ?G1, ?F3; reflexivity.
      * cbn in Hlen. rewrite ?append_cons, ?append_nil_l.
        destruct (if backwards then is_ws3 z y x else is_ws3 x y z);
          [apply IH; [lia | exact Ha]|].
        exists (String x (String y (String z p))). reflexivity.
Qed.

Lemma rev_app_acc (s acc : string) :
  String.rev_app s acc = String.rev_app s "" +:+ acc.
Proof.
  revert acc. induction s as [|a s IH]; intros acc; cbn; [reflexivity|].
  rewrite (IH (String a acc)), (IH (String a "")).
  rewrite append_assoc. reflexivity.
Qed.

Lemma rev_middle (p : string) (a : ascii) (q : string) :
  String.rev (p +:+ String a q) = String.rev q +:+ String a (String.rev p).
Proof.
  unfold String.rev. revert q.
  assert (G : forall s1 s2 acc,
             String.rev_app (s1 +:+ s2) acc = String.rev_app s2 (String.rev_app s1 acc)).
  { induction s1 as [|x s1 IH]; intros s2 acc;
      rewrite ?append_cons, ?append_nil_l; cbn [String.rev_app];
      [reflexivity | apply IH]. }
  intros q. rewrite G. cbn [String.rev_app]. apply rev_app_acc.
Qed.

Lemma trim_visible (p : string) (a : ascii) (q : string) :
  visible_ascii a = true -> exists p' q', trim (p +:+ String a q) = p' +:+ String a q'.
Proof.
  intros Ha. unfold trim.
  destruct (strip_ws_visible false (String.length p) p a q (le_n _) Ha) as (p1 & ->).
  rewrite rev_middle.
  destruct (strip_ws_visible true (String.length (String.rev q)) (String.rev q) a
              (String.rev p1) (le_n _) Ha) as (q1 & ->).
  rewrite rev_middle. eauto.
Qed.

(** X7. A text with an ASCII character that is not white space passes
    validation, whatever stands before and after that character. *)
Theorem validateInput_accepts_visible_text (w : World) (p : string) (a : ascii)
        (q : string) :
  text_value w = p +:+ String a q ->
  visible_ascii a = true ->
  ModerationApp.validateInput "text" w = (Normal true, w).
Proof.
  intros Hvalue Ha. rewrite validateInput_spec, Hvalue.
  destruct (trim_visible p a q Ha) as (p' & q' & ->).
  change (String.eqb "text" "text") with true. cbv iota.
  rewrite length_append. cbn [String.length].
  replace (0 <? String.length p' + S (String.length q'))%nat with true; [reflexivity|].
  symmetry. apply Nat.ltb_lt. lia.
Qed.

(** ** Preparing the content *)

Lemma chosen_files_element (mode : string) (w : World) (file : File) (rest : list File) :
  chosen_files mode w = file :: rest ->
  exists i, element_of (mode +:+ "-file") w = Some i
            /\ property files i w = Some (file :: rest).
Proof.
  unfold chosen_files. destruct (element_of _ w) as [i|]; [|discriminate].
  intros Hfs. exists i. split; [reflexivity|].
  destruct (property files i w) as [fs|]; cbn in Hfs; [congruence | discriminate].
Qed.

(** X8. In a mode other than 'text' the first chosen file is the content,
    whatever its size, except that a video above 50 MB is refused: a video
    of exactly 50 MB passes, and images and audio have no limit. *)
Theorem prepareContent_first_file (mode : string) (w : World)
        (file : File) (rest : list File) :
  mode <> "text" ->
  chosen_files mode w = file :: rest ->
  (mode = "video" -> (file_size file <= 50 * 1024 * 1024)%N) ->
  ModerationApp.prepareContent mode w = (Normal (CFile file), w).
Proof.
  intros Hmode Hfiles Hsize.
  destruct (chosen_files_element mode w file rest Hfiles) as (i & Hi & Hfs).
  unfold ModerationApp.prepareContent.
  destruct (String.eqb_spec mode "text") as [|_]; [contradiction|].
  run. rewrite Hi. cbn. rewrite Hfs. cbn.
  destruct (String.eqb_spec mode "video") as [Hvideo|_]; [|reflexivity].
  specialize (Hsize Hvideo).
  replace (CONFIG.VIDEO.MAX_SIZE <? file_size file)%N with false; [reflexivity|].
  symmetry. apply N.ltb_ge. exact Hsize.
Qed.

(** X9. Once validation has passed, [prepareContent] cannot fail on a
    missing control or a missing file: it leaves the state as it is, and
    the only error it can raise is the one for a video above 50 MB. *)
Theorem prepareContent_after_validation (mode : string) (w : World) :
  (ModerationApp.validateInput mode w).1 = Normal true ->
  (ModerationApp.prepareContent mode w).2 = w
  /\ (mode = "text" ->
      (ModerationApp.prepareContent mode w).1 = Normal (CText (text_value w)))
  /\ (forall e, (ModerationApp.prepareContent mode w).1 = Throw e ->
                mode = "video"
                /\ exists file rest,
                     chosen_files mode w = file :: rest
                     /\ (50 * 1024 * 1024 < file_size file)%N
                     /\ err_name e = "Error").
Proof.
  rewrite validateInput_spec. cbn [fst].
  unfold ModerationApp.prepareContent, text_value, chosen_files.
  destruct (String.eqb_spec mode "text") as [->|Hmode]; run.
  - destruct (find_node (has_id "text-input") (page w)) as [i|]; cbn.
    + intros _. split; [reflexivity|]. split; [intros _; reflexivity|].
      intros e He. discriminate He.
    + discriminate.
  - destruct (find_node (has_id (mode +:+ "-file")) (page w)) as [i|]; cbn;
      [|discriminate].
    destruct (default [] (files <$> page w !! i)) as [|file rest] eqn:Hfs; cbn;
      [discriminate|].
    intros _. destruct (String.eqb_spec mode "video") as [->|_].
    + destruct (CONFIG.VIDEO.MAX_SIZE <? file_size file)%N eqn:Hsize; cbn.
      * split; [reflexivity|]. split; [intros Heq; discriminate Heq|].
        intros e [= <-]. split; [reflexivity|]. exists file, rest.
        split; [reflexivity|]. split; [now apply N.ltb_lt | reflexivity].
      * split; [reflexivity|]. split; [contradiction|]. intros e He. discriminate He.
    + split; [reflexivity|]. split; [contradiction|]. intros e He. discriminate He.
Qed.

(** ** Tiers and rendering *)

Lemma SFcompare_Lt_Eq_trans (a b c : spec_float) :
  SFcompare a b = Some Lt -> SFcompare b c = Some Eq -> SFcompare a c = Some Lt.
Proof. order_cases a b c. Qed.

Lemma num_lt_le_trans (a b c : number) :
  num_lt a b = true -> num_le b c = true -> num_lt a c = true.
Proof.
  unfold num_le, num_lt, SFleb, SFltb. intros Hab Hbc.
  destruct (SFcompare a b) as [[]|] eqn:E1; try discriminate.
  destruct (SFcompare b c) as [[]|] eqn:E2; try discriminate.
  - now rewrite (SFcompare_Lt_Eq_trans a b c E1 E2).
  - now rewrite (SFcompare_Lt_trans a b c E1 E2).
Qed.

(** X10. The tier grows with the score: a score at least as large as one
    in the high tier is in the high tier, and a score at most as large as
    one in the low tier is in the low tier. *)
Theorem getConsistencyInfo_monotone `{Builtins} (s1 s2 : JsVal) :
  num_le (ToNumber s1) (ToNumber s2) = true ->
  (Consistency.class (UIController.getConsistencyInfo s1) = "consistency-high" ->
   Consistency.class (UIController.getConsistencyInfo s2) = "consistency-high")
  /\ (Consistency.class (UIController.getConsistencyInfo s2) = "consistency-low" ->
      Consistency.class (UIController.getConsistencyInfo s1) = "consistency-low").
Proof.
  intros Hle. unfold UIController.getConsistencyInfo, js_gt, num_gt.
  assert (Hup : forall t, SFltb t (ToNumber s1) = true -> SFltb t (ToNumber s2) = true)
    by (intros t Ht; exact (num_lt_le_trans t _ _ Ht Hle)).
  split.
  - destruct (SFltb num_0_7 (ToNumber s1)) eqn:H1.
    + now rewrite (Hup _ H1).
    + destruct (SFltb num_0_4 (ToNumber s1)); discriminate.
  - destruct (SFltb num_0_7 (ToNumber s2)) eqn:H2; [discriminate|].
    destruct (SFltb num_0_4 (ToNumber s2)) eqn:H3; [discriminate|]. intros _.
    destruct (SFltb num_0_7 (ToNumber s1)) eqn:H1; [now rewrite (Hup _ H1) in H2|].
    destruct (SFltb num_0_4 (ToNumber s1)) eqn:H4; [now rewrite (Hup _ H4) in H3|].
    reflexivity.
Qed.




(** ** The active tab *)

Lemma has_class_remove_other (c d : string) (n : Node) :
  d <> c ->
  has_class d (with_classList (filter (fun x => String.eqb c x = false)) n)
  = has_class d n.
Proof.
  intros Hdc. unfold has_class, with_classList. cbn [classList].
  induction (classList n) as [|x l IH]; [reflexivity|].
  rewrite filter_cons. destruct (decide (String.eqb c x = false)) as [E|E].
  - cbn. now rewrite IH.
  - cbn. rewrite IH. apply not_false_is_true, String.eqb_eq in E. subst x.
    apply String.eqb_neq in Hdc. now rewrite Hdc.
Qed.

(** An update under which [g] stays true is not seen where [g] holds. *)
Lemma lookup_alter_true (g : Node -> bool) (f : Node -> Node) (r j : nat)
      (l : list Node) :
  (forall n, g n = true -> g (f n) = true) ->
  g <$> l !! j = Some true -> g <$> alter f r l !! j = Some true.
Proof.
  intros Hg Hj. destruct (decide (r = j)) as [->|Hne].
  - rewrite list_lookup_alter_eq. destruct (l !! j) as [n|]; [|discriminate].
    cbn in *. injection Hj as Hj. now rewrite Hg.
  - now rewrite list_lookup_alter_ne.
Qed.

Lemma forEach_classList_remove_clears (c : string) (l : list nat) (w : World) :
  exists w',
    forEach l (classList_remove c) w = (Normal tt, w')
    /\ frame w' = frame w /\ ui w' = ui w /\ trace w' = trace w
    /\ length (page w') = length (page w)
    /\ (forall r, In r l -> r < length (page w) ->
                  property (has_class c) r w' = Some false)
    /\ (forall r, property (has_class c) r w = Some false ->
                  property (has_class c) r w' = Some false)
    /\ (forall d r, d <> c ->
                    property (has_class d) r w' = property (has_class d) r w).
Proof.
  revert w. induction l as [|r0 l IH]; intros w; cbn [forEach].
  - exists w. repeat split; try reflexivity; try tauto. intros r [].
  - unfold bind at 1. unfold classList_remove at 1, node_set at 1.
    set (rm := with_classList (filter (fun x => String.eqb c x = false))).
    set (w1 := with_page (alter rm r0) w).
    assert (Hstay : forall r, property (has_class c) r w = Some false ->
                              property (has_class c) r w1 = Some false).
    { intros r Hr. unfold property, w1, with_page in *. cbn [page].
      destruct (decide (r0 = r)) as [->|Hne].
      - rewrite list_lookup_alter_eq. destruct (page w !! r) as [n|]; [|discriminate].
        change (Some (has_class c (rm n)) = Some false). f_equal.
        apply has_class_removed.
      - now rewrite list_lookup_alter_ne. }
    assert (Hlen : length (page w1) = length (page w))
      by (unfold w1, with_page; cbn [page]; apply length_alter).
    destruct (IH w1) as (w' & -> & Hf & Hu & Ht & Hl & Hin & Hkeep & Hother).
    exists w'. split; [reflexivity|]. split.
    { rewrite Hf. unfold frame, w1, with_page. cbn [page].
      apply frame_alter. intros ?; reflexivity. }
    split; [now rewrite Hu|]. split; [now rewrite Ht|].
    split; [congruence|]. split; [|split].
    + intros r [<-|Hr] Hlt.
      * apply Hkeep. unfold property, w1, with_page. cbn [page].
        rewrite list_lookup_alter_eq.
        destruct (lookup_lt_is_Some_2 (page w) r0 Hlt) as [n ->].
        change (Some (has_class c (rm n)) = Some false). f_equal.
        apply has_class_removed.
      * apply Hin; [exact Hr | now rewrite Hlen].
    + intros r Hr. apply Hkeep, Hstay, Hr.
    + intros d r Hd. rewrite (Hother d r Hd). unfold property, w1, with_page.
      cbn [page]. apply lookup_alter_keep. intros n. unfold rm.
      now apply has_class_remove_other.
Qed.

(** [switchMode] up to the call of [resetResults]. *)
Lemma switchMode_steps `{sel : Selectors} (mode : string) (w : World) (t p : nat) :
  selector_safe mode = true ->
  find_node (has_dataMode mode) (page w) = Some t ->
  element_of (mode +:+ "-panel") w = Some p ->
  exists w2,
    frame w2 = frame w /\ trace w2 = trace w
    /\ length (page w2) = length (page w)
    /\ ui w2 = mkUI mode (isProcessing (ui w)) (modeTabs (ui w)) (panels (ui w))
    /\ (forall r, In r (modeTabs (ui w) ++ panels (ui w)) -> r < length (page w) ->
                  property (has_class "active") r w2 = Some false)
    /\ (forall d r, d <> "active" ->
                    property (has_class d) r w2 = property (has_class d) r w)
    /\ UIController.switchMode mode w
       = UIController.resetResults
           (with_page (alter (with_classList
                                (fun l => if existsb (String.eqb "active") l
                                          then l else l ++ ["active"])) p)
              (with_page (alter (with_classList
                                   (fun l => if existsb (String.eqb "active") l
                                             then l else l ++ ["active"])) t) w2)).
Proof.
  intros Hsafe Htab Hpanel.
  unfold UIController.switchMode.
  unfold bind at 1. unfold set_currentMode at 1.
  set (w0 := with_ui _ w).
  unfold bind at 1. unfold bind at 1. unfold get_ui at 1.
  destruct (forEach_classList_remove_clears "active" (modeTabs (ui w0)) w0)
    as (w1 & R1 & F1 & U1 & T1 & L1 & In1 & _ & O1).
  rewrite R1.
  unfold bind at 1. unfold bind at 1. unfold get_ui at 1.
  destruct (forEach_classList_remove_clears "active" (panels (ui w1)) w1)
    as (w2 & R2 & F2 & U2 & T2 & L2 & In2 & K2 & O2).
  rewrite R2.
  assert (F02 : frame w2 = frame w) by (rewrite F2, F1; reflexivity).
  exists w2. split; [exact F02|]. split; [rewrite T2, T1; reflexivity|].
  split; [rewrite L2, L1; reflexivity|].
  split; [rewrite U2, U1; reflexivity|]. split; [|split].
  - intros r Hr Hlt. apply in_app_or in Hr as [Hr|Hr].
    + apply K2, In1; [exact Hr | exact Hlt].
    + apply In2; [rewrite U1; exact Hr | rewrite L1; exact Hlt].
  - intros d r Hd. rewrite (O2 d r Hd). exact (O1 d r Hd).
  - unfold bind at 1. unfold bind at 1.
    rewrite (querySelector_dataMode_safe mode w2 Hsafe).
    rewrite (find_node_ext (has_dataMode mode) (page w2) (page w)
               (has_dataMode_inputs mode) F02), Htab.
    unfold bind at 1. unfold deref at 1, ret at 1.
    unfold classList_add at 1, node_set at 1.
    set (w3 := with_page _ w2).
    assert (F3 : frame w3 = frame w).
    { rewrite <- F02. unfold frame, w3, with_page. cbn [page].
      apply frame_alter. intros ?; reflexivity. }
    unfold bind at 1. unfold bind at 1. unfold getElementById at 1.
    fold (element_of (mode +:+ "-panel") w3).
    rewrite (element_of_frame _ w w3 F3), Hpanel.
    unfold bind at 1. unfold deref at 1, ret at 1.
    unfold classList_add at 1, node_set at 1. reflexivity.
Qed.

Lemma resetResults_keeps_class (d : string) (r : nat) (w : World) :
  d <> "show" ->
  property (has_class d) r (UIController.resetResults w).2
  = property (has_class d) r w.
Proof.
  intros Hd. unfold UIController.resetResults. run.
  destruct (find_node (has_id "result-container") (page w));
    destruct (find_node (has_id "placeholder") (page w));
    cbn [page ui trace fst snd]; keep; try reflexivity.
  all: apply lookup_alter_keep; intros ?; now apply has_class_remove_other.
Qed.

Lemma switchMode_activates `{sel : Selectors} (mode : string) (w : World) (t p : nat) :
  selector_safe mode = true ->
  find_node (has_dataMode mode) (page w) = Some t ->
  element_of (mode +:+ "-panel") w = Some p ->
  property (has_class "active") t (UIController.switchMode mode w).2 = Some true
  /\ property (has_class "active") p (UIController.switchMode mode w).2 = Some true.
Proof.
  intros Hsafe Htab Hpanel.
  destruct (switchMode_steps mode w t p Hsafe Htab Hpanel)
    as (w2 & F2 & _ & L2 & _ & _ & _ & Hrun).
  rewrite Hrun.
  assert (St : is_Some (page w2 !! t)).
  { apply lookup_lt_is_Some_2. rewrite L2. apply lookup_lt_is_Some_1.
    eapply find_node_is_Some, Htab. }
  assert (Sp : is_Some (page w2 !! p)).
  { apply lookup_lt_is_Some_2. rewrite L2. apply lookup_lt_is_Some_1.
    eapply find_node_is_Some, Hpanel. }
  split; rewrite resetResults_keeps_class by discriminate;
    unfold property, with_page; cbn [page].
  - apply lookup_alter_true; [intros n _; apply has_class_added|].
    apply lookup_alter_set; [intros n; apply has_class_added | exact St].
  - apply lookup_alter_set; [intros n; apply has_class_added|].
    destruct (decide (t = p)) as [->|Hne];
      [rewrite list_lookup_alter_eq; now apply fmap_is_Some
      | rewrite list_lookup_alter_ne by exact Hne; exact Sp].
Qed.

(** X12. After [switchMode] with a mode made of characters that the
    selector takes as they are, the tab and the panel of the mode are
    active and no other tab or panel of the controller is. *)
Theorem switchMode_single_active `{sel : Selectors} (mode : string) (w : World)
        (t p : nat) :
  selector_safe mode = true ->
  find_node (has_dataMode mode) (page w) = Some t ->
  element_of (mode +:+ "-panel") w = Some p ->
  let w' := (UIController.switchMode mode w).2 in
  property (has_class "active") t w' = Some true
  /\ property (has_class "active") p w' = Some true
  /\ (forall r, In r (modeTabs (ui w) ++ panels (ui w)) ->
                r <> t -> r <> p -> r < length (page w) ->
                property (has_class "active") r w' = Some false).
Proof.
  intros Hsafe Htab Hpanel w'. subst w'.
  destruct (switchMode_activates mode w t p Hsafe Htab Hpanel) as [Ht Hp].
  split; [exact Ht|]. split; [exact Hp|].
  destruct (switchMode_steps mode w t p Hsafe Htab Hpanel)
    as (w2 & F2 & _ & L2 & _ & Hoff & _ & Hrun).
  intros r Hr Hrt Hrp Hlt. rewrite Hrun.
  rewrite resetResults_keeps_class by discriminate.
  unfold property, with_page; cbn [page].
  rewrite (list_lookup_alter_ne _ _ p r) by (intros ->; now apply Hrp).
  rewrite (list_lookup_alter_ne _ _ t r) by (intros ->; now apply Hrt).
  now apply Hoff.
Qed.

Lemma In_querySelectorAll_class (c : string) (nodes : list Node) (r : nat) :
  In r (querySelectorAll_class c nodes)
  <-> exists n, nodes !! r = Some n /\ has_class c n = true.
Proof.
  rewrite <- list_elem_of_In. unfold querySelectorAll_class.
  rewrite list_elem_of_fmap. split.
  - intros ([i n] & -> & Hin). apply list_elem_of_filter in Hin as [Hc Hin].
    apply elem_of_lookup_imap in Hin as (j & m & [= -> ->] & Hj). eauto.
  - intros (n & Hn & Hc). exists (r, n). split; [reflexivity|].
    apply list_elem_of_filter. split; [exact Hc|].
    apply elem_of_lookup_imap. eauto.
Qed.

(** X13. On a controller as the constructor makes it, [switchMode] with a
    mode made of characters that the selector takes as they are leaves the
    class 'active' on exactly the tab and the panel of the mode among the
    nodes of class 'mode-tab' or 'panel'. *)
Theorem switchMode_single_active_fresh `{sel : Selectors} (mode : string) (w : World)
        (t p : nat) :
  selector_safe mode = true ->
  ui w = UIController.new (page w) ->
  find_node (has_dataMode mode) (page w) = Some t ->
  element_of (mode +:+ "-panel") w = Some p ->
  forall r n,
    page w !! r = Some n ->
    has_class "mode-tab" n = true \/ has_class "panel" n = true ->
    property (has_class "active") r (UIController.switchMode mode w).2
    = Some (bool_decide (r = t \/ r = p)).
Proof.
  intros Hsafe Hui Htab Hpanel r n Hn Hclass.
  destruct (switchMode_steps mode w t p Hsafe Htab Hpanel)
    as (w2 & F2 & _ & L2 & _ & Hoff & _ & Hrun).
  assert (Hlt : r < length (page w)) by (apply lookup_lt_is_Some_1; eauto).
  assert (Hin : In r (modeTabs (ui w) ++ panels (ui w))).
  { rewrite Hui. cbn [UIController.new modeTabs panels]. apply in_or_app.
    destruct Hclass as [Hc|Hc]; [left|right];
      apply In_querySelectorAll_class; eauto. }
  assert (Sr : forall i, i < length (page w) -> is_Some (page w2 !! i))
    by (intros i Hi; apply lookup_lt_is_Some_2; now rewrite L2).
  rewrite Hrun, resetResults_keeps_class by discriminate.
  unfold property, with_page; cbn [page].
  destruct (decide (r = p)) as [->|Hrp].
  - rewrite bool_decide_eq_true_2 by now right.
    apply lookup_alter_set; [intros ?; apply has_class_added|].
    destruct (decide (t = p)) as [->|Hne];
      [rewrite list_lookup_alter_eq; apply fmap_is_Some; now apply Sr
      | rewrite list_lookup_alter_ne by exact Hne; now apply Sr].
  - rewrite (list_lookup_alter_ne _ _ p r) by (intros ->; now apply Hrp).
    destruct (decide (r = t)) as [->|Hrt].
    + rewrite bool_decide_eq_true_2 by now left.
      apply lookup_alter_set; [intros ?; apply has_class_added | now apply Sr].
    + rewrite bool_decide_eq_false_2 by tauto.
      rewrite (list_lookup_alter_ne _ _ t r) by (intros ->; now apply Hrt).
      now apply Hoff.
Qed.

(** ** A click on a tab *)

Lemma tabClicked_mode `{sel : Selectors} (target : nat) (w : World) (n : Node) :
  page w !! target = Some n ->
  tabClicked target w
  = UIController.switchMode (default "undefined" (dataMode n)) w.
Proof.
  intros Hn. unfold tabClicked, bind, node_get. now rewrite Hn.
Qed.

(** X14. A click on the first node that carries a mode, the mode being
    made of characters that the selector takes as they are, on a page with
    a panel for that mode, makes this mode current, activates the clicked
    node and the panel, and hides the result. *)
Theorem tabClicked_switches `{sel : Selectors} (target : nat) (w : World) (n : Node)
        (m : string) (p : nat) :
  page w !! target = Some n ->
  dataMode n = Some m ->
  selector_safe m = true ->
  find_node (has_dataMode m) (page w) = Some target ->
  element_of (m +:+ "-panel") w = Some p ->
  let out := tabClicked target w in
  out.1 = Normal tt
  /\ currentMode (ui out.2) = m
  /\ property (has_class "active") target out.2 = Some true
  /\ property (has_class "active") p out.2 = Some true
  /\ (forall rc, element_of "result-container" w = Some rc ->
                 property (has_class "show") rc out.2 = Some false).
Proof.
  intros Hn Hm Hsafe Htab Hpanel out. subst out.
  rewrite (tabClicked_mode target w n Hn), Hm.
  change (default "undefined" (Some m)) with m.
  pose proof (switchMode_activates m w target p Hsafe Htab Hpanel) as (Ht & Hp).
  split; [|split; [|split; [exact Ht | split; [exact Hp|]]]].
  all: destruct (switchMode_steps m w target p Hsafe Htab Hpanel)
      as (w2 & F2 & _ & _ & U2 & _ & _ & Hrun);
    rewrite Hrun;
    match goal with
    | |- context [UIController.resetResults ?w4] =>
        destruct (resetResults_spec w4) as (w5 & R5 & U5 & Hhidden & _);
        assert (F4 : frame w4 = frame w)
          by (rewrite <- F2; unfold frame, with_page; cbn [page];
              rewrite !frame_alter by (intros ?; reflexivity); reflexivity);
        rewrite R5; cbn [fst snd]
    end.
  - reflexivity.
  - rewrite U5. cbn [ui with_page]. now rewrite U2.
  - intros rc Hrc. apply Hhidden. now rewrite (element_of_frame _ w _ F4).
Qed.

(** X15. A click on a node without a mode, on a page with no tab for
    'undefined', throws after the mode has been set to 'undefined' and
    every tab and panel has been deactivated; the result view is not
    reset. *)
Theorem tabClicked_without_mode `{sel : Selectors} (target : nat) (w : World)
        (n : Node) :
  page w !! target = Some n ->
  dataMode n = None ->
  find_node (has_dataMode "undefined") (page w) = None ->
  let out := tabClicked target w in
  out.1 = Throw (TypeError "classList")
  /\ currentMode (ui out.2) = "undefined"
  /\ (forall r, In r (modeTabs (ui w) ++ panels (ui w)) -> r < length (page w) ->
                property (has_class "active") r out.2 = Some false)
  /\ (forall r, property (has_class "show") r out.2 = property (has_class "show") r w).
Proof.
  intros Hn Hm Hno out. subst out.
  rewrite (tabClicked_mode target w n Hn), Hm.
  change (default "undefined" (@None string)) with "undefined".
  assert (Hrun : exists w2,
             UIController.switchMode "undefined" w = (Throw (TypeError "classList"), w2)
             /\ currentMode (ui w2) = "undefined"
             /\ (forall r, In r (modeTabs (ui w) ++ panels (ui w)) ->
                           r < length (page w) ->
                           property (has_class "active") r w2 = Some false)
             /\ (forall r, property (has_class "show") r w2
                           = property (has_class "show") r w)).
  { unfold UIController.switchMode.
    unfold bind at 1. unfold set_currentMode at 1.
    set (w0 := with_ui _ w).
    unfold bind at 1. unfold bind at 1. unfold get_ui at 1.
    destruct (forEach_classList_remove_clears "active" (modeTabs (ui w0)) w0)
      as (w1 & R1 & F1 & U1 & T1 & L1 & In1 & _ & O1).
    rewrite R1.
    unfold bind at 1. unfold bind at 1. unfold get_ui at 1.
    destruct (forEach_classList_remove_clears "active" (panels (ui w1)) w1)
      as (w2 & R2 & F2 & U2 & T2 & L2 & In2 & K2 & O2).
    rewrite R2.
    assert (F02 : frame w2 = frame w) by (rewrite F2, F1; reflexivity).
    unfold bind at 1. unfold bind at 1.
    rewrite (querySelector_dataMode_safe "undefined" w2 eq_refl).
    rewrite (find_node_ext (has_dataMode "undefined") (page w2) (page w)
               (has_dataMode_inputs "undefined") F02), Hno.
    exists w2. split; [reflexivity|]. split; [|split].
    - rewrite U2, U1. reflexivity.
    - intros r Hr Hlt. apply in_app_or in Hr as [Hr|Hr].
      + apply K2, In1; [exact Hr | exact Hlt].
      + apply In2; [rewrite U1; exact Hr | rewrite L1; exact Hlt].
    - intros r. rewrite (O2 "show" r), (O1 "show" r) by discriminate. reflexivity. }
  destruct Hrun as (w2 & -> & Hmode & Hoff & Hshow). cbn [fst snd].
  repeat split; assumption.
Qed.

(** ** The whole of a submission *)

Lemma stateless_ret {A} (a : A) : stateless (ret a).
Proof. exists (Normal a). reflexivity. Qed.

Lemma stateless_throw {A} (e : JsError) : stateless (@throw A e).
Proof. exists (Throw e). reflexivity. Qed.

Lemma stateless_lift {A} (c : Completion A) : stateless (lift c).
Proof. exists c. reflexivity. Qed.

Lemma stateless_bind {A B} (m : M A) (k : A -> M B) :
  stateless m -> (forall a, stateless (k a)) -> stateless (bind m k).
Proof.
  intros [[a|e] Hm] Hk; unfold bind.
  - destruct (Hk a) as [c Hc]. exists c. intros w. now rewrite Hm, Hc.
  - exists (Throw e). intros w. now rewrite Hm.
Qed.

Ltac stateless_tac :=
  repeat first
    [ apply stateless_ret | apply stateless_throw | apply stateless_lift
    | apply stateless_bind; [|intros ?]
    | match goal with
      | |- stateless (match ?x with _ => _ end) => destruct x
      end ].

Section Submission.

Context `{Builtins}.

Lemma stateless_renderFrames (frames : list JsVal) :
  stateless (UIController.renderFrames frames).
Proof.
  induction frames as [|frame rest IH]; cbn [UIController.renderFrames].
  - stateless_tac.
  - unfold UIController.renderFrame. stateless_tac. exact IH.
Qed.

Lemma stateless_renderResultHTML (data : JsVal) (mode : string) :
  stateless (UIController.renderResultHTML data mode).
Proof.
  unfold UIController.renderResultHTML. stateless_tac.
  all: apply stateless_renderFrames.
Qed.

Lemma renderResultHTML_anywhere (data : JsVal) (mode : string) (w w' : World) :
  UIController.renderResultHTML data mode w'
  = ((UIController.renderResultHTML data mode w).1, w').
Proof.
  destruct (stateless_renderResultHTML data mode) as [c Hc]. now rewrite !Hc.
Qed.

Lemma moderate_anywhere (net : Network) (contentType : string) (content : Content)
      (w w' : World) :
  (APIService.moderate net contentType content w').1
  = (APIService.moderate net contentType content w).1.
Proof. rewrite !moderate_unfold. cbv zeta. case_matches; reflexivity. Qed.

Lemma moderate_state (net : Network) (contentType : string) (content : Content)
      (w : World) :
  let w' := (APIService.moderate net contentType content w).2 in
  page w' = page w /\ ui w' = ui w
  /\ exists cleared,
       trace w'
       = trace w ++ [EvSetTimeout 120000;
                     EvFetch (mkRequest "/api/moderate" "POST"
                                (Some (APIService.formData contentType content)) true)]
                 ++ cleared
       /\ forallb quiet cleared = true.
Proof.
  intros w'. subst w'. rewrite moderate_unfold. cbv zeta.
  case_matches; cbn [snd with_trace page ui trace];
    (split; [reflexivity|]); (split; [reflexivity|]);
    (exists [] + exists [EvClearTimeout]); split; reflexivity.
Qed.

Lemma moderate_resolved_shape (net : Network) (contentType : string)
      (content : Content) (w : World) (v : JsVal) :
  (APIService.moderate net contentType content w).1 = Normal v ->
  exists result, v = VObj [("success", VBool true); ("data", result)].
Proof.
  rewrite moderate_unfold. cbv zeta.
  case_matches; cbn [fst]; try discriminate; intros [= <-]; eauto.
Qed.

Lemma prepareContent_anywhere (mode : string) (w w' : World) :
  frame w' = frame w ->
  ModerationApp.prepareContent mode w'
  = ((ModerationApp.prepareContent mode w).1, w').
Proof.
  intros Hf. unfold ModerationApp.prepareContent.
  destruct (String.eqb mode "text"); unfold bind, getElementById, deref, node_get.
  - fold (element_of "text-input" w') (element_of "text-input" w).
    rewrite (element_of_frame _ w w' Hf).
    destruct (element_of "text-input" w) as [i|]; [|reflexivity].
    cbn. fold (property value i w') (property value i w).
    now rewrite (value_at_frame w w' i Hf).
  - fold (element_of (mode +:+ "-file") w') (element_of (mode +:+ "-file") w).
    rewrite (element_of_frame _ w w' Hf).
    destruct (element_of (mode +:+ "-file") w) as [i|]; [|reflexivity].
    cbn. fold (property files i w') (property files i w).
    rewrite (files_at_frame w w' i Hf).
    destruct (String.eqb mode "video"); [|reflexivity].
    destruct (head (default [] (property files i w))) as [file|]; [|reflexivity].
    destruct (CONFIG.VIDEO.MAX_SIZE <? file_size file)%N; reflexivity.
Qed.

(** What follows the reply in the [try] block adds no request. *)
Lemma evolves_after_reply (mode : string) (result : JsVal) :
  evolves quiet
    (let* success := lift (getProp result "success") in
     if truthy success
     then
       let* data := lift (getProp result "data") in
       UIController.displayResults data mode
     else ret tt).
Proof.
  apply evolves_bind; [apply evolves_lift|]. intros success.
  destruct (truthy success); [|apply evolves_ret].
  apply evolves_bind; [apply evolves_lift|]. intros data.
  apply evolves_displayResults.
Qed.

(** The flow up to the [try] block, when validation passes on a page with
    the button and the loading indicator. *)
Lemma flow_enters_try (net : Network) (w : World) :
  (ModerationApp.validateInput (currentMode (ui w)) w).1 = Normal true ->
  page_ready (currentMode (ui w)) w = true ->
  exists w2,
    evolved quiet w w2
    /\ ModerationApp.startModeration net w
       = try_finally (request_step net (currentMode (ui w)))
                     (UIController.setProcessingState false) w2.
Proof.
  intros Hvalid Hready. rewrite (startModeration_valid net w Hvalid).
  unfold page_ready in Hready.
  destruct (element_of "moderate-btn" w) as [btn|] eqn:Hbtn; [|discriminate].
  destruct (element_of "loading" w) as [loading|] eqn:Hloading; [|discriminate].
  cbn [present andb] in Hready.
  unfold bind at 1.
  pose proof (evolves_setProcessingState true w) as E1.
  destruct (setProcessingState_spec true w btn loading Hbtn Hloading) as (w1 & R1 & _).
  rewrite R1 in E1 |- *. cbn [snd] in E1.
  unfold bind at 1.
  pose proof (evolves_updateLoadingProgress (currentMode (ui w)) w1) as E2.
  pose proof (updateLoadingProgress_normal (currentMode (ui w)) w1) as N2.
  rewrite (element_of_frame "loading-detail" w w1 (proj1 E1)) in N2.
  specialize (N2 Hready).
  destruct (UIController.updateLoadingProgress (currentMode (ui w)) w1) as [c2 w2].
  cbn [fst snd] in E2, N2. subst c2.
  exists w2. split; [eapply evolved_trans; eassumption | reflexivity].
Qed.

End Submission.

Section SubmissionTheorems.

Context `{Builtins}.

Lemma try_catch_bind {A B} (m : M A) (k : A -> M B) (h : JsError -> M B) (w : World) :
  try_catch (bind m k) h w
  = match m w with
    | (Normal a, w') => try_catch (k a) h w'
    | (Throw e, w') => h e w'
    end.
Proof. unfold try_catch, bind. destruct (m w) as [[a|e] w']; reflexivity. Qed.

(** [try ... finally] only depends on how its body ends. *)
Lemma try_finally_at {A} (body body' : M A) (fin : M unit) (w w' : World) :
  body w = body' w' -> try_finally body fin w = try_finally body' fin w'.
Proof. intros Hb. unfold try_finally. now rewrite Hb. Qed.

Lemma evolves_after_the_reply (mode : string) (reply : Completion JsVal) :
  evolves quiet (after_reply mode reply).
Proof.
  unfold after_reply. apply evolves_try_finally;
    [|apply evolves_setProcessingState].
  destruct reply as [result|e]; [|apply evolves_showError].
  apply evolves_try_catch; [apply evolves_after_reply|].
  intros e. apply evolves_showError.
Qed.

(** A validated submission on a ready page, step by step: the state
    [w2] in which the [try] block starts, the state [w3] after the reply
    to the request, and the rest of the flow from there. *)
Lemma flow_steps (net : Network) (w : World) (content : Content) :
  let mode := currentMode (ui w) in
  (ModerationApp.validateInput mode w).1 = Normal true ->
  page_ready mode w = true ->
  (ModerationApp.prepareContent mode w).1 = Normal content ->
  exists w2 w3,
    evolved quiet w w2
    /\ APIService.moderate net mode content w2
       = ((APIService.moderate net mode content w).1, w3)
    /\ ModerationApp.startModeration net w
       = after_reply mode (APIService.moderate net mode content w).1 w3.
Proof.
  intros mode Hvalid Hready Hprep.
  destruct (flow_enters_try net w Hvalid Hready) as (w2 & E2 & ->).
  fold mode. exists w2, (APIService.moderate net mode content w2).2.
  split; [exact E2|]. split.
  - rewrite <- (moderate_anywhere net mode content w w2).
    now destruct (APIService.moderate net mode content w2).
  - unfold after_reply. apply try_finally_at.
    unfold request_step. rewrite try_catch_bind.
    rewrite (prepareContent_anywhere mode w w2 (proj1 E2)), Hprep.
    rewrite try_catch_bind.
    rewrite <- (moderate_anywhere net mode content w w2).
    destruct (APIService.moderate net mode content w2) as [[result|e] w3];
      reflexivity.
Qed.

(** X16. A submission that passes validation makes exactly one request,
    and that request carries the mode and the content that
    [prepareContent] yields: the text as typed, or the first chosen file. *)
Theorem startModeration_sends_content (net : Network) (w : World) (content : Content) :
  let mode := currentMode (ui w) in
  (ModerationApp.validateInput mode w).1 = Normal true ->
  page_ready mode w = true ->
  (ModerationApp.prepareContent mode w).1 = Normal content ->
  exists pre post,
    trace (ModerationApp.startModeration net w).2
    = trace w ++ pre
              ++ EvFetch (mkRequest "/api/moderate" "POST"
                            (Some (APIService.formData mode content)) true)
              :: post
    /\ forallb quiet pre = true /\ forallb quiet post = true.
Proof.
  intros mode Hvalid Hready Hprep.
  destruct (flow_steps net w content Hvalid Hready Hprep)
    as (w2 & w3 & [_ (pre & T2 & Q2)] & R3 & ->).
  fold mode in R3 |- *.
  pose proof (moderate_state net mode content w2) as (_ & _ & cleared & T3 & Q3).
  rewrite R3 in T3. cbn [snd] in T3.
  destruct (evolves_after_the_reply mode
              (APIService.moderate net mode content w).1 w3) as [_ (rest & T5 & Q5)].
  rewrite T5, T3, T2.
  exists (pre ++ [EvSetTimeout 120000]), (cleared ++ rest).
  rewrite !forallb_app, Q2, Q3, Q5. repeat split.
  rewrite <- !app_assoc. reflexivity.
Qed.

Lemma property_has_class (c : string) (i : nat) (w : World) :
  property (has_class c) i w
  = (fun l => existsb (String.eqb c) l) <$> property classList i w.
Proof. unfold property. now destruct (page w !! i). Qed.

Lemma displayResults_normal (result : JsVal) (mode : string) (w : World)
      (rb rd rc : nat) (level : RiskLevel) (html : string) :
  element_of "risk-badge" w = Some rb ->
  element_of "result-details" w = Some rd ->
  element_of "result-container" w = Some rc ->
  UIController.riskLevelOf result = Normal level ->
  (UIController.renderResultHTML result mode w).1 = Normal html ->
  exists w',
    UIController.displayResults result mode w = (Normal tt, w')
    /\ property classList rb w' = Some (class_tokens ("risk-badge " +:+ class level))
    /\ property textContent rb w' = Some (text level)
    /\ property innerHTML rd w' = Some html
    /\ property (has_class "show") rc w' = Some true.
Proof.
  intros Hrb Hrd Hrc Hlevel Hhtml.
  pose proof (find_node_is_Some _ _ _ Hrb) as Srb.
  pose proof (find_node_is_Some _ _ _ Hrd) as Srd.
  pose proof (find_node_is_Some _ _ _ Hrc) as Src.
  assert (Hne : rc <> rb)
    by (eapply (find_id_distinct "result-container" "risk-badge");
        [exact Hrc | exact Hrb | discriminate]).
  unfold UIController.displayResults. run. rewrite Hrb, Hrd, Hrc, Hlevel.
  cbn [page ui trace fst snd].
  match goal with
  | |- context [UIController.renderResultHTML result mode ?w2] =>
      rewrite (renderResultHTML_anywhere result mode w w2), Hhtml
  end.
  cbn [page ui trace fst snd]. eexists. split; [reflexivity|].
  cbn [page ui trace fst snd].
  assert (S : forall i f g (l : list Node),
             is_Some (l !! i) -> is_Some (alter f i (alter g i l) !! i))
    by (intros i f g l Hi; rewrite !list_lookup_alter_eq, !fmap_is_Some; exact Hi).
  split; [|split; [|split]].
  - rewrite (list_lookup_alter_ne _ _ rc rb) by exact Hne. keep.
    apply lookup_alter_set; [intros ?; reflexivity | exact Srb].
  - rewrite (list_lookup_alter_ne _ _ rc rb) by exact Hne. keep.
    apply lookup_alter_set; [intros ?; reflexivity|].
    rewrite list_lookup_alter_eq, fmap_is_Some. exact Srb.
  - keep. apply lookup_alter_set; [intros ?; reflexivity|].
    repeat (rewrite list_lookup_alter; case_decide; rewrite ?fmap_is_Some);
      subst; assumption.
  - apply lookup_alter_set; [intros ?; apply has_class_added|].
    repeat (rewrite list_lookup_alter; case_decide; rewrite ?fmap_is_Some);
      subst; assumption.
Qed.

Lemma setProcessingState_false_keeps (w : World) (btn loading : nat) :
  element_of "moderate-btn" w = Some btn ->
  element_of "loading" w = Some loading ->
  exists w',
    UIController.setProcessingState false w = (Normal tt, w')
    /\ isProcessing (ui w') = false
    /\ (forall i, property innerHTML i w' = property innerHTML i w)
    /\ (forall i, i <> loading -> property classList i w' = property classList i w)
    /\ (forall i, element_of "btn-text" w <> Some i ->
                  property textContent i w' = property textContent i w).
Proof.
  intros Hbtn Hloading.
  unfold UIController.setProcessingState. run. rewrite Hbtn, Hloading.
  destruct (find_node (has_id "btn-text") (page w)) as [bt|];
    destruct (find_node (has_id "placeholder") (page w));
    destruct (find_node (has_id "result-container") (page w));
    cbn [page ui trace fst snd isProcessing];
    eexists; (split; [reflexivity|]); cbn [page ui trace fst snd isProcessing];
    (split; [reflexivity|]);
    (split; [intros i; keep; reflexivity|]);
    (split; [intros i Hi; keep;
             rewrite (list_lookup_alter_ne _ _ loading i) by congruence;
             keep; reflexivity|]);
    intros i Hi; keep;
    try (rewrite (list_lookup_alter_ne _ _ bt i) by congruence);
    keep; reflexivity.
Qed.

Lemma showError_badge (message : string) (w : World) (rb : nat) :
  element_of "risk-badge" w = Some rb ->
  property textContent rb (UIController.showError message w).2 = Some "❌ 处理失败".
Proof.
  intros Hrb. pose proof (find_node_is_Some _ _ _ Hrb) as Srb.
  unfold UIController.showError. run. rewrite Hrb.
  destruct (find_node (has_id "result-details") (page w));
    destruct (find_node (has_id "result-container") (page w));
    cbn [page ui trace fst snd]; keep;
    (apply lookup_alter_set; [intros ?; reflexivity|]);
    rewrite list_lookup_alter_eq, fmap_is_Some; exact Srb.
Qed.

(** X17. When [moderate] resolves and the result can be classified and
    rendered, the submission ends with the badge of the derived level,
    the rendered details in the shown result panel, and the processing
    state cleared. *)
Theorem startModeration_shows_result (net : Network) (w : World) (content : Content)
        (reply result : JsVal) (level : RiskLevel) (html : string) (rb rd rc : nat) :
  let mode := currentMode (ui w) in
  (ModerationApp.validateInput mode w).1 = Normal true ->
  page_ready mode w = true ->
  element_of "risk-badge" w = Some rb ->
  element_of "result-details" w = Some rd ->
  element_of "result-container" w = Some rc ->
  (ModerationApp.prepareContent mode w).1 = Normal content ->
  (APIService.moderate net mode content w).1 = Normal reply ->
  getProp reply "data" = Normal result ->
  UIController.riskLevelOf result = Normal level ->
  (UIController.renderResultHTML result mode w).1 = Normal html ->
  let out := ModerationApp.startModeration net w in
  out.1 = Normal tt
  /\ isProcessing (ui out.2) = false
  /\ property textContent rb out.2 = Some (text level)
  /\ property classList rb out.2 = Some (class_tokens ("risk-badge " +:+ class level))
  /\ property innerHTML rd out.2 = Some html
  /\ property (has_class "show") rc out.2 = Some true.
Proof.
  intros mode Hvalid Hready Hrb Hrd Hrc Hprep Hreply Hdata Hlevel Hhtml out.
  subst out.
  destruct (flow_steps net w content Hvalid Hready Hprep)
    as (w2 & w3 & [F2 _] & R3 & ->).
  fold mode in R3 |- *.
  pose proof (moderate_state net mode content w2) as (P3 & _).
  rewrite R3 in P3. cbn [snd] in P3.
  assert (F3 : frame w3 = frame w) by (unfold frame; rewrite P3; exact F2).
  rewrite Hreply.
  destruct (moderate_resolved_shape net mode content w reply Hreply) as (result' & ->).
  cbn in Hdata. injection Hdata as ->.
  unfold page_ready in Hready.
  destruct (element_of "moderate-btn" w) as [btn|] eqn:Hbtn; [|discriminate].
  destruct (element_of "loading" w) as [loading|] eqn:Hloading; [|discriminate].
  rewrite <- (element_of_frame "risk-badge" w w3 F3) in Hrb.
  rewrite <- (element_of_frame "result-details" w w3 F3) in Hrd.
  rewrite <- (element_of_frame "result-container" w w3 F3) in Hrc.
  rewrite (renderResultHTML_anywhere result mode w3 w) in Hhtml. cbn [fst] in Hhtml.
  destruct (displayResults_normal result mode w3 rb rd rc level html
              Hrb Hrd Hrc Hlevel Hhtml)
    as (w4 & R4 & Hclass & Htext & Hinner & Hshow).
  pose proof (evolves_displayResults result mode w3) as [F4 _].
  rewrite R4 in F4. cbn [snd] in F4.
  assert (Hbody :
            try_catch
              (let* success
                 := lift (getProp (VObj [("success", VBool true); ("data", result)])
                            "success") in
               if truthy success
               then
                 let* data
                   := lift (getProp (VObj [("success", VBool true); ("data", result)])
                              "data") in
                 UIController.displayResults data mode
               else ret tt)
              (fun error => UIController.showError (err_message error)) w3
            = (Normal tt, w4)).
  { unfold try_catch, bind, lift.
    change (getProp (VObj [("success", VBool true); ("data", result)]) "success")
      with (Normal (VBool true)).
    change (getProp (VObj [("success", VBool true); ("data", result)]) "data")
      with (Normal result).
    cbn [truthy]. now rewrite R4. }
  unfold after_reply, try_finally. rewrite Hbody.
  assert (Hbtn4 : element_of "moderate-btn" w4 = Some btn)
    by (rewrite (element_of_frame _ w3 w4 F4), (element_of_frame _ w w3 F3); exact Hbtn).
  assert (Hloading4 : element_of "loading" w4 = Some loading)
    by (rewrite (element_of_frame _ w3 w4 F4), (element_of_frame _ w w3 F3);
        exact Hloading).
  destruct (setProcessingState_false_keeps w4 btn loading Hbtn4 Hloading4)
    as (w5 & -> & Hflag & Kinner & Kclass & Ktext).
  cbn [fst snd].
  assert (Hloading3 : element_of "loading" w3 = Some loading)
    by (rewrite (element_of_frame _ w w3 F3); exact Hloading).
  assert (Nrb : rb <> loading)
    by (eapply (find_id_distinct "risk-badge" "loading");
        [exact Hrb | exact Hloading3 | discriminate]).
  assert (Nrc : rc <> loading)
    by (eapply (find_id_distinct "result-container" "loading");
        [exact Hrc | exact Hloading3 | discriminate]).
  assert (Nbt : element_of "btn-text" w4 <> Some rb).
  { intros Hbt. rewrite (element_of_frame _ w3 w4 F4) in Hbt.
    now apply (find_id_distinct "btn-text" "risk-badge" (page w3) rb rb Hbt Hrb). }
  split; [reflexivity|]. split; [exact Hflag|].
  split; [rewrite (Ktext rb Nbt); exact Htext|].
  split; [rewrite (Kclass rb Nrb); exact Hclass|].
  split; [rewrite Kinner; exact Hinner|].
  rewrite property_has_class, (Kclass rc Nrc), <- property_has_class. exact Hshow.
Qed.

(** X18. When [moderate] rejects, with whatever error, the submission
    still completes: the message of that error is shown in the result
    panel under the failure badge, and the processing state is cleared. *)
Theorem startModeration_shows_error (net : Network) (w : World) (content : Content)
        (e : JsError) (rd : nat) :
  let mode := currentMode (ui w) in
  (ModerationApp.validateInput mode w).1 = Normal true ->
  page_ready mode w = true ->
  element_of "result-details" w = Some rd ->
  (ModerationApp.prepareContent mode w).1 = Normal content ->
  (APIService.moderate net mode content w).1 = Throw e ->
  let out := ModerationApp.startModeration net w in
  out.1 = Normal tt
  /\ isProcessing (ui out.2) = false
  /\ property innerHTML rd out.2
     = Some (div "result-section" (div "error-message" (err_message e)))
  /\ (forall rb, element_of "risk-badge" w = Some rb ->
                 property textContent rb out.2 = Some "❌ 处理失败")
  /\ (forall rc, element_of "result-container" w = Some rc ->
                 property (has_class "show") rc out.2 = Some true).
Proof.
  intros mode Hvalid Hready Hrd Hprep Hreply out. subst out.
  destruct (flow_steps net w content Hvalid Hready Hprep)
    as (w2 & w3 & [F2 _] & R3 & ->).
  fold mode in R3 |- *.
  pose proof (moderate_state net mode content w2) as (P3 & _).
  rewrite R3 in P3. cbn [snd] in P3.
  assert (F3 : frame w3 = frame w) by (unfold frame; rewrite P3; exact F2).
  rewrite Hreply.
  unfold page_ready in Hready.
  destruct (element_of "moderate-btn" w) as [btn|] eqn:Hbtn; [|discriminate].
  destruct (element_of "loading" w) as [loading|] eqn:Hloading; [|discriminate].
  destruct (showError_spec (err_message e) w3) as (w4 & R4 & Hinner & Hshow).
  pose proof (showError_badge (err_message e) w3) as Hbadge.
  pose proof (evolves_showError (err_message e) w3) as [F4 _].
  rewrite R4 in F4, Hbadge. cbn [snd] in F4, Hbadge.
  unfold after_reply, try_finally. rewrite R4.
  assert (Hbtn4 : element_of "moderate-btn" w4 = Some btn)
    by (rewrite (element_of_frame _ w3 w4 F4), (element_of_frame _ w w3 F3); exact Hbtn).
  assert (Hloading4 : element_of "loading" w4 = Some loading)
    by (rewrite (element_of_frame _ w3 w4 F4), (element_of_frame _ w w3 F3);
        exact Hloading).
  destruct (setProcessingState_false_keeps w4 btn loading Hbtn4 Hloading4)
    as (w5 & -> & Hflag & Kinner & Kclass & Ktext).
  cbn [fst snd].
  split; [reflexivity|]. split; [exact Hflag|].
  split; [rewrite Kinner; apply Hinner; now rewrite (element_of_frame _ w w3 F3)|].
  split.
  - intros rb Hrb. rewrite <- (element_of_frame _ w w3 F3) in Hrb.
    rewrite Ktext; [now apply Hbadge|].
    intros Hbt. rewrite (element_of_frame _ w3 w4 F4) in Hbt.
    now apply (find_id_distinct "btn-text" "risk-badge" (page w3) rb rb Hbt Hrb).
  - intros rc Hrc. rewrite <- (element_of_frame _ w w3 F3) in Hrc.
    rewrite property_has_class, Kclass, <- property_has_class; [now apply Hshow|].
    eapply (find_id_distinct "result-container" "loading");
      [exact Hrc | | discriminate].
    change (element_of "loading" w3 = Some loading).
    rewrite (element_of_frame _ w w3 F3). exact Hloading.
Qed.

(** X19. When [moderate] resolves with a [data] on which the read of
    [violation] throws ([data] is undefined or null), [displayResults]
    stops at that read and the submission ends as a failure: the message
    of the error that the read threw is shown under the failure badge, and
    the processing state is cleared. *)
Theorem startModeration_missing_result (net : Network) (w : World) (content : Content)
        (reply result : JsVal) (e : JsError) (rb rd rc : nat) :
  let mode := currentMode (ui w) in
  (ModerationApp.validateInput mode w).1 = Normal true ->
  page_ready mode w = true ->
  element_of "risk-badge" w = Some rb ->
  element_of "result-details" w = Some rd ->
  element_of "result-container" w = Some rc ->
  (ModerationApp.prepareContent mode w).1 = Normal content ->
  (APIService.moderate net mode content w).1 = Normal reply ->
  getProp reply "data" = Normal result ->
  getProp result "violation" = Throw e ->
  let out := ModerationApp.startModeration net w in
  out.1 = Normal tt
  /\ isProcessing (ui out.2) = false
  /\ property textContent rb out.2 = Some "❌ 处理失败"
  /\ property innerHTML rd out.2
     = Some (div "result-section" (div "error-message" (err_message e))).
Proof.
  intros mode Hvalid Hready Hrb Hrd Hrc Hprep Hreply Hdata Hread out. subst out.
  destruct (flow_steps net w content Hvalid Hready Hprep)
    as (w2 & w3 & [F2 _] & R3 & ->).
  fold mode in R3 |- *.
  pose proof (moderate_state net mode content w2) as (P3 & _).
  rewrite R3 in P3. cbn [snd] in P3.
  assert (F3 : frame w3 = frame w) by (unfold frame; rewrite P3; exact F2).
  rewrite Hreply.
  destruct (moderate_resolved_shape net mode content w reply Hreply) as (result' & ->).
  cbn in Hdata. injection Hdata as ->.
  unfold page_ready in Hready.
  destruct (element_of "moderate-btn" w) as [btn|] eqn:Hbtn; [|discriminate].
  destruct (element_of "loading" w) as [loading|] eqn:Hloading; [|discriminate].
  rewrite <- (element_of_frame "risk-badge" w w3 F3) in Hrb.
  rewrite <- (element_of_frame "result-details" w w3 F3) in Hrd.
  rewrite <- (element_of_frame "result-container" w w3 F3) in Hrc.
  assert (Hthrows : UIController.displayResults result mode w3 = (Throw e, w3)).
  { unfold UIController.displayResults. run. rewrite Hrb, Hrd, Hrc.
    unfold UIController.riskLevelOf. now rewrite Hread. }
  destruct (showError_spec (err_message e) w3) as (w4 & R4 & Hinner & _).
  pose proof (showError_badge (err_message e) w3 rb Hrb) as Hbadge.
  pose proof (evolves_showError (err_message e) w3) as [F4 _].
  rewrite R4 in F4, Hbadge. cbn [snd] in F4, Hbadge.
  assert (Hbody :
            try_catch
              (let* success
                 := lift (getProp (VObj [("success", VBool true); ("data", result)])
                            "success") in
               if truthy success
               then
                 let* data
                   := lift (getProp (VObj [("success", VBool true); ("data", result)])
                              "data") in
                 UIController.displayResults data mode
               else ret tt)
              (fun error => UIController.showError (err_message error)) w3
            = (Normal tt, w4)).
  { unfold try_catch, bind, lift.
    change (getProp (VObj [("success", VBool true); ("data", result)]) "success")
      with (Normal (VBool true)).
    change (getProp (VObj [("success", VBool true); ("data", result)]) "data")
      with (Normal result).
    cbn [truthy]. now rewrite Hthrows, R4. }
  unfold after_reply, try_finally. rewrite Hbody.
  assert (Hbtn4 : element_of "moderate-btn" w4 = Some btn)
    by (rewrite (element_of_frame _ w3 w4 F4), (element_of_frame _ w w3 F3); exact Hbtn).
  assert (Hloading4 : element_of "loading" w4 = Some loading)
    by (rewrite (element_of_frame _ w3 w4 F4), (element_of_frame _ w w3 F3);
        exact Hloading).
  destruct (setProcessingState_false_keeps w4 btn loading Hbtn4 Hloading4)
    as (w5 & -> & Hflag & Kinner & Kclass & Ktext).
  cbn [fst snd].
  split; [reflexivity|]. split; [exact Hflag|]. split.
  - rewrite Ktext; [exact Hbadge|].
    intros Hbt. rewrite (element_of_frame _ w3 w4 F4) in Hbt.
    now apply (find_id_distinct "btn-text" "risk-badge" (page w3) rb rb Hbt Hrb).
  - rewrite Kinner. now apply Hinner.
Qed.

End SubmissionTheorems.

(** ** The placeholder during a submission *)

Section Keeps.

Context {X : Type} (g : Node -> X).

Lemma keeps_ret {A} (a : A) : keeps g (ret a).
Proof. intros w i. reflexivity. Qed.

Lemma keeps_throw {A} (e : JsError) : keeps g (@throw A e).
Proof. intros w i. reflexivity. Qed.

Lemma keeps_lift {A} (c : Completion A) : keeps g (lift c).
Proof. intros w i. reflexivity. Qed.

Lemma keeps_read {A} (f : World -> A) : keeps g (fun w => (Normal (f w), w)).
Proof. intros w i. reflexivity. Qed.

Lemma keeps_log (e : Event) : keeps g (log e).
Proof. intros w i. reflexivity. Qed.

Lemma keeps_set_ui (f : UIState -> UIState) : keeps g (fun w => (Normal tt, with_ui f w)).
Proof. intros w i. reflexivity. Qed.

Lemma keeps_bind {A B} (m : M A) (k : A -> M B) :
  keeps g m -> (forall a, keeps g (k a)) -> keeps g (bind m k).
Proof.
  intros Hm Hk w i. unfold bind. specialize (Hm w i).
  destruct (m w) as [[a|e] w1]; cbn [snd] in Hm; [|exact Hm].
  now rewrite Hk.
Qed.

Lemma keeps_try_catch {A} (body : M A) (handler : JsError -> M A) :
  keeps g body -> (forall e, keeps g (handler e)) -> keeps g (try_catch body handler).
Proof.
  intros Hm Hk w i. unfold try_catch. specialize (Hm w i).
  destruct (body w) as [[a|e] w1]; cbn [snd] in Hm; [exact Hm|].
  now rewrite Hk.
Qed.

Lemma keeps_try_finally {A} (body : M A) (fin : M unit) :
  keeps g body -> keeps g fin -> keeps g (try_finally body fin).
Proof.
  intros Hm Hk w i. unfold try_finally. specialize (Hm w i).
  destruct (body w) as [c w1]. cbn [snd] in Hm. specialize (Hk w1 i).
  destruct (fin w1) as [[[]|e] w2]; cbn [snd] in Hk |- *; congruence.
Qed.

Lemma keeps_node_set (r : nat) (f : Node -> Node) :
  (forall n, g (f n) = g n) -> keeps g (node_set r f).
Proof. intros Hf w i. unfold node_set, property, with_page. cbn. now apply lookup_alter_keep. Qed.

Lemma keeps_deref (what : string) (r : option nat) : keeps g (deref what r).
Proof. destruct r; [apply keeps_ret | apply keeps_throw]. Qed.

Lemma keeps_when_present (r : option nat) (k : nat -> M unit) :
  (forall i, keeps g (k i)) -> keeps g (when_present r k).
Proof. intros Hk. destruct r; [apply Hk | apply keeps_ret]. Qed.

End Keeps.

Ltac keeps_step :=
  first
    [ apply keeps_ret | apply keeps_throw | apply keeps_lift
    | apply keeps_bind; [|intros ?]
    | apply keeps_try_catch; [|intros ?]
    | apply keeps_try_finally
    | apply keeps_deref
    | apply keeps_when_present; intros ?
    | apply keeps_node_set; intros ?; reflexivity
    | apply keeps_set_ui
    | apply keeps_read
    | apply keeps_log
    | match goal with
      | |- keeps _ (match ?x with _ => _ end) => destruct x
      end ].

Ltac keeps_tac :=
  unfold UIController.element, getElementById, querySelector_dataMode, get_ui,
    node_get, set_currentMode, set_isProcessing, classList_add, classList_remove,
    set_className, set_textContent, set_innerHTML, set_disabled, set_display,
    alert;
  repeat keeps_step.

Section Placeholder.

Context `{Builtins}.

Lemma keeps_display_renderFrames (frames : list JsVal) :
  keeps display (UIController.renderFrames frames).
Proof.
  induction frames as [|frame rest IH]; cbn [UIController.renderFrames].
  - keeps_tac.
  - unfold UIController.renderFrame. keeps_tac. exact IH.
Qed.

Lemma keeps_display_displayResults (result : JsVal) (mode : string) :
  keeps display (UIController.displayResults result mode).
Proof.
  unfold UIController.displayResults, UIController.renderResultHTML. keeps_tac.
  all: apply keeps_display_renderFrames.
Qed.

Lemma keeps_display_showError (message : string) :
  keeps display (UIController.showError message).
Proof. unfold UIController.showError. keeps_tac. Qed.

Lemma keeps_display_prepareContent (mode : string) :
  keeps display (ModerationApp.prepareContent mode).
Proof. unfold ModerationApp.prepareContent. keeps_tac. Qed.

Lemma keeps_display_moderate (net : Network) (mode : string) (content : Content) :
  keeps display (APIService.moderate net mode content).
Proof. unfold APIService.moderate, fetch. keeps_tac. Qed.

Lemma keeps_display_setProcessingState_false :
  keeps display (UIController.setProcessingState false).
Proof. unfold UIController.setProcessingState. keeps_tac. Qed.

Lemma keeps_display_after_reply (mode : string) (reply : Completion JsVal) :
  keeps display (after_reply mode reply).
Proof.
  unfold after_reply.
  apply keeps_try_finally; [|apply keeps_display_setProcessingState_false].
  destruct reply as [result|e]; [|apply keeps_display_showError].
  apply keeps_try_catch; [|intros e; apply keeps_display_showError].
  apply keeps_bind; [apply keeps_lift|]. intros success.
  destruct (truthy success); [|apply keeps_ret].
  apply keeps_bind; [apply keeps_lift|]. intros data.
  apply keeps_display_displayResults.
Qed.

Lemma keeps_display_request_step (net : Network) (mode : string) :
  keeps display
    (try_finally (request_step net mode) (UIController.setProcessingState false)).
Proof.
  apply keeps_try_finally; [|apply keeps_display_setProcessingState_false].
  unfold request_step.
  apply keeps_try_catch; [|intros e; apply keeps_display_showError].
  apply keeps_bind; [apply keeps_display_prepareContent|]. intros content.
  apply keeps_bind; [apply keeps_display_moderate|]. intros result.
  apply keeps_bind; [apply keeps_lift|]. intros success.
  destruct (truthy success); [|apply keeps_ret].
  apply keeps_bind; [apply keeps_lift|]. intros data.
  apply keeps_display_displayResults.
Qed.

(** The steps before the [try] block hide the placeholder. *)
Lemma flow_enters_try_hidden (net : Network) (w : World) (ph : nat) :
  (ModerationApp.validateInput (currentMode (ui w)) w).1 = Normal true ->
  page_ready (currentMode (ui w)) w = true ->
  element_of "placeholder" w = Some ph ->
  exists w2,
    frame w2 = frame w
    /\ property display ph w2 = Some "none"
    /\ ModerationApp.startModeration net w
       = try_finally (request_step net (currentMode (ui w)))
                     (UIController.setProcessingState false) w2.
Proof.
  intros Hvalid Hready Hph. rewrite (startModeration_valid net w Hvalid).
  set (mode := currentMode (ui w)) in *.
  change (exists w2,
             frame w2 = frame w
             /\ property display ph w2 = Some "none"
             /\ (UIController.setProcessingState true ;;;
                 (UIController.updateLoadingProgress mode ;;;
                  try_finally (request_step net mode)
                              (UIController.setProcessingState false))) w
                = try_finally (request_step net mode)
                              (UIController.setProcessingState false) w2).
  unfold page_ready in Hready.
  destruct (element_of "moderate-btn" w) as [btn|] eqn:Hbtn; [|discriminate].
  destruct (element_of "loading" w) as [loading|] eqn:Hloading; [|discriminate].
  cbn [present andb] in Hready.
  assert (Hhidden : exists w1,
             UIController.setProcessingState true w = (Normal tt, w1)
             /\ property display ph w1 = Some "none").
  { pose proof (find_node_is_Some _ _ _ Hph) as Sph.
    unfold UIController.setProcessingState. run. rewrite Hbtn, Hloading, Hph.
    destruct (find_node (has_id "btn-text") (page w));
      destruct (find_node (has_id "result-container") (page w));
      cbn [page ui trace fst snd];
      eexists; (split; [reflexivity|]); cbn [page ui trace fst snd]; keep;
      (apply lookup_alter_set; [intros ?; reflexivity|]);
      repeat (rewrite list_lookup_alter; case_decide; rewrite ?fmap_is_Some);
      subst; assumption. }
  destruct Hhidden as (w1 & R1 & Hnone).
  pose proof (evolves_setProcessingState true w) as E1.
  unfold bind at 1. rewrite R1 in E1 |- *. cbn [snd] in E1.
  pose proof (evolves_updateLoadingProgress mode w1) as E2.
  pose proof (updateLoadingProgress_normal mode w1) as N2.
  rewrite (element_of_frame "loading-detail" w w1 (proj1 E1)) in N2.
  specialize (N2 Hready).
  assert (K2 : keeps display (UIController.updateLoadingProgress mode))
    by (unfold UIController.updateLoadingProgress; keeps_tac).
  specialize (K2 w1 ph).
  unfold bind at 1.
  destruct (UIController.updateLoadingProgress mode w1) as [c2 w2].
  cbn [fst snd] in E2, N2, K2. subst c2.
  exists w2. split; [|split].
  - rewrite (proj1 E2). exact (proj1 E1).
  - rewrite K2. exact Hnone.
  - reflexivity.
Qed.

(** X20. A submission hides the placeholder and does not display it
    again by itself.  When [prepareContent] throws, no request is awaited
    and the flow ends with the placeholder hidden.  Otherwise the
    placeholder is hidden when the request is sent, and what runs after
    the reply, in whatever state the page is by then, writes the display
    style of no node: the placeholder is displayed at the end only if a
    handler that ran while the request was pending displayed it. *)
Theorem startModeration_hides_placeholder (net : Network) (w : World) (ph : nat) :
  let mode := currentMode (ui w) in
  (ModerationApp.validateInput mode w).1 = Normal true ->
  page_ready mode w = true ->
  element_of "placeholder" w = Some ph ->
  (forall e, (ModerationApp.prepareContent mode w).1 = Throw e ->
             property display ph (ModerationApp.startModeration net w).2 = Some "none")
  /\ (forall content,
        (ModerationApp.prepareContent mode w).1 = Normal content ->
        exists w3,
          property display ph w3 = Some "none"
          /\ ModerationApp.startModeration net w
             = after_reply mode (APIService.moderate net mode content w).1 w3)
  /\ (forall reply w' i,
        property display i (after_reply mode reply w').2 = property display i w').
Proof.
  intros mode Hvalid Hready Hph.
  destruct (flow_enters_try_hidden net w ph Hvalid Hready Hph)
    as (w2 & F2 & Hnone & ->).
  fold mode. split; [|split].
  - intros e _. rewrite (keeps_display_request_step net mode w2 ph). exact Hnone.
  - intros content Hprep.
    exists (APIService.moderate net mode content w2).2. split.
    + rewrite (keeps_display_moderate net mode content w2 ph). exact Hnone.
    + unfold after_reply. apply try_finally_at.
      unfold request_step. rewrite try_catch_bind.
      rewrite (prepareContent_anywhere mode w w2 F2), Hprep.
      rewrite try_catch_bind.
      rewrite <- (moderate_anywhere net mode content w w2).
      destruct (APIService.moderate net mode content w2) as [[result|e] w3];
        reflexivity.
  - intros reply w' i. apply keeps_display_after_reply.
Qed.

End Placeholder.

(** ** Worked examples *)

Lemma moderate_resolves_only_on_success_witness :
  let v := VObj [("success", VBool true); ("data", sample_result true num_0_7)] in
  (APIService.moderate (H := sample_builtins) net_accepts "text" (CText "hello")
     (sample_world "text" "hello" [])).1 = Normal v
  /\ exists response data success result,
       net_accepts (mkRequest "/api/moderate" "POST"
                      (Some (APIService.formData "text" (CText "hello"))) true)
       = FetchResolved response
       /\ ok response = true
       /\ json response = Normal data
       /\ getProp data "success" = Normal success /\ truthy success = true
       /\ getProp data "result" = Normal result
       /\ v = VObj [("success", VBool true); ("data", result)]
       /\ getProp v "success" = Normal (VBool true)
       /\ getProp v "data" = Normal result.
Proof.
  intros v. split; [reflexivity|].
  exact (moderate_resolves_only_on_success (H := sample_builtins) net_accepts "text"
           (CText "hello") (sample_world "text" "hello" []) v eq_refl).
Defined.

Lemma moderate_never_rejects_with_abort_witness :
  let e := Error "请求超时，请检查网络或文件大小" in
  (APIService.moderate (H := sample_builtins) net_aborts "text" (CText "hello")
     (sample_world "text" "hello" [])).1 = Throw e
  /\ err_name e <> "AbortError".
Proof.
  intros e. split; [reflexivity|].
  exact (moderate_never_rejects_with_abort (H := sample_builtins) net_aborts "text"
           (CText "hello") (sample_world "text" "hello" []) e eq_refl).
Defined.

Lemma moderate_passes_errors_through_witness :
  let w := sample_world "text" "hello" [] in
  (APIService.moderate (H := sample_builtins) net_down "text" (CText "hello") w).1
  = Throw (mkError "TypeError" "Failed to fetch")
  /\ (APIService.moderate (H := sample_builtins) net_garbled "text" (CText "hello") w).1
     = Throw (mkError "SyntaxError" "Unexpected token").
Proof.
  intros w. split.
  - refine (proj1 (moderate_passes_errors_through (H := sample_builtins) net_down
                     "text" (CText "hello") w (mkError "TypeError" "Failed to fetch") _)
                  eq_refl).
    discriminate.
  - refine (proj2 (moderate_passes_errors_through (H := sample_builtins) net_garbled
                     "text" (CText "hello") w
                     (mkError "SyntaxError" "Unexpected token") _)
                  (mkResponse 200 (Throw (mkError "SyntaxError" "Unexpected token")))
                  eq_refl eq_refl eq_refl).
    discriminate.
Defined.

Lemma validateInput_rejects_white_space_witness :
  let text := bytes [32; 227; 128; 128; 9; 194; 160; 10] in
  let w := sample_world "text" text [] in
  ModerationApp.validateInput "text" w = (Normal false, w).
Proof.
  intros text w.
  refine (validateInput_rejects_white_space w
            [bytes [32]; bytes [227; 128; 128]; bytes [9]; bytes [194; 160]; bytes [10]]
            _ eq_refl).
  repeat (apply Forall_cons_2; [vm_compute; repeat first [left; reflexivity | right]|]).
  apply Forall_nil_2.
Defined.

Lemma validateInput_accepts_visible_text_witness :
  let w := sample_world "text" "  ok " [] in
  ModerationApp.validateInput "text" w = (Normal true, w).
Proof.
  exact (validateInput_accepts_visible_text (sample_world "text" "  ok " [])
           "  " "o" "k " eq_refl eq_refl).
Defined.

Lemma prepareContent_first_file_witness :
  let w := sample_world "video" "" [video_50MB; big_video] in
  ModerationApp.prepareContent "video" w = (Normal (CFile video_50MB), w).
Proof.
  intros w.
  refine (prepareContent_first_file "video" w video_50MB [big_video] _ eq_refl _).
  - discriminate.
  - intros _. vm_compute. discriminate.
Defined.

Lemma prepareContent_after_validation_witness :
  let w := sample_world "text" "hello" [] in
  (ModerationApp.prepareContent "text" w).2 = w
  /\ (ModerationApp.prepareContent "text" w).1 = Normal (CText "hello").
Proof.
  intros w.
  pose proof (prepareContent_after_validation "text" w eq_refl)
    as (Hstate & Htext & _).
  split; [exact Hstate|]. exact (Htext eq_refl).
Defined.

Lemma getConsistencyInfo_monotone_witness :
  Consistency.class
    (UIController.getConsistencyInfo (H := sample_builtins) (VNum num_one))
  = "consistency-high"
  /\ Consistency.class
       (UIController.getConsistencyInfo (H := sample_builtins) (VNum num_zero))
     = "consistency-low".
Proof.
  split.
  - exact (proj1 (getConsistencyInfo_monotone (H := sample_builtins)
                    (VNum num_0_8) (VNum num_one) eq_refl) eq_refl).
  - exact (proj2 (getConsistencyInfo_monotone (H := sample_builtins)
                    (VNum num_zero) (VNum num_0_4) eq_refl) eq_refl).
Defined.


Lemma switchMode_single_active_witness :
  let w := sample_world "text" "hello" [] in
  let w' := (UIController.switchMode (sel := sample_selectors) "video" w).2 in
  property (has_class "active") 2 w' = Some true
  /\ property (has_class "active") 5 w' = Some true
  /\ (forall r, In r (modeTabs (ui w) ++ panels (ui w)) ->
                r <> 2 -> r <> 5 -> r < length (page w) ->
                property (has_class "active") r w' = Some false).
Proof.
  exact (switchMode_single_active (sel := sample_selectors) "video"
           (sample_world "text" "hello" []) 2 5 eq_refl eq_refl eq_refl).
Defined.

Lemma switchMode_single_active_fresh_witness :
  let w' := (UIController.switchMode (sel := sample_selectors) "video"
               (sample_world "text" "hello" [])).2 in
  property (has_class "active") 0 w' = Some false
  /\ property (has_class "active") 2 w' = Some true.
Proof.
  intros w'. split.
  - exact (switchMode_single_active_fresh (sel := sample_selectors) "video"
             (sample_world "text" "hello" []) 2 5 eq_refl eq_refl eq_refl eq_refl 0
             (sample_node None (Some "text") ["mode-tab"; "active"])
             eq_refl (or_introl eq_refl)).
  - exact (switchMode_single_active_fresh (sel := sample_selectors) "video"
             (sample_world "text" "hello" []) 2 5 eq_refl eq_refl eq_refl eq_refl 2
             (sample_node None (Some "video") ["mode-tab"])
             eq_refl (or_introl eq_refl)).
Defined.

Lemma tabClicked_switches_witness :
  let out := tabClicked (sel := sample_selectors) 2 (sample_world "text" "hello" []) in
  out.1 = Normal tt
  /\ currentMode (ui out.2) = "video"
  /\ property (has_class "active") 2 out.2 = Some true
  /\ property (has_class "active") 5 out.2 = Some true
  /\ property (has_class "show") 14 out.2 = Some false.
Proof.
  intros out.
  pose proof (tabClicked_switches (sel := sample_selectors) 2
                (sample_world "text" "hello" [])
                (sample_node None (Some "video") ["mode-tab"]) "video" 5
                eq_refl eq_refl eq_refl eq_refl eq_refl)
    as (Hdone & Hmode & Htab & Hpanel & Hresult).
  split; [exact Hdone|]. split; [exact Hmode|]. split; [exact Htab|].
  split; [exact Hpanel|]. exact (Hresult 14 eq_refl).
Defined.

Lemma tabClicked_without_mode_witness :
  let w := sample_world "text" "hello" [] in
  let out := tabClicked (sel := sample_selectors) 9 w in
  out.1 = Throw (TypeError "classList")
  /\ currentMode (ui out.2) = "undefined"
  /\ property (has_class "active") 0 out.2 = Some false
  /\ property (has_class "show") 14 out.2 = Some true.
Proof.
  intros w out.
  pose proof (tabClicked_without_mode (sel := sample_selectors) 9 w
                (sample_node (Some "moderate-btn") None [])
                eq_refl eq_refl eq_refl)
    as (Hthrows & Hmode & Hcleared & Hkept).
  split; [exact Hthrows|]. split; [exact Hmode|]. split.
  - apply (Hcleared 0); [left; reflexivity | vm_compute; lia].
  - exact (eq_trans (Hkept 14) eq_refl).
Defined.

Lemma startModeration_sends_content_witness :
  let w := sample_world "text" "hello" [] in
  exists pre post,
    trace (ModerationApp.startModeration (H := sample_builtins) net_accepts w).2
    = trace w ++ pre
              ++ EvFetch (mkRequest "/api/moderate" "POST"
                            (Some (APIService.formData "text" (CText "hello"))) true)
              :: post
    /\ forallb quiet pre = true /\ forallb quiet post = true.
Proof.
  exact (startModeration_sends_content (H := sample_builtins) net_accepts
           (sample_world "text" "hello" []) (CText "hello") eq_refl eq_refl eq_refl).
Defined.

Lemma startModeration_shows_result_witness :
  let w := sample_world "text" "hello" [] in
  let out := ModerationApp.startModeration (H := sample_builtins) net_accepts w in
  out.1 = Normal tt
  /\ isProcessing (ui out.2) = false
  /\ property textContent 15 out.2 = Some "⚠️ 中度风险"
  /\ property classList 15 out.2 = Some ["risk-badge"; "risk-warning"]
  /\ (exists html,
         (UIController.renderResultHTML (H := sample_builtins)
            (sample_result true num_0_7) "text" w).1 = Normal html
         /\ property innerHTML 16 out.2 = Some html)
  /\ property (has_class "show") 14 out.2 = Some true.
Proof.
  intros w out.
  pose proof (startModeration_shows_result (H := sample_builtins) net_accepts w
                (CText "hello")
                (VObj [("success", VBool true); ("data", sample_result true num_0_7)])
                (sample_result true num_0_7) CONFIG.UI.RISK_LEVELS.WARNING _ 15 16 14
                eq_refl eq_refl eq_refl eq_refl eq_refl eq_refl eq_refl eq_refl
                eq_refl eq_refl)
    as (Hdone & Hidle & Htext & Hclass & Hdetails & Hshown).
  split; [exact Hdone|]. split; [exact Hidle|]. split; [exact Htext|].
  split; [exact Hclass|]. split; [|exact Hshown].
  eexists. split; [reflexivity|]. exact Hdetails.
Defined.

Lemma startModeration_shows_error_witness :
  let w := sample_world "text" "hello" [] in
  let out := ModerationApp.startModeration (H := sample_builtins) net_aborts w in
  out.1 = Normal tt
  /\ isProcessing (ui out.2) = false
  /\ property innerHTML 16 out.2
     = Some (div "result-section"
               (div "error-message" "请求超时，请检查网络或文件大小"))
  /\ property textContent 15 out.2 = Some "❌ 处理失败"
  /\ property (has_class "show") 14 out.2 = Some true.
Proof.
  intros w out.
  pose proof (startModeration_shows_error (H := sample_builtins) net_aborts w
                (CText "hello") (Error "请求超时，请检查网络或文件大小") 16
                eq_refl eq_refl eq_refl eq_refl eq_refl)
    as (Hdone & Hidle & Hdetails & Hbadge & Hshown).
  split; [exact Hdone|]. split; [exact Hidle|]. split; [exact Hdetails|].
  split; [exact (Hbadge 15 eq_refl) | exact (Hshown 14 eq_refl)].
Defined.

Lemma startModeration_missing_result_witness :
  let w := sample_world "text" "hello" [] in
  let out :=
    ModerationApp.startModeration (H := sample_builtins) net_without_result w in
  out.1 = Normal tt
  /\ isProcessing (ui out.2) = false
  /\ property textContent 15 out.2 = Some "❌ 处理失败"
  /\ (exists e,
         getProp VUndefined "violation" = Throw e
         /\ property innerHTML 16 out.2
            = Some (div "result-section" (div "error-message" (err_message e)))).
Proof.
  intros w out.
  pose proof (startModeration_missing_result (H := sample_builtins)
                net_without_result w (CText "hello")
                (VObj [("success", VBool true); ("data", VUndefined)]) VUndefined
                (TypeError "violation") 15 16 14
                eq_refl eq_refl eq_refl eq_refl eq_refl eq_refl eq_refl eq_refl eq_refl)
    as (Hdone & Hidle & Hbadge & Hdetails).
  split; [exact Hdone|]. split; [exact Hidle|]. split; [exact Hbadge|].
  exists (TypeError "violation"). split; [reflexivity | exact Hdetails].
Defined.

Lemma startModeration_hides_placeholder_witness :
  let w := sample_world "video" "" [big_video] in
  let w' := sample_world "text" "hello" [] in
  property display 13
    (ModerationApp.startModeration (H := sample_builtins) net_500 w).2
  = Some "none"
  /\ (exists w3,
         property display 13 w3 = Some "none"
         /\ ModerationApp.startModeration (H := sample_builtins) net_500 w'
            = after_reply (H := sample_builtins) "text"
                (APIService.moderate (H := sample_builtins) net_500 "text"
                   (CText "hello") w').1 w3).
Proof.
  intros w w'. split.
  - exact (proj1 (startModeration_hides_placeholder (H := sample_builtins) net_500
                    w 13 eq_refl eq_refl eq_refl)
             (Error "视频文件过大（60.0MB），请限制在50MB以内") eq_refl).
  - exact (proj1 (proj2 (startModeration_hides_placeholder (H := sample_builtins)
                           net_500 w' 13 eq_refl eq_refl eq_refl))
             (CText "hello") eq_refl).
Defined.
